(** * Intelligent package carrier: navigation core

    A shallow embedding of the navigation core of the tracked robot
    (marker localizer, ultrasonic avoidance state machine, motion
    synthesizer, mode orchestrator) together with the properties its
    specification states about it.

    Conventions of the embedding.
    - Python floats are read as exact rationals ([Q]): rounding, NaN and
      infinities are outside the model.
    - A Python dict read with [d.get(k, default)] is a record whose field
      is an [option]; a subscript [d[k]] on an absent key raises, which the
      embedding renders as the result [None].
    - [time.time()] is an input of the embedding: a function or a value
      handed to the operation that reads the clock.
    - Mutable attributes of an object are the fields of a state record that
      each operation takes and returns. *)

From Stdlib Require Import QArith Qabs Qround Lqa Lia ZArith.
From Stdlib Require Import List String Bool.
Import ListNotations.

Open Scope Q_scope.

(** ** Python arithmetic on rationals *)

Module Py.

(** [a < b] *)
Definition ltb (a b : Q) : bool := negb (Qle_bool b a).
(** [a <= b] *)
Definition leb (a b : Q) : bool := Qle_bool a b.

(** [max(a, b)]: the first argument unless the second is greater. *)
Definition max (a b : Q) : Q := if ltb a b then b else a.
(** [min(a, b)]: the first argument unless the second is smaller. *)
Definition min (a b : Q) : Q := if ltb b a then b else a.

(** [x % m] on floats: the remainder has the sign of the divisor. *)
Definition mod_ (x m : Q) : Q := x - m * inject_Z (Qfloor (x / m)).

(** [a / b], which raises [ZeroDivisionError] when [b] is zero. *)
Definition div (a b : Q) : option Q :=
  if Qeq_bool b 0 then None else Some (a / b).

End Py.

(** ** Data exchanged between the components *)

(** The [offsets] dict built by [QRDetector._compute_offsets]. *)
Record Offsets := mkOffsets {
  cx_off : Q;
  cy_off : Q;
  yaw_trend : Q;
  pitch_trend : Q
}.

(** The dict handed to [compute] as [qr_state].  [detect] returns
    [{"lost": True}] alone when nothing is found, so every key may be
    absent. *)
Record QrState := mkQrState {
  qr_lost : option bool;
  qr_distance_cm : option Q;
  qr_offsets : option Offsets
}.

(** The dict handed to [compute] as [obstacle_state]: the keys of
    [ObstacleSensor.update] and the ones [TrackSystem.run] adds.  The
    value under [action] is a string or Python's [None], so the field is
    [None] for an absent key and [Some None] for the value [None]. *)
Record ObstacleState := mkObstacleState {
  obstacle_near : option bool;
  need_stop : option bool;
  avoid_mode : option bool;
  action : option (option string);
  distance_cm : option Q;
  obstacle_type : option string;
  ground_obstacle_confirmed : option bool
}.

(** The dict [compute] returns. *)
Record MotionCommand := mkMotionCommand {
  left_speed : Q;
  right_speed : Q;
  mode : string;
  rotation_estimate : Q
}.

(** [d.get(k, default)] *)
Definition get {A} (field : option A) (default : A) : A :=
  match field with Some v => v | None => default end.

(** [action == name] for a value that is a string or [None]. *)
Definition is_action (act : option string) (name : string) : bool :=
  match act with
  | Some a => String.eqb a name
  | None => false
  end.

(** ** Motion synthesizer with smart avoidance
    (intelligent_package_carrier_rasp4B_single_cam/motion_controller.py) *)

Module SmartMotion.

(** The attributes [__init__] reads from [speed_params.json]. *)
Record Config := mkConfig {
  base_forward : Q;
  forward_comp : Q;
  base_turn : Q;
  turn_comp : Q;
  dead_zone_px : Q;
  kp_dist : Q;
  kp_pitch : Q;
  kp_yaw : Q;
  max_speed : Q;
  min_speed : Q;
  track_far : Q;
  stop_near : Q;
  obstacle_safe_distance : Q;
  obstacle_stop_distance : Q;
  search_base_speed : Q;
  search_turn_gain : Q;
  max_rotation_deviation : Q
}.

(** The values [__init__] falls back to when a key is missing. *)
Definition default_config : Config := {|
  base_forward := 0.35;
  forward_comp := 0.8;
  base_turn := 0.28;
  turn_comp := 0.45;
  dead_zone_px := 25;
  kp_dist := 0.015;
  kp_pitch := 0.01;
  kp_yaw := 0.004;
  max_speed := 1;
  min_speed := -1;
  track_far := 120;
  stop_near := 22;
  obstacle_safe_distance := 30;
  obstacle_stop_distance := 12;
  search_base_speed := 0.2;
  search_turn_gain := 0.3;
  max_rotation_deviation := 60
|}.

(** The state variables of the controller. *)
Record State := mkState {
  last_mode : string;
  cumulative_rotation : Q;
  last_left_speed : Q;
  last_right_speed : Q;
  last_update_time : Q;
  target_direction_history : list Q;
  Halt : Q
}.

Definition max_history : nat := 20.

(** The state [__init__] builds at clock reading [t0]. *)
Definition init (t0 : Q) : State := {|
  last_mode := "idle";
  cumulative_rotation := 0;
  last_left_speed := 0;
  last_right_speed := 0;
  last_update_time := t0;
  target_direction_history := [];
  Halt := 1
|}.

(** The optional [extra_info] dict of [compute]. *)
Record ExtraInfo := mkExtraInfo {
  target_direction : option Q;
  qr_lost_timer : option Q
}.

Section Controller.

Variable cfg : Config.

Definition _clamp (v : Q) : Q :=
  Py.max (min_speed cfg) (Py.min (max_speed cfg) v).

Definition _estimate_rotation (left_ right_ dt : Q) : Q :=
  if Py.leb dt 0 then 0
  else
    let max_speed_diff := 0.5 in
    let max_rotation_rate := 180 in
    let speed_diff := right_ - left_ in
    let rotation_rate := (speed_diff / max_speed_diff) * max_rotation_rate in
    let rotation_change := rotation_rate * dt in
    rotation_change.

(** [_update_rotation_estimate]; [current_time] is what [time.time()]
    returns in the call. *)
Definition _update_rotation_estimate
    (st : State) (current_time left_ right_ : Q) : State * Q :=
  let dt := current_time - last_update_time st in
  let cum :=
    if Py.ltb 0 dt then
      let rotation_change :=
        _estimate_rotation (last_left_speed st) (last_right_speed st) dt in
      let c := cumulative_rotation st + rotation_change in
      if Py.ltb 360 (Qabs c) then Py.mod_ c 360 else c
    else cumulative_rotation st in
  ({| last_mode := last_mode st;
      cumulative_rotation := cum;
      last_left_speed := left_;
      last_right_speed := right_;
      last_update_time := current_time;
      target_direction_history := target_direction_history st;
      Halt := Halt st |}, cum).

(** [_search_toward_target]; [halt] is [self.Halt]. *)
Definition _search_toward_target
    (halt target_dir cumulative : Q) : Q * Q * string :=
  let target_direction_clipped := Py.max (-100) (Py.min 100 target_dir) in
  let '(left_, right_, m) :=
    if Py.ltb (max_rotation_deviation cfg) (Qabs cumulative) then
      if Py.ltb 0 cumulative then
        (- search_base_speed cfg * 0.8 * halt,
         search_base_speed cfg * 0.8 * halt,
         "search_correct_left"%string)
      else
        (search_base_speed cfg * 0.8 * halt,
         - search_base_speed cfg * 0.8 * halt,
         "search_correct_right"%string)
    else
      let direction_factor := target_direction_clipped / 100 in
      if Py.ltb (Qabs direction_factor) 0.1 then
        (search_base_speed cfg * halt,
         search_base_speed cfg * halt,
         "search_forward"%string)
      else
        let turn_strength := Qabs direction_factor * search_turn_gain cfg in
        if Py.ltb 0 direction_factor then
          (search_base_speed cfg * halt,
           search_base_speed cfg * (1 - turn_strength) * halt,
           "search_right"%string)
        else
          (search_base_speed cfg * (1 - turn_strength) * halt,
           search_base_speed cfg * halt,
           "search_left"%string) in
  (Py.max 0 left_, Py.max 0 right_, m).

(** [_smart_avoidance].  Its first effect is to set [self.Halt] from
    [need_stop]; the new value is returned with the speeds. *)
Definition _smart_avoidance
    (obst : ObstacleState) (target_dir cumulative : Q)
    : Q * (Q * Q * string) :=
  let act := get (action obst) None in
  let distance := get (distance_cm obst) 9999 in
  let ground_obstacle := get (ground_obstacle_confirmed obst) false in
  let halt : Q :=
    match need_stop obst with Some true => 0 | _ => 1 end in
  let bt := base_turn cfg in
  let res :=
    if Py.leb distance (obstacle_stop_distance cfg) then
      let '(left_, right_, m) :=
        if Py.ltb 0 target_dir then
          (- bt * 0.3 * halt, bt * 0.3 * halt,
           "emergency_avoid_left"%string)
        else
          (bt * 0.3 * halt, - bt * 0.3 * halt,
           "emergency_avoid_right"%string) in
      (_clamp left_, _clamp right_, m)
    else
      if is_action act "stop" then
        if Py.ltb (Qabs cumulative) (max_rotation_deviation cfg) then
          if Py.ltb 10 target_dir then
            (bt * 0.15 * halt, - bt * 0.15 * halt,
             "stop_adjust_right"%string)
          else if Py.ltb target_dir (-10) then
            (- bt * 0.15 * halt, bt * 0.15 * halt,
             "stop_adjust_left"%string)
          else (0, 0, "stop"%string)
        else (0, 0, "stop_too_far"%string)
      else if is_action act "right" then
        let '(left_, right_, m) :=
          if Py.ltb target_dir (-20) then
            let factor := 0.6 in
            (- bt * factor * halt, bt * factor * halt,
             "avoid_right_soft"%string)
          else
            (- bt * halt, bt * halt, "avoid_right"%string) in
        if ground_obstacle then
          let forward_component := search_base_speed cfg * 0.2 in
          (_clamp (left_ + forward_component),
           _clamp (right_ + forward_component), m)
        else (left_, right_, m)
      else if is_action act "left" then
        let '(left_, right_, m) :=
          if Py.ltb 20 target_dir then
            let factor := 0.6 in
            (bt * factor * halt, - bt * factor * halt,
             "avoid_left_soft"%string)
          else
            (bt * halt, - bt * halt, "avoid_left"%string) in
        if ground_obstacle then
          let forward_component := search_base_speed cfg * 0.2 in
          (_clamp (left_ + forward_component),
           _clamp (right_ + forward_component), m)
        else (left_, right_, m)
      else if is_action act "forward" then
        let base_speed := base_forward cfg * 0.6 in
        if Py.ltb 20 target_dir then
          (base_speed * 1.2 * halt, base_speed * 0.8 * halt,
           "forward_lean_right"%string)
        else if Py.ltb target_dir (-20) then
          (base_speed * 0.8 * halt, base_speed * 1.2 * halt,
           "forward_lean_left"%string)
        else
          (base_speed * halt, base_speed * halt, "forward"%string)
      else _search_toward_target halt target_dir cumulative in
  (halt, res).

(** [_normal_tracking]; [None] is the exception of a missing key or of
    the division by [track_far - stop_near] when that is zero. *)
Definition _normal_tracking
    (qr : QrState) (obst : ObstacleState) : option (Q * Q * string) :=
  match qr_distance_cm qr, qr_offsets qr with
  | Some dist, Some off =>
      let cx := cx_off off in
      let pitch := pitch_trend off in
      let ultrasonic_distance := get (distance_cm obst) 9999 in
      let otype := get (obstacle_type obst) "unknown"%string in
      if String.eqb otype "ground_obstacle"
         && Py.ltb ultrasonic_distance (obstacle_safe_distance cfg)
         && Py.ltb ultrasonic_distance (dist * 0.8)
      then
        let '(left_, right_, m) :=
          if Py.ltb 0 cx then
            (base_forward cfg * 0.7, base_forward cfg * 0.9,
             "track_avoid_left"%string)
          else
            (base_forward cfg * 0.9, base_forward cfg * 0.7,
             "track_avoid_right"%string) in
        if Py.ltb 5 pitch then Some (left_ * 1.1, right_ * 1.1, m)
        else if Py.ltb pitch (-5) then Some (left_ * 0.9, right_ * 0.9, m)
        else Some (left_, right_, m)
      else if Py.leb dist (stop_near cfg) then
        Some (0, 0, "near_stop"%string)
      else
        match Py.div (dist - stop_near cfg)
                     (track_far cfg - stop_near cfg) with
        | None => None
        | Some ratio =>
            let distance_factor := Py.min 1 ratio in
            let forward :=
              base_forward cfg
              + distance_factor * (max_speed cfg - base_forward cfg) in
            let forward :=
              if Py.ltb 5 pitch then forward * 1.1
              else if Py.ltb pitch (-5) then forward * 0.9
              else forward in
            let forward := Py.min forward (max_speed cfg) in
            let '(l, r, m) :=
              if Py.ltb (Qabs cx) (dead_zone_px cfg) then
                (forward, forward, "forward"%string)
              else
                let turn_strength := Py.min (Qabs cx / 100) 1 in
                if Py.ltb 0 cx then
                  (forward,
                   forward * (1 - turn_strength * turn_comp cfg),
                   "turn_right"%string)
                else
                  (forward * (1 - turn_strength * turn_comp cfg),
                   forward,
                   "turn_left"%string) in
            Some (Py.max 0 l, Py.max 0 r, m)
        end
  | _, _ => None
  end.

(** [history.append(x)] followed by [pop(0)] beyond [max_history]. *)
Definition push_history (h : list Q) (x : Q) : list Q :=
  let h' := h ++ [x] in
  if Nat.ltb max_history (List.length h') then List.tl h' else h'.

(** [compute]; [now] is the reading of [time.time()] in the tick.  The
    result [None] is an exception leaving [compute]; the object is not
    followed past it. *)
Definition compute
    (st : State) (now : Q)
    (qr : QrState) (obst : ObstacleState) (extra_info : option ExtraInfo)
    : option (MotionCommand * State) :=
  let target_dir :=
    match extra_info with
    | Some ei => get (target_direction ei) 0
    | None => 0
    end in
  let '(st1, cumulative) :=
    _update_rotation_estimate st now
      (last_left_speed st) (last_right_speed st) in
  let outcome : option (Q * Q * string * list Q * Q) :=
    if negb (get (qr_lost qr) true) then
      match _normal_tracking qr obst with
      | Some (left_, right_, m) =>
          Some (left_, right_, m,
                push_history (target_direction_history st1) target_dir,
                Halt st1)
      | None => None
      end
    else if get (obstacle_near obst) false then
      match distance_cm obst with
      | None => None
      | Some _ =>
          let '(halt, (left_, right_, m)) :=
            _smart_avoidance obst target_dir cumulative in
          Some (left_, right_, m, target_direction_history st1, halt)
      end
    else
      let '(left_, right_, m) :=
        _search_toward_target (Halt st1) target_dir cumulative in
      Some (left_, right_, m, target_direction_history st1, Halt st1) in
  match outcome with
  | None => None
  | Some (left_, right_, m, hist, halt) =>
      Some ({| left_speed := left_;
               right_speed := right_;
               mode := m;
               rotation_estimate := cumulative |},
            {| last_mode := m;
               cumulative_rotation := cumulative_rotation st1;
               last_left_speed := left_ * 0.7;
               last_right_speed := right_;
               last_update_time := last_update_time st1;
               target_direction_history := hist;
               Halt := halt |})
  end.

End Controller.

End SmartMotion.

(** ** Ultrasonic avoidance state machine
    (intelligent_package_carrier_rasp4B_single_cam/obstacle_sensor.py) *)

Module ObstacleSensor.

(** The names [_start_phase] is called with. *)
Inductive PhaseName :=
  | STOP_CLOSE | TURN_RIGHT | FORWARD_1 | TURN_LEFT | FORWARD_2.

(** [self.phase]: a phase name or Python's [None]. *)
Definition Phase := option PhaseName.

Definition phase_eqb (p q : Phase) : bool :=
  match p, q with
  | None, None => true
  | Some STOP_CLOSE, Some STOP_CLOSE
  | Some TURN_RIGHT, Some TURN_RIGHT
  | Some FORWARD_1, Some FORWARD_1
  | Some TURN_LEFT, Some TURN_LEFT
  | Some FORWARD_2, Some FORWARD_2 => true
  | _, _ => false
  end.

(** Thresholds and dwell times kept by [__init__]. *)
Record Config := mkConfig {
  safe_distance_cm : Q;
  stop_distance_cm : Q;
  right_turn_time : Q;
  forward_time_1 : Q;
  left_turn_time : Q;
  forward_time_2 : Q
}.

(** [self.filter_size], the window of the median filter. *)
Definition filter_size : nat := 5.

(** [__init__] on the values of the [obstacle] section of the speed
    file: every dwell time is capped at five seconds. *)
Definition make_config (safe stop rt f1 lt f2 : Q) : Config :=
  let max_reasonable_time := 5 in
  {| safe_distance_cm := safe;
     stop_distance_cm := stop;
     right_turn_time := Py.min rt max_reasonable_time;
     forward_time_1 := Py.min f1 max_reasonable_time;
     left_turn_time := Py.min lt max_reasonable_time;
     forward_time_2 := Py.min f2 max_reasonable_time |}.

Definition default_config : Config := make_config 30 12 0.8 0.6 0.8 0.6.

(** The mutable attributes of the sensor object. *)
Record Sensor := mkSensor {
  avoid_mode : bool;
  phase : Phase;
  phase_start : Q;
  last_distance : Q;
  consecutive_readings : list Q;
  dynamic_safe_distance : Q
}.

Definition init (cfg : Config) : Sensor := {|
  avoid_mode := false;
  phase := None;
  phase_start := 0;
  last_distance := 9999;
  consecutive_readings := [];
  dynamic_safe_distance := safe_distance_cm cfg
|}.

(** The dict built by [_create_state]. *)
Record Report := mkReport {
  r_obstacle_near : bool;
  r_need_stop : bool;
  r_avoid_mode : bool;
  r_phase : Phase;
  r_action : option string;
  r_distance_cm : Q;
  r_safe_distance : Q
}.

(** What an operation runs in: the sensor object, the number of clock
    readings taken so far, and the history of the values assigned to
    [self.phase], the latest first (a ghost field, the code keeps no such
    history). *)
Record World := mkWorld {
  sensor : Sensor;
  reads : nat;
  assigned : list Phase
}.

Definition M (A : Type) : Type := World -> A * World.

Definition ret {A} (a : A) : M A := fun w => (a, w).

Definition bind {A B} (m : M A) (k : A -> M B) : M B :=
  fun w => let '(a, w') := m w in k a w'.

Notation "x <- m ;; k" := (bind m (fun x => k))
  (at level 61, m at next level, right associativity).
Notation "m ;;; k" := (bind m (fun _ => k))
  (at level 61, right associativity).

Definition gets {A} (f : Sensor -> A) : M A :=
  fun w => (f (sensor w), w).

Definition modify (f : Sensor -> Sensor) : M unit :=
  fun w => (tt, {| sensor := f (sensor w);
                   reads := reads w;
                   assigned := assigned w |}).

(** Sequential [if ...: return ...] blocks: the first that returns
    wins, the others are not run. *)
Definition or_else {A} (m : M (option A)) (k : M A) : M A :=
  r <- m ;; match r with Some a => ret a | None => k end.

Definition set_avoid_mode (b : bool) (s : Sensor) : Sensor :=
  {| avoid_mode := b;
     phase := phase s;
     phase_start := phase_start s;
     last_distance := last_distance s;
     consecutive_readings := consecutive_readings s;
     dynamic_safe_distance := dynamic_safe_distance s |}.

Definition set_phase_start (t : Q) (s : Sensor) : Sensor :=
  {| avoid_mode := avoid_mode s;
     phase := phase s;
     phase_start := t;
     last_distance := last_distance s;
     consecutive_readings := consecutive_readings s;
     dynamic_safe_distance := dynamic_safe_distance s |}.

Definition set_last_distance (d : Q) (s : Sensor) : Sensor :=
  {| avoid_mode := avoid_mode s;
     phase := phase s;
     phase_start := phase_start s;
     last_distance := d;
     consecutive_readings := consecutive_readings s;
     dynamic_safe_distance := dynamic_safe_distance s |}.

Definition set_consecutive_readings (l : list Q) (s : Sensor) : Sensor :=
  {| avoid_mode := avoid_mode s;
     phase := phase s;
     phase_start := phase_start s;
     last_distance := last_distance s;
     consecutive_readings := l;
     dynamic_safe_distance := dynamic_safe_distance s |}.

Definition set_dynamic_safe_distance (d : Q) (s : Sensor) : Sensor :=
  {| avoid_mode := avoid_mode s;
     phase := phase s;
     phase_start := phase_start s;
     last_distance := last_distance s;
     consecutive_readings := consecutive_readings s;
     dynamic_safe_distance := d |}.

(** [self.phase = p], recorded in the history. *)
Definition assign_phase (p : Phase) : M unit :=
  fun w =>
    (tt, {| sensor := {| avoid_mode := avoid_mode (sensor w);
                         phase := p;
                         phase_start := phase_start (sensor w);
                         last_distance := last_distance (sensor w);
                         consecutive_readings :=
                           consecutive_readings (sensor w);
                         dynamic_safe_distance :=
                           dynamic_safe_distance (sensor w) |};
            reads := reads w;
            assigned := p :: assigned w |}).

(** [sorted(l)]: ascending and stable, an element goes before the
    first one of the sorted tail that is not smaller. *)
Fixpoint insert_sorted (x : Q) (l : list Q) : list Q :=
  match l with
  | [] => [x]
  | y :: l' => if Py.leb x y then x :: l else y :: insert_sorted x l'
  end.

Fixpoint sorted (l : list Q) : list Q :=
  match l with
  | [] => []
  | x :: l' => insert_sorted x (sorted l')
  end.

(** [max(l)] and [min(l)] of a list with head [x]. *)
Definition list_max (x : Q) (l : list Q) : Q := fold_left Py.max l x.
Definition list_min (x : Q) (l : list Q) : Q := fold_left Py.min l x.

Section Machine.

Variable cfg : Config.
(** [clock n] is what the [n]-th call of [time.time()] returns. *)
Variable clock : nat -> Q.

Definition time_time : M Q :=
  fun w => (clock (reads w),
            {| sensor := sensor w;
               reads := S (reads w);
               assigned := assigned w |}).

Definition _start_phase (name : PhaseName) : M unit :=
  assign_phase (Some name) ;;;
  t <- time_time ;;
  modify (set_phase_start t).

Definition _phase_elapsed : M Q :=
  t <- time_time ;;
  t0 <- gets phase_start ;;
  ret (t - t0).

Definition _median_filter (new_distance : Q) : M Q :=
  l <- gets consecutive_readings ;;
  let l1 := l ++ [new_distance] in
  let l2 := if Nat.ltb filter_size (List.length l1)
            then List.tl l1 else l1 in
  modify (set_consecutive_readings l2) ;;;
  let sorted_readings := sorted l2 in
  let median_index := Nat.div (List.length sorted_readings) 2 in
  ret (nth median_index sorted_readings 0).

Definition _dynamic_threshold_adjust (distance : Q) : M Q :=
  l <- gets consecutive_readings ;;
  (if Nat.leb filter_size (List.length l) then
     match l with
     | [] => ret tt
     | x :: l' =>
         let readings_range := list_max x l' - list_min x l' in
         if Py.ltb readings_range 5
         then modify (set_dynamic_safe_distance
                        (safe_distance_cm cfg * 1.1))
         else modify (set_dynamic_safe_distance (safe_distance_cm cfg))
     end
   else ret tt) ;;;
  gets dynamic_safe_distance.

(** [read_distance]; [raw] is what [float(self.reader())] gives, [None]
    when it raises. *)
Definition read_distance (raw : option Q) : M Q :=
  match raw with
  | None => gets last_distance
  | Some raw_distance =>
      if Py.leb raw_distance 0 then gets last_distance
      else if Py.leb 9999 raw_distance then ret 9999
      else
        filtered_distance <- _median_filter raw_distance ;;
        modify (set_last_distance filtered_distance) ;;;
        _dynamic_threshold_adjust filtered_distance ;;;
        ret filtered_distance
  end.

Definition _create_state
    (near stop : bool) (p : Phase) (act : option string)
    (distance safe_distance : Q) : M Report :=
  am <- gets avoid_mode ;;
  ret {| r_obstacle_near := near;
         r_need_stop := stop;
         r_avoid_mode := am;
         r_phase := p;
         r_action := act;
         r_distance_cm := distance;
         r_safe_distance := safe_distance |}.

(** One block [if self.phase == name: ...] of the sequence: it
    returns while the dwell time runs, otherwise it starts [next]
    and control falls to the following block. *)
Definition phase_block
    (name : PhaseName) (dwell : Q) (act : string) (next : PhaseName)
    (d safe : Q) : M (option Report) :=
  p <- gets phase ;;
  if phase_eqb p (Some name) then
    e <- _phase_elapsed ;;
    if Py.ltb e dwell then
      r <- _create_state true false (Some name) (Some act) d safe ;;
      ret (Some r)
    else
      _phase_elapsed ;;;
      _start_phase next ;;;
      ret None
  else ret None.

(** The last block: when [FORWARD_2] is over the phase becomes
    [None] and the call returns. *)
Definition forward_2_block (d safe : Q) : M (option Report) :=
  p <- gets phase ;;
  if phase_eqb p (Some FORWARD_2) then
    e <- _phase_elapsed ;;
    if Py.ltb e (forward_time_2 cfg) then
      r <- _create_state true false (Some FORWARD_2)
             (Some "forward"%string) d safe ;;
      ret (Some r)
    else
      _phase_elapsed ;;;
      assign_phase None ;;;
      r <- _create_state (Py.leb d safe) false None None d safe ;;
      ret (Some r)
  else ret None.

Definition update (raw : option Q) : M Report :=
  d <- read_distance raw ;;
  current_safe_distance <- gets dynamic_safe_distance ;;
  if Py.leb d (stop_distance_cm cfg) then
    modify (set_avoid_mode true) ;;;
    _start_phase STOP_CLOSE ;;;
    _create_state true true (Some STOP_CLOSE) (Some "stop"%string)
      d current_safe_distance
  else
    am <- gets avoid_mode ;;
    (if Py.leb d current_safe_distance && negb am then
       modify (set_avoid_mode true) ;;;
       _start_phase TURN_RIGHT
     else ret tt) ;;;
    am <- gets avoid_mode ;;
    p <- gets phase ;;
    (if Py.ltb (current_safe_distance * 1.8) d && am
        && phase_eqb p None
     then modify (set_avoid_mode false)
     else ret tt) ;;;
    am <- gets avoid_mode ;;
    if negb am then
      _create_state false false None None d current_safe_distance
    else
      or_else (phase_block TURN_RIGHT (right_turn_time cfg) "right"
                 FORWARD_1 d current_safe_distance)
     (or_else (phase_block FORWARD_1 (forward_time_1 cfg) "forward"
                 TURN_LEFT d current_safe_distance)
     (or_else (phase_block TURN_LEFT (left_turn_time cfg) "left"
                 FORWARD_2 d current_safe_distance)
     (or_else (forward_2_block d current_safe_distance)
       (p <- gets phase ;;
        _create_state (Py.leb d current_safe_distance) false p None
          d current_safe_distance)))).

(** The world before the first poll. *)
Definition start : World :=
  {| sensor := init cfg; reads := 0%nat; assigned := [] |}.

(** A sequence of polls, one raw reading each; the reports come out
    in order. *)
Fixpoint polls (raws : list (option Q)) : M (list Report) :=
  match raws with
  | [] => ret []
  | raw :: rest =>
      r <- update raw ;;
      rs <- polls rest ;;
      ret (r :: rs)
  end.

End Machine.

End ObstacleSensor.


(** ** Baseline avoidance state machine (src/obstacle_sensor.py) *)

Module BaseObstacleSensor.

Import ObstacleSensor.

(** The dict the baseline [update] returns: no [safe_distance] key. *)
Record Report := mkReport {
  b_obstacle_near : bool;
  b_need_stop : bool;
  b_avoid_mode : bool;
  b_phase : Phase;
  b_action : option string;
  b_distance_cm : Q
}.

Section Machine.

(** The baseline object keeps [avoid_mode], [phase] and [phase_start]
    only, and its dwell times are not capped; it runs in the same world
    as the other variant, whose remaining attributes it never touches. *)
Variable cfg : Config.
Variable clock : nat -> Q.

(** [read_distance]: what the reader gives, 9999 when it raises. *)
Definition read_distance (raw : option Q) : M Q :=
  ret (match raw with Some d => d | None => 9999 end).

Definition _state (p : Phase) (act : option string) (d : Q) : Report :=
  {| b_obstacle_near := Py.leb d (safe_distance_cm cfg);
     b_need_stop := phase_eqb p (Some STOP_CLOSE);
     b_avoid_mode := true;
     b_phase := p;
     b_action := act;
     b_distance_cm := d |}.

Definition phase_block
    (name : PhaseName) (dwell : Q) (act : string) (next : PhaseName)
    (d : Q) : M (option Report) :=
  p <- gets phase ;;
  if phase_eqb p (Some name) then
    e <- _phase_elapsed clock ;;
    if Py.ltb e dwell then ret (Some (_state (Some name) (Some act) d))
    else _start_phase clock next ;;; ret None
  else ret None.

Definition forward_2_block (d : Q) : M (option Report) :=
  p <- gets phase ;;
  if phase_eqb p (Some FORWARD_2) then
    e <- _phase_elapsed clock ;;
    if Py.ltb e (forward_time_2 cfg)
    then ret (Some (_state (Some FORWARD_2) (Some "forward"%string) d))
    else assign_phase None ;;; ret (Some (_state None None d))
  else ret None.

Definition update (raw : option Q) : M Report :=
  d <- read_distance raw ;;
  if Py.leb d (stop_distance_cm cfg) then
    modify (set_avoid_mode true) ;;;
    _start_phase clock STOP_CLOSE ;;;
    ret {| b_obstacle_near := true;
           b_need_stop := true;
           b_avoid_mode := true;
           b_phase := Some STOP_CLOSE;
           b_action := Some "stop"%string;
           b_distance_cm := d |}
  else
    am <- gets avoid_mode ;;
    (if Py.leb d (safe_distance_cm cfg) && negb am then
       modify (set_avoid_mode true) ;;;
       _start_phase clock TURN_RIGHT
     else ret tt) ;;;
    am <- gets avoid_mode ;;
    p <- gets phase ;;
    (if Py.ltb (safe_distance_cm cfg * 1.5) d && am && phase_eqb p None
     then modify (set_avoid_mode false)
     else ret tt) ;;;
    am <- gets avoid_mode ;;
    if negb am then
      ret {| b_obstacle_near := false;
             b_need_stop := false;
             b_avoid_mode := false;
             b_phase := None;
             b_action := None;
             b_distance_cm := d |}
    else
      or_else (phase_block TURN_RIGHT (right_turn_time cfg) "right"
                 FORWARD_1 d)
     (or_else (phase_block FORWARD_1 (forward_time_1 cfg) "forward"
                 TURN_LEFT d)
     (or_else (phase_block TURN_LEFT (left_turn_time cfg) "left"
                 FORWARD_2 d)
     (or_else (forward_2_block d)
       (p <- gets phase ;; ret (_state p None d))))).

End Machine.

End BaseObstacleSensor.

(** ** Marker localizer
    (intelligent_package_carrier_rasp4B_single_cam/qr_detector.py)

    [_estimate_distance] and [_compute_offsets] are the same code in
    src/qr_detector.py.  The [detect] of that file unpacks three names
    from the four values [detectAndDecodeMulti] returns, which raises
    [ValueError] before its loop is reached; it is not embedded. *)

Module QRDetector.

(** A pixel position or a difference of two. *)
Definition Point : Type := Q * Q.

(** The four corners the decoder reports for one marker, in order. *)
Definition Corners : Type := Point * Point * Point * Point.

Definition sub (a b : Point) : Point := (fst a - fst b, snd a - snd b).

(** Intrinsics and marker size read by [__init__]. *)
Record Config := mkConfig {
  fx : Q;
  fy : Q;
  cx : Q;
  cy : Q;
  qr_size_cm : Q
}.

(** What [detect] unpacks from [detectAndDecodeMulti]: the success
    flag, the decoded strings and the corner sets, which may be [None];
    the fourth value, the rectified images, is not read. *)
Record Decoded := mkDecoded {
  retval : bool;
  data_list : list string;
  pts_list : option (list Corners)
}.

(** The dict [detect] returns for a target; [{"lost": True}] is [None]. *)
Record Target := mkTarget {
  data : string;
  target_distance_cm : Q;
  offsets : Offsets;
  points : Corners
}.

(** [zip(a, b)] stops at the shorter list. *)
Fixpoint zip {A B} (a : list A) (b : list B) : list (A * B) :=
  match a, b with
  | x :: a', y :: b' => (x, y) :: zip a' b'
  | _, _ => []
  end.

(** [not data] for a string. *)
Definition is_empty (s : string) : bool :=
  match s with EmptyString => true | _ => false end.

(** For concrete inputs: the Euclidean length of a vector whose second
    component is zero. *)
Definition horizontal_norm (v : Point) : Q := Qabs (fst v).

Section Detector.

Variable cfg : Config.
(** [np.linalg.norm] on a two-component vector: the Euclidean length as
    NumPy computes it. *)
Variable norm : Point -> Q.

(** The length the code calls [pixel_size]: the mean of the norms of the
    edges [p2 - p1] and [p3 - p4]. *)
Definition pixel_size (pts : Corners) : Q :=
  let '(p1, p2, p3, p4) := pts in
  let width1 := norm (sub p2 p1) in
  let width2 := norm (sub p3 p4) in
  (width1 + width2) / 2.

Definition _estimate_distance (pts : Corners) : option Q :=
  let ps := pixel_size pts in
  if Py.ltb ps 0.00001 then None
  else Some ((qr_size_cm cfg * fx cfg) / ps).

Definition _compute_offsets (pts : Corners) : Offsets :=
  let '(p0, p1, p2, p3) := pts in
  let center_x := (fst p0 + fst p1 + fst p2 + fst p3) / 4 in
  let center_y := (snd p0 + snd p1 + snd p2 + snd p3) / 4 in
  let left_vec := sub p0 p3 in
  let right_vec := sub p1 p2 in
  let top_y := (snd p0 + snd p1) / 2 in
  let bottom_y := (snd p2 + snd p3) / 2 in
  {| cx_off := center_x - cx cfg;
     cy_off := center_y - cy cfg;
     yaw_trend := (snd left_vec - snd right_vec) / 2;
     pitch_trend := bottom_y - top_y |}.

(** The loop variables [best_target] and [best_dist]. *)
Definition Best : Type := option (string * Corners * Q) * Q.

Definition no_best : Best := (None, 1000000000).

(** The body of the loop of [detect]. *)
Definition consider (best : Best) (cand : string * Corners) : Best :=
  let '(d, pts) := cand in
  if is_empty d then best
  else if Py.ltb (pixel_size pts) 20 then best
  else
    match _estimate_distance pts with
    | None => best
    | Some dist =>
        if Py.ltb dist (snd best) then (Some (d, pts, dist), dist)
        else best
    end.

(** The end of [detect], past the loop. *)
Definition conclude (best : Best) : option Target :=
  match fst best with
  | None => None
  | Some (d, pts, dist) =>
      Some {| data := d;
              target_distance_cm := dist;
              offsets := _compute_offsets pts;
              points := pts |}
  end.

Definition detect (frame : Decoded) : option Target :=
  match pts_list frame with
  | None => None
  | Some pl =>
      if negb (retval frame)
         || Nat.eqb (List.length (data_list frame)) 0
      then None
      else conclude (fold_left consider (zip (data_list frame) pl) no_best)
  end.

End Detector.

End QRDetector.

(** ** Obstacle-type classification (TrackSystem.analyze_obstacle_type) *)

Module TrackSystem.

(** [qr_distance] may be Python's [None]; the result [None] is the
    [ZeroDivisionError] of a zero marker distance. *)
Definition analyze_obstacle_type
    (qr_distance : option Q) (ultrasonic_distance : Q) : option string :=
  match qr_distance with
  | None => Some "unknown"%string
  | Some qd =>
      if Py.ltb 300 ultrasonic_distance then Some "unknown"%string
      else
        match Py.div ultrasonic_distance qd with
        | None => None
        | Some ratio =>
            if Py.leb 0.8 ratio && Py.leb ratio 1.2
            then Some "wall_qr"%string
            else if Py.ltb ratio 0.8 then Some "ground_obstacle"%string
            else Some "error_or_tilted"%string
        end
  end.

End TrackSystem.

(** ** Baseline motion controller (src/motion_controller.py) *)

Module BaseMotion.

Record Config := mkConfig {
  base_forward : Q;
  forward_comp : Q;
  base_turn : Q;
  turn_comp : Q;
  dead_zone_px : Q;
  kp_dist : Q;
  kp_pitch : Q;
  kp_yaw : Q;
  max_speed : Q;
  min_speed : Q;
  track_far : Q;
  stop_near : Q
}.

Definition default_config : Config := {|
  base_forward := 0.35;
  forward_comp := 0.8;
  base_turn := 0.28;
  turn_comp := 0.45;
  dead_zone_px := 25;
  kp_dist := 0.015;
  kp_pitch := 0.01;
  kp_yaw := 0.004;
  max_speed := 1;
  min_speed := -1;
  track_far := 120;
  stop_near := 22
|}.

(** Slope memory and the last mode tag. *)
Record State := mkState {
  last_slope : string;
  on_slope : bool;
  last_mode : string
}.

Definition init : State :=
  {| last_slope := "flat"; on_slope := false; last_mode := "idle" |}.

(** The dict [compute] returns: no rotation estimate in this variant. *)
Record Command := mkCommand {
  left_speed : Q;
  right_speed : Q;
  mode : string
}.

Definition set_last_mode (m : string) (st : State) : State :=
  {| last_slope := last_slope st; on_slope := on_slope st; last_mode := m |}.

Section Controller.

Variable cfg : Config.

Definition _clamp (v : Q) : Q :=
  Py.max (min_speed cfg) (Py.min (max_speed cfg) v).

Definition _vector_formula
    (stop_flag turn_flag forward_base turn_base turn_dir : Q) : Q :=
  stop_flag * turn_flag * (forward_comp cfg * forward_base)
  + stop_flag * (1 - turn_flag)
    * (turn_base + turn_dir * turn_comp cfg * turn_base).

(** [_avoid_motion]: [None] when the key [action] is absent. *)
Definition _avoid_motion (obst : ObstacleState)
  : option (Q * Q * string) :=
  match action obst with
  | None => None
  | Some act =>
      if is_action act "stop" then Some (0, 0, "avoid_stop"%string)
      else if is_action act "right" then
        Some (- base_turn cfg, base_turn cfg, "avoid_right"%string)
      else if is_action act "left" then
        Some (base_turn cfg, - base_turn cfg, "avoid_left"%string)
      else if is_action act "forward" then
        let v := base_forward cfg * 0.6 in
        Some (v, v, "avoid_forward"%string)
      else Some (0, 0, "avoid_idle"%string)
  end.

Definition _slope_adjust (st : State) (pitch dist : Q) : State * Q :=
  if Py.ltb (Qabs pitch) 2 then
    ({| last_slope := "flat"; on_slope := false;
        last_mode := last_mode st |}, 0)
  else if Py.ltb 0 pitch then
    ({| last_slope := "up"; on_slope := true;
        last_mode := last_mode st |}, 0.05)
  else
    ({| last_slope := "down"; on_slope := true;
        last_mode := last_mode st |}, -0.05).

(** [math.copysign(1.0, x)] on a rational. *)
Definition copysign1 (x : Q) : Q := if Py.ltb x 0 then -1 else 1.

(** [compute]: [None] is the [KeyError] of an absent key. *)
Definition compute
    (st : State) (qr : QrState) (obst : ObstacleState)
    : option (Command * State) :=
  match avoid_mode obst with
  | None => None
  | Some true =>
      match _avoid_motion obst with
      | None => None
      | Some (l, r, m) =>
          Some ({| left_speed := l; right_speed := r; mode := m |},
                set_last_mode m st)
      end
  | Some false =>
      if get (qr_lost qr) true then
        Some ({| left_speed := 0; right_speed := 0; mode := "lost_wait" |},
              set_last_mode "lost_keep" st)
      else
        match qr_distance_cm qr, qr_offsets qr with
        | Some dist, Some off =>
            let cx := cx_off off in
            let pitch := pitch_trend off in
            let yaw := yaw_trend off in
            if Py.leb dist (stop_near cfg) then
              Some ({| left_speed := 0; right_speed := 0;
                       mode := "near_stop" |},
                    set_last_mode "target_near_stop" st)
            else
              let '(st1, slope_adj) := _slope_adjust st pitch dist in
              let forward :=
                base_forward cfg
                + kp_dist cfg * (dist - stop_near cfg)
                + kp_pitch cfg * slope_adj in
              let forward := _clamp forward in
              let '(turn_dir, turn_flag) :=
                if Py.ltb (Qabs cx) (dead_zone_px cfg) then (0, 0)
                else (- copysign1 cx, 1) in
              let stop_flag := 1 in
              let left_ :=
                _vector_formula stop_flag turn_flag forward
                  (base_turn cfg) turn_dir in
              let right_ :=
                _vector_formula stop_flag (1 - turn_flag) forward
                  (base_turn cfg) (- turn_dir) in
              Some ({| left_speed := _clamp left_;
                       right_speed := _clamp right_;
                       mode := "track_follow" |},
                    set_last_mode "track" st1)
        | _, _ => None
        end
  end.

End Controller.

End BaseMotion.


(** ** Mode orchestrator: the bounded loops of A/modified3.py *)

Module Orchestrator.

(** The values of the global [control_mode]. *)
Inductive ControlMode := manual | auto | avoidance | search.

Definition mode_eqb (a b : ControlMode) : bool :=
  match a, b with
  | manual, manual | auto, auto
  | avoidance, avoidance | search, search => true
  | _, _ => false
  end.

(** The globals the two loops write, and the number of auto threads
    [restart_auto_mode] has started. *)
Record Globals := mkGlobals {
  control_mode : ControlMode;
  target_qr_detected : bool;
  auto_threads_started : nat
}.

Definition SAFE_DISTANCE : Q := 30.
Definition max_search_attempts : nat := 5.
Definition max_avoidance_attempts : nat := 5.

(** [restart_auto_mode] *)
Definition restart_auto_mode (g : Globals) : Globals :=
  {| control_mode := auto;
     target_qr_detected := target_qr_detected g;
     auto_threads_started := S (auto_threads_started g) |}.

(** A write of [control_mode] by the keyboard thread, seen by the loop
    when it next tests its condition. *)
Definition observe (w : option ControlMode) (g : Globals) : Globals :=
  match w with
  | None => g
  | Some m => {| control_mode := m;
                 target_qr_detected := target_qr_detected g;
                 auto_threads_started := auto_threads_started g |}
  end.

(** What one pass of the search loop meets: [qr_search_behavior] or
    [detect_qr_code] raising, or the payload [detect_qr_code] returns
    being [None] or not. *)
Inductive SearchOutcome := Reacquired | NotFound | SearchRaised.

Record SearchRound := mkSearchRound {
  search_operator : option ControlMode;
  search_outcome : SearchOutcome
}.

(** The [while] of [search_control_loop]; [fuel] bounds the number of
    times its condition is tested. *)
Fixpoint search_loop
    (fuel : nat) (env : nat -> SearchRound) (i : nat)
    (g : Globals) (search_attempt : nat) : option (Globals * nat) :=
  match fuel with
  | O => None
  | S fuel' =>
      let g := observe (search_operator (env i)) g in
      if mode_eqb (control_mode g) search
         && Nat.ltb search_attempt max_search_attempts
      then
        let search_attempt := S search_attempt in
        match search_outcome (env i) with
        | Reacquired =>
            Some (restart_auto_mode
                    {| control_mode := auto;
                       target_qr_detected := true;
                       auto_threads_started := auto_threads_started g |},
                  search_attempt)
        | NotFound | SearchRaised =>
            search_loop fuel' env (S i) g search_attempt
        end
      else
        (* past the loop: [stop()] when the attempts are used up, which
           leaves the globals of this record as they are *)
        Some (g, search_attempt)
  end.

Definition search_control_loop
    (fuel : nat) (env : nat -> SearchRound) (g : Globals)
    : option (Globals * nat) :=
  search_loop fuel env 0 g 0.

(** What one pass of the avoidance loop meets: the distance
    [get_distance] returns ([None] for infinity), or an exception out of
    [avoidance_behavior]. *)
Inductive AvoidOutcome :=
  | Measured (distance : option Q)
  | AvoidRaised.

Record AvoidRound := mkAvoidRound {
  avoid_operator : option ControlMode;
  avoid_outcome : AvoidOutcome
}.

(** [distance > SAFE_DISTANCE * 1.5] *)
Definition recovered (distance : option Q) : bool :=
  match distance with
  | None => true
  | Some d => Py.ltb (SAFE_DISTANCE * 1.5) d
  end.

Fixpoint avoidance_loop
    (fuel : nat) (env : nat -> AvoidRound) (i : nat)
    (g : Globals) (avoidance_attempt : nat) : option (Globals * nat) :=
  match fuel with
  | O => None
  | S fuel' =>
      let g := observe (avoid_operator (env i)) g in
      if mode_eqb (control_mode g) avoidance
         && Nat.ltb avoidance_attempt max_avoidance_attempts
      then
        let avoidance_attempt := S avoidance_attempt in
        match avoid_outcome (env i) with
        | Measured distance =>
            if recovered distance
            then Some (restart_auto_mode
                         {| control_mode := auto;
                            target_qr_detected := target_qr_detected g;
                            auto_threads_started :=
                              auto_threads_started g |},
                       avoidance_attempt)
            else avoidance_loop fuel' env (S i) g avoidance_attempt
        | AvoidRaised =>
            avoidance_loop fuel' env (S i) g avoidance_attempt
        end
      else if Nat.leb max_avoidance_attempts avoidance_attempt
      then Some (restart_auto_mode
                   {| control_mode := auto;
                      target_qr_detected := target_qr_detected g;
                      auto_threads_started := auto_threads_started g |},
                 avoidance_attempt)
      else Some (g, avoidance_attempt)
  end.

Definition avoidance_control_loop
    (fuel : nat) (env : nat -> AvoidRound) (g : Globals)
    : option (Globals * nat) :=
  avoidance_loop fuel env 0 g 0.

End Orchestrator.


(** ** Motor output of the tracking program (track_main.py) *)

(** The duty cycles last written to the four PWM channels with
    [ChangeDutyCycle], which accepts the values from 0 to 100. *)
Record Pwm := mkPwm {
  left_pwm1 : Q;
  left_pwm2 : Q;
  right_pwm1 : Q;
  right_pwm2 : Q
}.

Module TrackMotor.

(** [drive_motor(left, right)], the speeds being fractions of full
    speed. *)
Definition drive_motor (left_ right_ : Q) : Pwm :=
  let '(l1, l2) :=
    if Py.leb 0 left_ then (Py.min (left_ * 100) 100, 0)
    else (0, Py.min (- left_ * 100) 100) in
  let '(r1, r2) :=
    if Py.leb 0 right_ then (Py.min (right_ * 100) 100, 0)
    else (0, Py.min (- right_ * 100) 100) in
  {| left_pwm1 := l1; left_pwm2 := l2;
     right_pwm1 := r1; right_pwm2 := r2 |}.

End TrackMotor.

(** ** Keyboard-driven car: motor commands and the tracking loop
    (A/modified3.py) *)

Module Car.

Definition SAFE_DISTANCE : Q := 30.
Definition QR_SIZE_THRESHOLD : Q := 100.
Definition SPEED_LIMIT : Q := 70.
Definition MAX_QR_LOST_COUNT : nat := 10.

(** The globals of the program that the motor commands and the auto
    loop read and write. *)
Record Globals := mkGlobals {
  current_speed : Q;
  control_mode : Orchestrator.ControlMode;
  motor_vector : Q * Q;
  pwm : Pwm;
  manual_base_speed : Q;
  manual_turn_bias : Q;
  last_valid_qr_left : Q;
  last_valid_qr_right : Q;
  last_qr_center_x : Q;
  qr_lost_count : nat;
  search_step : nat;
  target_qr_detected : bool
}.

Definition set_control_mode (m : Orchestrator.ControlMode) (g : Globals)
  : Globals :=
  {| current_speed := current_speed g; control_mode := m;
     motor_vector := motor_vector g; pwm := pwm g;
     manual_base_speed := manual_base_speed g;
     manual_turn_bias := manual_turn_bias g;
     last_valid_qr_left := last_valid_qr_left g;
     last_valid_qr_right := last_valid_qr_right g;
     last_qr_center_x := last_qr_center_x g;
     qr_lost_count := qr_lost_count g; search_step := search_step g;
     target_qr_detected := target_qr_detected g |}.

Definition set_manual (base bias : Q) (g : Globals) : Globals :=
  {| current_speed := current_speed g; control_mode := control_mode g;
     motor_vector := motor_vector g; pwm := pwm g;
     manual_base_speed := base;
     manual_turn_bias := bias;
     last_valid_qr_left := last_valid_qr_left g;
     last_valid_qr_right := last_valid_qr_right g;
     last_qr_center_x := last_qr_center_x g;
     qr_lost_count := qr_lost_count g; search_step := search_step g;
     target_qr_detected := target_qr_detected g |}.

Definition set_last_valid (left_ right_ center_x : Q) (g : Globals)
  : Globals :=
  {| current_speed := current_speed g; control_mode := control_mode g;
     motor_vector := motor_vector g; pwm := pwm g;
     manual_base_speed := manual_base_speed g;
     manual_turn_bias := manual_turn_bias g;
     last_valid_qr_left := left_;
     last_valid_qr_right := right_;
     last_qr_center_x := center_x;
     qr_lost_count := qr_lost_count g; search_step := search_step g;
     target_qr_detected := target_qr_detected g |}.

Definition set_counters (lost step : nat) (g : Globals) : Globals :=
  {| current_speed := current_speed g; control_mode := control_mode g;
     motor_vector := motor_vector g; pwm := pwm g;
     manual_base_speed := manual_base_speed g;
     manual_turn_bias := manual_turn_bias g;
     last_valid_qr_left := last_valid_qr_left g;
     last_valid_qr_right := last_valid_qr_right g;
     last_qr_center_x := last_qr_center_x g;
     qr_lost_count := lost; search_step := step;
     target_qr_detected := target_qr_detected g |}.

Definition set_target_qr_detected (b : bool) (g : Globals) : Globals :=
  {| current_speed := current_speed g; control_mode := control_mode g;
     motor_vector := motor_vector g; pwm := pwm g;
     manual_base_speed := manual_base_speed g;
     manual_turn_bias := manual_turn_bias g;
     last_valid_qr_left := last_valid_qr_left g;
     last_valid_qr_right := last_valid_qr_right g;
     last_qr_center_x := last_qr_center_x g;
     qr_lost_count := qr_lost_count g; search_step := search_step g;
     target_qr_detected := b |}.

(** [set_motor_vector(left, right)], the speeds being percentages. *)
Definition set_motor_vector (left_ right_ : Q) (g : Globals) : Globals :=
  let '(l1, l2) :=
    if Py.leb 0 left_ then (Py.min left_ 100, 0)
    else (0, Py.min (- left_) 100) in
  let '(r1, r2) :=
    if Py.leb 0 right_ then (Py.min right_ 100, 0)
    else (0, Py.min (- right_) 100) in
  {| current_speed := current_speed g; control_mode := control_mode g;
     motor_vector := (left_, right_);
     pwm := {| left_pwm1 := l1; left_pwm2 := l2;
               right_pwm1 := r1; right_pwm2 := r2 |};
     manual_base_speed := manual_base_speed g;
     manual_turn_bias := manual_turn_bias g;
     last_valid_qr_left := last_valid_qr_left g;
     last_valid_qr_right := last_valid_qr_right g;
     last_qr_center_x := last_qr_center_x g;
     qr_lost_count := qr_lost_count g; search_step := search_step g;
     target_qr_detected := target_qr_detected g |}.

(** [np.clip(x, lo, hi)]: the lower bound first, then the upper one. *)
Definition np_clip (x lo hi : Q) : Q := Py.min (Py.max x lo) hi.

(** [apply_manual_control] *)
Definition apply_manual_control (g : Globals) : Globals :=
  let left_speed := manual_base_speed g - manual_turn_bias g in
  let right_speed := manual_base_speed g + manual_turn_bias g in
  let left_speed :=
    np_clip left_speed (- current_speed g) (current_speed g) in
  let right_speed :=
    np_clip right_speed (- current_speed g) (current_speed g) in
  set_motor_vector left_speed right_speed g.

(** The argument [speed=None] of the four moves. *)
Definition speed_or_current (speed : option Q) (g : Globals) : Q :=
  match speed with
  | Some v => v
  | None => current_speed g
  end.

(** [move_forward] *)
Definition move_forward (speed : option Q) (g : Globals) : Globals :=
  let speed := speed_or_current speed g in
  apply_manual_control (set_manual speed (manual_turn_bias g) g).

(** [move_backward] *)
Definition move_backward (speed : option Q) (g : Globals) : Globals :=
  let speed := speed_or_current speed g in
  apply_manual_control (set_manual (- speed) (manual_turn_bias g) g).

(** [turn_left]: a second press goes back to straight. *)
Definition turn_left (speed : option Q) (g : Globals) : Globals :=
  let speed := speed_or_current speed g in
  let bias :=
    if Py.ltb 0 (manual_turn_bias g) then 0 else speed * 0.5 in
  apply_manual_control (set_manual (manual_base_speed g) bias g).

(** [turn_right] *)
Definition turn_right (speed : option Q) (g : Globals) : Globals :=
  let speed := speed_or_current speed g in
  let bias :=
    if Py.ltb (manual_turn_bias g) 0 then 0 else - speed * 0.5 in
  apply_manual_control (set_manual (manual_base_speed g) bias g).

(** [stop] *)
Definition stop (g : Globals) : Globals :=
  set_motor_vector 0 0 (set_manual 0 0 g).

(** A distance returned by [get_distance]: [None] is [float("inf")]. *)
Definition Distance := option Q.

(** [distance < bound] *)
Definition closer_than (distance : Distance) (bound : Q) : bool :=
  match distance with
  | None => false
  | Some d => Py.ltb d bound
  end.

(** [avoidance_behavior(distance)]; [coin] is the value of
    [np.random.rand()]. *)
Definition avoidance_behavior
    (coin : Q) (distance : Distance) (g : Globals) : Globals :=
  if closer_than distance (SAFE_DISTANCE / 2)
  then move_backward (Some (Py.min 80 (current_speed g + 20))) g
  else if closer_than distance SAFE_DISTANCE
  then move_backward None g
  else if Py.ltb 0.5 coin then turn_left None g
  else turn_right None g.

(** [qr_tracking_behavior(qr_size, qr_center_x, qr_center_y)] *)
Definition qr_tracking_behavior
    (qr_size qr_center_x qr_center_y : Q) (g : Globals) : Globals :=
  let img_center_x := 320 in
  let img_center_y := 240 in
  let position_error_x := qr_center_x - img_center_x in
  let position_error_y := img_center_y - qr_center_y in
  let size_error := qr_size - QR_SIZE_THRESHOLD in
  let Kp_position_x := 0.3 in
  let Kp_position_y := 0.2 in
  let Kp_size := 0.5 in
  let base_speed :=
    Kp_size * size_error + Kp_position_y * position_error_y in
  let steer_adjust := Kp_position_x * position_error_x in
  let left_speed := base_speed - steer_adjust in
  let right_speed := base_speed + steer_adjust in
  let max_speed := Py.min SPEED_LIMIT (current_speed g) in
  let left_speed := np_clip left_speed (- max_speed) max_speed in
  let right_speed := np_clip right_speed (- max_speed) max_speed in
  set_motor_vector left_speed right_speed
    (set_last_valid left_speed right_speed qr_center_x g).

(** What one pass of the tracking loop of [auto_control_loop] meets: a
    write of [control_mode] by the keyboard thread, the distance of
    [get_distance] and the size and centre [detect_qr_code] returns,
    [None] when its payload is [None].  Both functions catch their own
    exceptions. *)
Record AutoRound := mkAutoRound {
  auto_operator : option Orchestrator.ControlMode;
  auto_distance : Distance;
  auto_detection : option (Q * Q * Q)
}.

Definition observe (w : option Orchestrator.ControlMode) (g : Globals)
  : Globals :=
  match w with
  | None => g
  | Some m => set_control_mode m g
  end.

(** The loop [while control_mode == "auto"] that follows the
    initialisation phase of [auto_control_loop]; [fuel] bounds the number
    of times its condition is tested.  The result carries the number of
    passes made. *)
Fixpoint tracking_loop
    (fuel : nat) (env : nat -> AutoRound) (i : nat) (g : Globals)
    : option (Globals * nat) :=
  match fuel with
  | O => None
  | S fuel' =>
      let g := observe (auto_operator (env i)) g in
      if Orchestrator.mode_eqb (control_mode g) Orchestrator.auto
      then
        if closer_than (auto_distance (env i)) (SAFE_DISTANCE / 2)
        then
          tracking_loop fuel' env (S i)
            (set_control_mode Orchestrator.avoidance g)
        else
          match auto_detection (env i) with
          | Some (qr_size, qr_center_x, qr_center_y) =>
              let g := set_target_qr_detected true g in
              let g :=
                qr_tracking_behavior qr_size qr_center_x qr_center_y g in
              tracking_loop fuel' env (S i) (set_counters 0 0 g)
          | None =>
              let g :=
                set_counters (S (qr_lost_count g)) (search_step g) g in
              if Nat.leb (qr_lost_count g) MAX_QR_LOST_COUNT
                 && (negb (Qeq_bool (last_valid_qr_left g) 0)
                     || negb (Qeq_bool (last_valid_qr_right g) 0))
              then
                tracking_loop fuel' env (S i)
                  (set_motor_vector (last_valid_qr_left g)
                     (last_valid_qr_right g) g)
              else Some (set_control_mode Orchestrator.search g, S i)
          end
      else Some (g, i)
  end.

(** [a > b] on distances. *)
Definition farther (a b : Distance) : bool :=
  match a, b with
  | None, None => false
  | None, Some _ => true
  | Some _, None => false
  | Some x, Some y => Py.ltb y x
  end.

Definition SEARCH_STEPS : nat := 3.

(** The globals together with the log of the calls of [time.sleep]: the
    motor command in force and the seconds slept, in the order of the
    calls. *)
Definition Drive : Type := Globals * list (Q * Q * Q).

Definition drive (left_ right_ : Q) (s : Drive) : Drive :=
  (set_motor_vector left_ right_ (fst s), snd s).

Definition time_sleep (seconds : Q) (s : Drive) : Drive :=
  (fst s,
   snd s ++ [(fst (motor_vector (fst s)), snd (motor_vector (fst s)),
              seconds)]).

(** [qr_search_behavior]; the three distances are what [get_distance]
    returns ahead, after the short left turn and after the short right
    turn. *)
Definition qr_search_behavior
    (front_distance left_distance right_distance : Distance) (s : Drive)
    : Drive :=
  let s := drive (-30) 30 s in
  let s := time_sleep 0.3 s in
  let s := drive 0 0 s in
  let s := time_sleep 0.2 s in
  let s := drive 30 (-30) s in
  let s := time_sleep 0.3 s in
  let s := drive 0 0 s in
  let s := time_sleep 0.2 s in
  let s :=
    if farther left_distance right_distance
       && farther left_distance (Some SAFE_DISTANCE)
    then
      let s := drive (-40) 40 s in
      let s := time_sleep 0.5 s in
      let s := drive 40 40 s in
      let s := time_sleep 0.8 s in
      let s := drive 40 (-40) s in
      time_sleep 0.5 s
    else if farther right_distance (Some SAFE_DISTANCE)
    then
      let s := drive 40 (-40) s in
      let s := time_sleep 0.5 s in
      let s := drive 40 40 s in
      let s := time_sleep 0.8 s in
      let s := drive (-40) 40 s in
      time_sleep 0.5 s
    else
      let s := drive (-40) (-40) s in
      time_sleep 1.0 s in
  let s := drive 0 0 s in
  let s := time_sleep 0.5 s in
  let g := fst s in
  let step := S (search_step g) in
  let step := if Nat.leb (SEARCH_STEPS * 2) step then 0%nat else step in
  (set_counters (qr_lost_count g) step g, snd s).

End Car.


(** * Vocabulary of the properties and sample inputs *)

Module QRSpec.

Import QRDetector.

Section Vocabulary.

Variable cfg : Config.
Variable norm : Point -> Q.

(** The distance formula of the docstring, [Z = real_size * fx / pixel_size]. *)
Definition dist_of (pts : Corners) : Q :=
  (qr_size_cm cfg * fx cfg) / pixel_size norm pts.

(** A candidate the loop does not skip: a payload, and an edge of at
    least 20 px. *)
Definition kept (c : string * Corners) : Prop :=
  is_empty (fst c) = false /\ 20 <= pixel_size norm (snd c).

(** What the loop variables are worth after the candidates [seen]. *)
Definition best_ok (seen : list (string * Corners)) (best : Best) : Prop :=
  match fst best with
  | None =>
      snd best = 1000000000
      /\ forall c, In c seen -> kept c -> 1000000000 <= dist_of (snd c)
  | Some (d, pts, z) =>
      In (d, pts) seen /\ kept (d, pts) /\ z = dist_of pts /\ snd best = z
      /\ z < 1000000000
      /\ forall c, In c seen -> kept c -> z <= dist_of (snd c)
  end.

End Vocabulary.

(** A camera with focal length 600 px looking at markers 2.5 cm wide. *)
Definition sample_config : Config :=
  {| fx := 600; fy := 600; cx := 160; cy := 120; qr_size_cm := 2.5 |}.

(** The axis-aligned square with top-left corner [(x, y)] and side [s],
    corners in the decoder's order. *)
Definition square (x y s : Q) : Corners :=
  ((x, y), (x + s, y), (x + s, y + s), (x, y + s)).


(** A marker whose top edge is 20 px and whose bottom edge is 40 px
    long, both level: a mean edge of 30 px. *)
Definition trapezoid : Corners :=
  ((110, 100), (130, 100), (140, 140), (100, 140)).


(** One marker 80 px wide that the decoder located but could not
    read. *)
Definition unread_marker : Decoded :=
  {| retval := true;
     data_list := [""%string];
     pts_list := Some [square 100 60 80] |}.

End QRSpec.

Module MotionSpec.

(** The obstacle report of a poll in the [TURN_RIGHT] phase, 25 cm from
    the obstacle, with the keys [TrackSystem.run] adds. *)
Definition turning_right : ObstacleState :=
  {| obstacle_near := Some true;
     need_stop := Some false;
     avoid_mode := Some true;
     action := Some (Some "right"%string);
     distance_cm := Some 25;
     obstacle_type := Some "unknown"%string;
     ground_obstacle_confirmed := Some false |}.

(** A frame without marker, as [detect] reports it. *)
Definition lost_qr : QrState :=
  {| qr_lost := Some true; qr_distance_cm := None; qr_offsets := None |}.

(** A marker 50 cm ahead, 40 px right of the image centre. *)
Definition seen_qr : QrState :=
  {| qr_lost := Some false;
     qr_distance_cm := Some 50;
     qr_offsets := Some {| cx_off := 40; cy_off := 0;
                           yaw_trend := 0; pitch_trend := 0 |} |}.

(** No obstacle in sight. *)
Definition clear_path : ObstacleState :=
  {| obstacle_near := Some false;
     need_stop := Some false;
     avoid_mode := Some false;
     action := Some None;
     distance_cm := Some 150;
     obstacle_type := Some "unknown"%string;
     ground_obstacle_confirmed := Some false |}.

(** The smart controller with its default parameters, except for a speed
    limit of a quarter of full speed. *)
Definition limited_config : SmartMotion.Config :=
  {| SmartMotion.base_forward := 0.35;
     SmartMotion.forward_comp := 0.8;
     SmartMotion.base_turn := 0.28;
     SmartMotion.turn_comp := 0.45;
     SmartMotion.dead_zone_px := 25;
     SmartMotion.kp_dist := 0.015;
     SmartMotion.kp_pitch := 0.01;
     SmartMotion.kp_yaw := 0.004;
     SmartMotion.max_speed := 0.25;
     SmartMotion.min_speed := -0.25;
     SmartMotion.track_far := 120;
     SmartMotion.stop_near := 22;
     SmartMotion.obstacle_safe_distance := 30;
     SmartMotion.obstacle_stop_distance := 12;
     SmartMotion.search_base_speed := 0.2;
     SmartMotion.search_turn_gain := 0.3;
     SmartMotion.max_rotation_deviation := 60 |}.

(** The default parameters with a search speed of 0.5 and a search
    turn gain of 1. *)
Definition wide_search_config : SmartMotion.Config :=
  {| SmartMotion.base_forward := 0.35;
     SmartMotion.forward_comp := 0.8;
     SmartMotion.base_turn := 0.28;
     SmartMotion.turn_comp := 0.45;
     SmartMotion.dead_zone_px := 25;
     SmartMotion.kp_dist := 0.015;
     SmartMotion.kp_pitch := 0.01;
     SmartMotion.kp_yaw := 0.004;
     SmartMotion.max_speed := 1;
     SmartMotion.min_speed := -1;
     SmartMotion.track_far := 120;
     SmartMotion.stop_near := 22;
     SmartMotion.obstacle_safe_distance := 30;
     SmartMotion.obstacle_stop_distance := 12;
     SmartMotion.search_base_speed := 0.5;
     SmartMotion.search_turn_gain := 1;
     SmartMotion.max_rotation_deviation := 60 |}.

(** The marker was last seen at the far left of the image. *)
Definition target_far_left : SmartMotion.ExtraInfo :=
  {| SmartMotion.target_direction := Some (-100);
     SmartMotion.qr_lost_timer := None |}.

(** The rotation update in the words of the specification: the previous
    estimate plus
    [((right_prev - left_prev) / max_speed_diff) * max_rotation_rate * dt]
    with the speeds issued at the previous tick. *)
Definition spec_rotation_update (cum left_prev right_prev dt : Q) : Q :=
  cum + ((right_prev - left_prev) / 0.5) * 180 * dt.

(** The wrap of [_update_rotation_estimate]: a value of magnitude above
    360 is replaced by its remainder modulo 360. *)
Definition wrap360 (c : Q) : Q :=
  if Py.ltb 360 (Qabs c) then Py.mod_ c 360 else c.

(** [self.Halt] holds 0 or 1. *)
Definition halt_ok (st : SmartMotion.State) : Prop :=
  SmartMotion.Halt st = 0 \/ SmartMotion.Halt st = 1.

End MotionSpec.

Module OrchestratorSpec.

Import Orchestrator.

(** The globals when the auto loop has just handed over to search. *)
Definition searching : Globals :=
  {| control_mode := search;
     target_qr_detected := false;
     auto_threads_started := 1%nat |}.

(** The globals when the auto loop has just handed over to avoidance. *)
Definition avoiding : Globals :=
  {| control_mode := avoidance;
     target_qr_detected := false;
     auto_threads_started := 1%nat |}.

(** The marker never comes back and nobody touches the keyboard. *)
Definition never_found (_ : nat) : SearchRound :=
  {| search_operator := None; search_outcome := NotFound |}.

(** The obstacle stays at 20 cm and nobody touches the keyboard. *)
Definition never_clear (_ : nat) : AvoidRound :=
  {| avoid_operator := None; avoid_outcome := Measured (Some 20) |}.

End OrchestratorSpec.

Module SensorSpec.

Import ObstacleSensor.

(** One step of the avoidance cycle
    [None -> TURN_RIGHT -> FORWARD_1 -> TURN_LEFT -> FORWARD_2 -> None]. *)
Inductive cycle_step : Phase -> Phase -> Prop :=
  | step_enter : cycle_step None (Some TURN_RIGHT)
  | step_right : cycle_step (Some TURN_RIGHT) (Some FORWARD_1)
  | step_forward_1 : cycle_step (Some FORWARD_1) (Some TURN_LEFT)
  | step_left : cycle_step (Some TURN_LEFT) (Some FORWARD_2)
  | step_forward_2 : cycle_step (Some FORWARD_2) None.





(** A clock that stands still, for concrete runs. *)
Definition frozen_clock (_ : nat) : Q := 0.

End SensorSpec.


(** * Vocabulary of the further properties *)

Module ExtraSpec.

(** The test [_normal_tracking] makes before it biases the tracking
    command away from a ground obstacle. *)
Definition ground_obstacle_ahead
    (cfg : SmartMotion.Config) (obst : ObstacleState) (dist : Q) : bool :=
  String.eqb (get (obstacle_type obst) "unknown"%string)
             "ground_obstacle"%string
  && Py.ltb (get (distance_cm obst) 9999)
            (SmartMotion.obstacle_safe_distance cfg)
  && Py.ltb (get (distance_cm obst) 9999) (dist * 0.8).

(** The dwell time [__init__] keeps for a maneuver phase. *)
Definition dwell_of (cfg : ObstacleSensor.Config)
    (p : ObstacleSensor.PhaseName) : Q :=
  match p with
  | ObstacleSensor.TURN_RIGHT => ObstacleSensor.right_turn_time cfg
  | ObstacleSensor.FORWARD_1 => ObstacleSensor.forward_time_1 cfg
  | ObstacleSensor.TURN_LEFT => ObstacleSensor.left_turn_time cfg
  | ObstacleSensor.FORWARD_2 => ObstacleSensor.forward_time_2 cfg
  | ObstacleSensor.STOP_CLOSE => 0
  end.

(** The action a report gives with a maneuver phase. *)
Definition action_of (p : ObstacleSensor.PhaseName) : option string :=
  match p with
  | ObstacleSensor.TURN_RIGHT => Some "right"%string
  | ObstacleSensor.FORWARD_1 => Some "forward"%string
  | ObstacleSensor.TURN_LEFT => Some "left"%string
  | ObstacleSensor.FORWARD_2 => Some "forward"%string
  | ObstacleSensor.STOP_CLOSE => Some "stop"%string
  end.

(** The threshold is the configured safe distance or the widened one. *)
Definition threshold_ok (cfg : ObstacleSensor.Config) (d : Q) : Prop :=
  d = ObstacleSensor.safe_distance_cm cfg
  \/ d = ObstacleSensor.safe_distance_cm cfg * 1.1.

(** A sensor stopped in front of an obstacle. *)
Definition stopped_world : ObstacleSensor.World :=
  {| ObstacleSensor.sensor :=
       {| ObstacleSensor.avoid_mode := true;
          ObstacleSensor.phase := Some ObstacleSensor.STOP_CLOSE;
          ObstacleSensor.phase_start := 0;
          ObstacleSensor.last_distance := 9999;
          ObstacleSensor.consecutive_readings := [];
          ObstacleSensor.dynamic_safe_distance := 30 |};
     ObstacleSensor.reads := 1;
     ObstacleSensor.assigned := [Some ObstacleSensor.STOP_CLOSE] |}.

(** A sensor in avoid mode whose maneuver is over. *)
Definition maneuver_over_world : ObstacleSensor.World :=
  {| ObstacleSensor.sensor :=
       {| ObstacleSensor.avoid_mode := true;
          ObstacleSensor.phase := None;
          ObstacleSensor.phase_start := 0;
          ObstacleSensor.last_distance := 9999;
          ObstacleSensor.consecutive_readings := [];
          ObstacleSensor.dynamic_safe_distance := 30 |};
     ObstacleSensor.reads := 9;
     ObstacleSensor.assigned := [] |}.

(** The corners moved by the vector [v]. *)
Definition translate (v : QRDetector.Point) (pts : QRDetector.Corners)
  : QRDetector.Corners :=
  let '(p0, p1, p2, p3) := pts in
  let mv := fun p : QRDetector.Point => (fst p + fst v, snd p + snd v) in
  (mv p0, mv p1, mv p2, mv p3).

(** The upright rectangle with top-left corner [(x, y)], width [a] and
    height [b], corners in the decoder's order. *)
Definition upright (x y a b : Q) : QRDetector.Corners :=
  ((x, y), (x + a, y), (x + a, y + b), (x, y + b)).

(** The marker the loop holds stands in the candidates seen so far, and
    every candidate the loop kept before it is strictly farther. *)
Definition best_first (cfg : QRDetector.Config)
    (norm : QRDetector.Point -> Q)
    (seen : list (string * QRDetector.Corners)) (best : QRDetector.Best)
  : Prop :=
  match fst best with
  | None => True
  | Some (d, pts, z) =>
      exists l1 l2,
        seen = l1 ++ (d, pts) :: l2
        /\ forall c, In c l1 -> QRSpec.kept norm c ->
                     z < QRSpec.dist_of cfg norm (snd c)
  end.

(** The car as the program starts it, switched to the auto mode, with
    the last tracking command [(left_, right_)]. *)
Definition tracking_car (left_ right_ : Q) : Car.Globals :=
  {| Car.current_speed := 80;
     Car.control_mode := Orchestrator.auto;
     Car.motor_vector := (left_, right_);
     Car.pwm := {| left_pwm1 := 0; left_pwm2 := 0;
                   right_pwm1 := 0; right_pwm2 := 0 |};
     Car.manual_base_speed := 0;
     Car.manual_turn_bias := 0;
     Car.last_valid_qr_left := left_;
     Car.last_valid_qr_right := right_;
     Car.last_qr_center_x := 160;
     Car.qr_lost_count := 0;
     Car.search_step := 0;
     Car.target_qr_detected := true |}.

(** The marker is out of sight, the way is free and nobody touches the
    keyboard. *)
Definition marker_gone (_ : nat) : Car.AutoRound :=
  {| Car.auto_operator := None;
     Car.auto_distance := Some 120;
     Car.auto_detection := None |}.

(** The four duty cycles are between 0 and [m]. *)
Definition duties_within (m : Q) (p : Pwm) : Prop :=
  (0 <= left_pwm1 p /\ left_pwm1 p <= m)
  /\ (0 <= left_pwm2 p /\ left_pwm2 p <= m)
  /\ (0 <= right_pwm1 p /\ right_pwm1 p <= m)
  /\ (0 <= right_pwm2 p /\ right_pwm2 p <= m).

(** Of the two pins of each motor at most one is driven. *)
Definition one_pin_each (p : Pwm) : Prop :=
  (left_pwm1 p == 0 \/ left_pwm2 p == 0)
  /\ (right_pwm1 p == 0 \/ right_pwm2 p == 0).

(** The turn a log of motor commands asks for: the wheel speed
    difference, right minus left, weighted by the seconds it is held. *)
Definition heading_change (log : list (Q * Q * Q)) : Q :=
  fold_right (fun '(l, r, t) acc => (r - l) * t + acc) 0 log.

(** The advance it asks for: the sum of the wheel speeds weighted by the
    seconds it is held. *)
Definition advance (log : list (Q * Q * Q)) : Q :=
  fold_right (fun '(l, r, t) acc => (l + r) * t + acc) 0 log.

(** No command of the log exceeds [m] on either wheel. *)
Definition speeds_within (m : Q) (log : list (Q * Q * Q)) : Prop :=
  Forall (fun '(l, r, _) => (- m <= l /\ l <= m) /\ (- m <= r /\ r <= m))
         log.

(** A marker report for the baseline controller: [cx] px off the
    centre, [dist] cm away and level. *)
Definition marker_at (cx dist : Q) : QrState :=
  {| qr_lost := Some false;
     qr_distance_cm := Some dist;
     qr_offsets := Some {| cx_off := cx; cy_off := 0;
                           yaw_trend := 0; pitch_trend := 0 |} |}.

End ExtraSpec.

(** * Properties *)

(** ** Facts on the Python arithmetic *)

Module PyFacts.

Import Py.

Lemma ltb_lt a b : ltb a b = true <-> a < b.
Proof.
  unfold ltb. rewrite negb_true_iff.
  split; intro H.
  - apply Qnot_le_lt. intro Hle. apply Qle_bool_iff in Hle. congruence.
  - destruct (Qle_bool b a) eqn:E; [|reflexivity].
    apply Qle_bool_iff in E. lra.
Qed.

Lemma ltb_ge a b : ltb a b = false <-> b <= a.
Proof.
  unfold ltb. rewrite negb_false_iff. apply Qle_bool_iff.
Qed.

Lemma leb_le a b : leb a b = true <-> a <= b.
Proof. apply Qle_bool_iff. Qed.

Lemma leb_gt a b : leb a b = false <-> b < a.
Proof.
  unfold leb. split; intro H.
  - apply Qnot_le_lt. intro Hle. apply Qle_bool_iff in Hle. congruence.
  - destruct (Qle_bool a b) eqn:E; [|reflexivity].
    apply Qle_bool_iff in E. lra.
Qed.

Lemma max_lub_l a b : a <= max a b.
Proof.
  unfold max. destruct (ltb a b) eqn:E; [apply ltb_lt in E|]; lra.
Qed.

Lemma max_lub_r a b : b <= max a b.
Proof.
  unfold max. destruct (ltb a b) eqn:E; [|apply ltb_ge in E]; lra.
Qed.

Lemma max_le a b c : a <= c -> b <= c -> max a b <= c.
Proof. unfold max. destruct (ltb a b); auto. Qed.

Lemma min_glb_l a b : min a b <= a.
Proof.
  unfold min. destruct (ltb b a) eqn:E; [apply ltb_lt in E|]; lra.
Qed.

Lemma min_glb_r a b : min a b <= b.
Proof.
  unfold min. destruct (ltb b a) eqn:E; [|apply ltb_ge in E]; lra.
Qed.

Lemma min_ge a b c : c <= a -> c <= b -> c <= min a b.
Proof. unfold min. destruct (ltb b a); auto. Qed.

(** The float remainder by a positive modulus lies in [[0, m)]. *)
Lemma mod_range x m : 0 < m -> 0 <= mod_ x m /\ mod_ x m < m.
Proof.
  intro Hm. unfold mod_.
  pose proof (Qfloor_le (x / m)) as Hlo.
  pose proof (Qlt_floor (x / m)) as Hhi.
  rewrite inject_Z_plus in Hhi.
  set (k := inject_Z (Qfloor (x / m))) in *.
  assert (Hx : x == m * (x / m)) by (field; lra).
  change (inject_Z 1) with 1 in Hhi.
  split.
  - assert (m * k <= m * (x / m)) by (apply Qmult_le_l; assumption).
    lra.
  - assert (m * (x / m) < m * (k + 1)) by (apply Qmult_lt_l; assumption).
    lra.
Qed.

End PyFacts.

(** Turn the boolean tests of the embedding into order facts. *)
Ltac q_facts :=
  repeat match goal with
         | H : Py.leb _ _ = true |- _ => apply PyFacts.leb_le in H
         | H : Py.leb _ _ = false |- _ => apply PyFacts.leb_gt in H
         | H : Py.ltb _ _ = true |- _ => apply PyFacts.ltb_lt in H
         | H : Py.ltb _ _ = false |- _ => apply PyFacts.ltb_ge in H
         end.

(** Close a branch whose tests contradict each other. *)
Ltac absurd_cond :=
  solve [ repeat match goal with
          | H : context [if ?c then _ else _] |- _ =>
              destruct c; try discriminate
          end ].

(** Split the tests left in the hypotheses. *)
Ltac conds :=
  repeat match goal with
         | H : context [if ?c then _ else _] |- _ =>
             destruct c eqn:?; try discriminate
         end.

(** Follow every branch of the conditionals in the goal. *)
Ltac split_ifs :=
  repeat match goal with
         | |- context [if ?b then _ else _] => destruct b eqn:?
         end.

(** ** Obstacle-type classification *)

Module TrackSystemFacts.

Import TrackSystem.

(** A positive marker distance never makes the division fail. *)
Lemma div_positive (a b : Q) : 0 < b -> Py.div a b = Some (a / b).
Proof.
  intro Hb. unfold Py.div.
  destruct (Qeq_bool b 0) eqn:E; [|reflexivity].
  apply Qeq_bool_iff in E. lra.
Qed.

(** C5, as the code has it: for a marker distance [d_qr > 0] and an
    ultrasonic distance [d_us] that the classifier accepts (not above
    300 cm), the result is the wall-mounted marker when [d_us / d_qr] is
    in [[0.8, 1.2]], the ground obstacle when it is below 0.8 and the
    measurement error or tilt when it is above 1.2; the readings
    [d_us = 40], [d_qr = 45] fall in the first band. *)
Theorem analyze_obstacle_type_bands (d_qr d_us : Q) :
  0 < d_qr -> d_us <= 300 ->
  (0.8 <= d_us / d_qr /\ d_us / d_qr <= 1.2 ->
     analyze_obstacle_type (Some d_qr) d_us = Some "wall_qr"%string)
  /\ (d_us / d_qr < 0.8 ->
     analyze_obstacle_type (Some d_qr) d_us = Some "ground_obstacle"%string)
  /\ (1.2 < d_us / d_qr ->
     analyze_obstacle_type (Some d_qr) d_us = Some "error_or_tilted"%string)
  /\ analyze_obstacle_type (Some 45) 40 = Some "wall_qr"%string.
Proof.
  intros Hq Hu.
  assert (Hfar : Py.ltb 300 d_us = false) by (apply PyFacts.ltb_ge; exact Hu).
  unfold analyze_obstacle_type.
  rewrite Hfar, (div_positive _ _ Hq).
  repeat split.
  - intros [Hlo Hhi].
    apply PyFacts.leb_le in Hlo. apply PyFacts.leb_le in Hhi.
    rewrite Hlo, Hhi. reflexivity.
  - intro Hlt.
    assert (Hlo : Py.leb 0.8 (d_us / d_qr) = false)
      by (apply PyFacts.leb_gt; exact Hlt).
    apply PyFacts.ltb_lt in Hlt.
    rewrite Hlo, Hlt. reflexivity.
  - intro Hgt.
    assert (Hhi : Py.leb (d_us / d_qr) 1.2 = false)
      by (apply PyFacts.leb_gt; exact Hgt).
    assert (Hnl : Py.ltb (d_us / d_qr) 0.8 = false)
      by (apply PyFacts.ltb_ge; lra).
    rewrite Hhi, Hnl, andb_false_r. reflexivity.
Qed.

Lemma analyze_obstacle_type_bands_witness :
  (0 < 50 /\ 20 <= 300)
  /\ analyze_obstacle_type (Some 50) 20 = Some "ground_obstacle"%string.
Proof.
  split.
  - split; [reflexivity | discriminate].
  - apply (analyze_obstacle_type_bands 50 20);
      [reflexivity | discriminate | reflexivity].
Defined.

(** The readings of scenario E are not classified as a ground
    obstacle. *)
Lemma scenario_E_is_not_ground_obstacle :
  analyze_obstacle_type (Some 45) 40 <> Some "ground_obstacle"%string.
Proof. vm_compute. discriminate. Qed.

(** An ultrasonic distance above 300 cm is not classified at all. *)
Lemma analyze_obstacle_type_far (d_qr : option Q) (d_us : Q) :
  300 < d_us -> analyze_obstacle_type d_qr d_us = Some "unknown"%string.
Proof.
  intro H. apply PyFacts.ltb_lt in H.
  unfold analyze_obstacle_type. destruct d_qr; [rewrite H|]; reflexivity.
Qed.

End TrackSystemFacts.

(** ** Marker localizer *)

Module QRDetectorFacts.

Import QRDetector QRSpec.

Section Facts.

Variable cfg : Config.
Variable norm : Point -> Q.

Local Abbreviation ps := (pixel_size norm).
Local Abbreviation estimate := (_estimate_distance cfg norm).
Local Abbreviation dist_of := (dist_of cfg norm).

Lemma estimate_none (pts : Corners) :
  estimate pts = None <-> ps pts < 0.00001.
Proof.
  unfold _estimate_distance.
  destruct (Py.ltb (ps pts) 0.00001) eqn:E.
  - apply PyFacts.ltb_lt in E. tauto.
  - apply PyFacts.ltb_ge in E. split; [discriminate | lra].
Qed.

Lemma estimate_some (pts : Corners) :
  0.00001 <= ps pts -> estimate pts = Some (dist_of pts).
Proof.
  intro H. unfold _estimate_distance, dist_of.
  apply PyFacts.ltb_ge in H. rewrite H. reflexivity.
Qed.

Lemma estimate_some_inv (pts : Corners) (z : Q) :
  estimate pts = Some z -> 0.00001 <= ps pts /\ z = dist_of pts.
Proof.
  unfold _estimate_distance, dist_of.
  destruct (Py.ltb (ps pts) 0.00001) eqn:E; [discriminate|].
  apply PyFacts.ltb_ge in E. intro H. injection H as <-. tauto.
Qed.

Lemma dist_of_pos (pts : Corners) :
  0 < qr_size_cm cfg -> 0 < fx cfg -> 0 < ps pts -> 0 < dist_of pts.
Proof.
  intros Hq Hf Hp. unfold dist_of.
  apply Qlt_shift_div_l; [exact Hp|].
  rewrite Qmult_0_l. apply Qmult_lt_0_compat; assumption.
Qed.

Lemma dist_of_decreasing (pts pts' : Corners) :
  0 < qr_size_cm cfg -> 0 < fx cfg ->
  0 < ps pts -> ps pts < ps pts' -> dist_of pts' < dist_of pts.
Proof.
  intros Hq Hf Hp Hlt. unfold dist_of, Qdiv.
  assert (Ha : 0 < qr_size_cm cfg * fx cfg)
    by (apply Qmult_lt_0_compat; assumption).
  apply Qmult_lt_l; [exact Ha|].
  assert (Hp' : 0 < ps pts') by lra.
  apply (proj1 (Qinv_lt_contravar _ _ Hp Hp')). exact Hlt.
Qed.

End Facts.

(** C6: for corners [p1, p2, p3, p4], the distance estimate fails
    exactly when the pixel edge length, the mean of the norms of
    [p2 - p1] and [p3 - p4], is below 1e-5; otherwise it is
    [(qr_size_cm * fx)] divided by that length, which for positive
    [qr_size_cm] and [fx] is strictly positive and strictly smaller for a
    strictly longer pixel edge. *)
Theorem estimate_distance_spec
    (cfg : Config) (norm : Point -> Q) (p1 p2 p3 p4 : Point) :
  let edge := (norm (sub p2 p1) + norm (sub p3 p4)) / 2 in
  (_estimate_distance cfg norm (p1, p2, p3, p4) = None <-> edge < 0.00001)
  /\ (0.00001 <= edge ->
      _estimate_distance cfg norm (p1, p2, p3, p4)
      = Some ((qr_size_cm cfg * fx cfg) / edge))
  /\ (0 < qr_size_cm cfg -> 0 < fx cfg ->
      forall z, _estimate_distance cfg norm (p1, p2, p3, p4) = Some z ->
                0 < z)
  /\ (0 < qr_size_cm cfg -> 0 < fx cfg ->
      forall q1 q2 q3 q4 z z',
        _estimate_distance cfg norm (p1, p2, p3, p4) = Some z ->
        _estimate_distance cfg norm (q1, q2, q3, q4) = Some z' ->
        edge < (norm (sub q2 q1) + norm (sub q3 q4)) / 2 ->
        z' < z).
Proof.
  intro edge.
  change edge with (pixel_size norm (p1, p2, p3, p4)).
  split; [apply estimate_none|].
  split; [apply estimate_some|].
  split.
  - intros Hq Hf z Hz.
    apply estimate_some_inv in Hz. destruct Hz as [Hp ->].
    apply dist_of_pos; try assumption. lra.
  - intros Hq Hf q1 q2 q3 q4 z z' Hz Hz' Hlt.
    change ((norm (sub q2 q1) + norm (sub q3 q4)) / 2)
      with (pixel_size norm (q1, q2, q3, q4)) in Hlt.
    apply estimate_some_inv in Hz. destruct Hz as [Hp ->].
    apply estimate_some_inv in Hz'. destruct Hz' as [_ ->].
    apply dist_of_decreasing; try assumption. lra.
Qed.

(** On [trapezoid] the edges are 20 px and 40 px long, their mean is
    30 px, and a marker of 2.5 cm seen with a focal length of 600 px is
    50 cm away. *)
Lemma estimate_distance_spec_witness :
  (horizontal_norm (sub (130, 100) (110, 100))
   + horizontal_norm (sub (140, 140) (100, 140))) / 2 == 30
  /\ exists z,
       _estimate_distance sample_config horizontal_norm trapezoid = Some z
       /\ z == 50.
Proof.
  split; [vm_compute; reflexivity|].
  eexists. split.
  - apply (estimate_distance_spec sample_config horizontal_norm
             (110, 100) (130, 100) (140, 140) (100, 140)).
    vm_compute. discriminate.
  - vm_compute. reflexivity.
Defined.

End QRDetectorFacts.

(** ** Target selection among the candidates of a frame *)

Module QRSelectionFacts.

Import QRDetector QRSpec QRDetectorFacts.

Section Loop.

Variable cfg : Config.
Variable norm : Point -> Q.

Local Abbreviation ps := (pixel_size norm).
Local Abbreviation dist := (dist_of cfg norm).
Local Abbreviation kept := (kept norm).
Local Abbreviation best_ok := (best_ok cfg norm).

Lemma best_ok_start : best_ok [] no_best.
Proof. split; [reflexivity | intros c []]. Qed.

Lemma best_ok_skip seen best c :
  ~ kept c -> best_ok seen best -> best_ok (seen ++ [c]) best.
Proof.
  intros Hskip. unfold best_ok.
  destruct (fst best) as [[[d pts] z]|].
  - intros (Hin & Hk & Hz & Hs & Hlt & Hmin).
    repeat split; try tauto.
    + apply in_or_app. now left.
    + apply Hk.
    + apply Hk.
    + intros c' Hc' Hk'. apply in_app_or in Hc'.
      destruct Hc' as [Hc'|[<-|[]]]; [now apply Hmin | contradiction].
  - intros [Hs Hmin]. split; [exact Hs|].
    intros c' Hc' Hk'. apply in_app_or in Hc'.
    destruct Hc' as [Hc'|[<-|[]]]; [now apply Hmin | contradiction].
Qed.

Lemma best_ok_step seen best c :
  best_ok seen best -> best_ok (seen ++ [c]) (consider cfg norm best c).
Proof.
  intro Hok. destruct c as [d pts]. unfold consider.
  destruct (is_empty d) eqn:Ed.
  { apply best_ok_skip; [|exact Hok]. intros [H _]. simpl in H. congruence. }
  destruct (Py.ltb (ps pts) 20) eqn:Es.
  { apply best_ok_skip; [|exact Hok]. intros [_ H]. simpl in H.
    apply PyFacts.ltb_lt in Es. lra. }
  apply PyFacts.ltb_ge in Es.
  rewrite estimate_some by lra.
  assert (Hk : kept (d, pts)) by (split; assumption).
  destruct (Py.ltb (dist pts) (snd best)) eqn:El.
  - apply PyFacts.ltb_lt in El. unfold best_ok in *. simpl.
    destruct (fst best) as [[[d0 pts0] z0]|].
    + destruct Hok as (Hin & Hk0 & Hz & Hs & Hlt & Hmin).
      rewrite Hs in El.
      repeat split; try apply Hk; try lra.
      * apply in_or_app. right. now left.
      * intros c' Hc' Hk'. apply in_app_or in Hc'.
        destruct Hc' as [Hc'|[<-|[]]]; [|simpl; lra].
        specialize (Hmin c' Hc' Hk'). lra.
    + destruct Hok as [Hs Hmin]. rewrite Hs in El.
      repeat split; try apply Hk; try lra.
      * apply in_or_app. right. now left.
      * intros c' Hc' Hk'. apply in_app_or in Hc'.
        destruct Hc' as [Hc'|[<-|[]]]; [|simpl; lra].
        specialize (Hmin c' Hc' Hk'). lra.
  - apply PyFacts.ltb_ge in El. unfold best_ok in *.
    destruct (fst best) as [[[d0 pts0] z0]|].
    + destruct Hok as (Hin & Hk0 & Hz & Hs & Hlt & Hmin).
      rewrite Hs in El.
      repeat split; try apply Hk0; try assumption.
      * apply in_or_app. now left.
      * intros c' Hc' Hk'. apply in_app_or in Hc'.
        destruct Hc' as [Hc'|[<-|[]]]; [now apply Hmin | simpl; lra].
    + destruct Hok as [Hs Hmin]. rewrite Hs in El.
      split; [exact Hs|].
      intros c' Hc' Hk'. apply in_app_or in Hc'.
      destruct Hc' as [Hc'|[<-|[]]]; [now apply Hmin | simpl; lra].
Qed.

Lemma best_ok_fold l : forall seen best,
  best_ok seen best ->
  best_ok (seen ++ l) (fold_left (consider cfg norm) l best).
Proof.
  induction l as [|c l IH]; intros seen best Hok; simpl.
  - now rewrite app_nil_r.
  - replace (seen ++ c :: l) with ((seen ++ [c]) ++ l)
      by (rewrite <- app_assoc; reflexivity).
    apply IH, best_ok_step, Hok.
Qed.

Lemma best_ok_all l : best_ok l (fold_left (consider cfg norm) l no_best).
Proof. apply (best_ok_fold l [] no_best), best_ok_start. Qed.

(** A run of candidates without payload leaves the loop variables as
    they were. *)
Lemma fold_all_empty l : forall best,
  (forall c, In c l -> is_empty (fst c) = true) ->
  fold_left (consider cfg norm) l best = best.
Proof.
  induction l as [|[d pts] l IH]; intros best H; simpl; [reflexivity|].
  assert (Hd : is_empty d = true) by (apply (H (d, pts)); now left).
  rewrite Hd. apply IH. intros c Hc. apply H. now right.
Qed.

End Loop.

Lemma in_zip_l {A B} (a : list A) : forall (b : list B) x y,
  In (x, y) (zip a b) -> In x a.
Proof.
  induction a as [|x0 a IH]; intros [|y0 b] x y H; simpl in *; try tauto.
  destruct H as [H|H]; [injection H as -> _; now left|].
  right. eapply IH, H.
Qed.

Lemma empty_string_iff (s : string) : is_empty s = true <-> s = ""%string.
Proof. destruct s; simpl; split; congruence. Qed.

(** The target of [detect] carries a payload. *)
Lemma detect_target_has_payload
    (cfg : Config) (norm : Point -> Q) (frame : Decoded) (t : Target) :
  detect cfg norm frame = Some t -> is_empty (data t) = false.
Proof.
  unfold detect, conclude.
  destruct (pts_list frame) as [pl|]; [|discriminate].
  destruct (negb (retval frame) || _); [discriminate|].
  pose proof (best_ok_all cfg norm (zip (data_list frame) pl)) as Hok.
  unfold best_ok in Hok.
  destruct (fst (fold_left _ _ no_best)) as [[[d pts] z]|]; [|discriminate].
  intro Ht. injection Ht as <-. simpl. apply Hok.
Qed.




End QRSelectionFacts.

(** ** Markers without a payload *)

Module QRPayloadFacts.

Import QRDetector QRSpec QRDetectorFacts QRSelectionFacts.

(** C9, as the code has it: [detect] skips a marker whose decoded
    payload is empty before its geometry is looked at; the target is
    never such a marker, and a frame in which every marker lacks a
    payload gives the lost result. *)
Theorem empty_payload_is_skipped (cfg : Config) (norm : Point -> Q) :
  (forall best pts, consider cfg norm best (""%string, pts) = best)
  /\ (forall frame t,
        detect cfg norm frame = Some t -> data t <> ""%string)
  /\ (forall frame,
        (forall d, In d (data_list frame) -> d = ""%string) ->
        detect cfg norm frame = None).
Proof.
  split; [intros best pts; reflexivity|].
  split.
  { intros frame t Ht He.
    apply detect_target_has_payload in Ht.
    apply empty_string_iff in He. congruence. }
  intros frame Hall.
  unfold detect.
  destruct (pts_list frame) as [pl|]; [|reflexivity].
  assert (Hfold : forall c, In c (zip (data_list frame) pl) ->
                            is_empty (fst c) = true).
  { intros [d pts] Hc. apply empty_string_iff, Hall.
    eapply in_zip_l, Hc. }
  rewrite (fold_all_empty cfg norm _ no_best Hfold).
  destruct (negb (retval frame) || _); reflexivity.
Qed.

Lemma empty_payload_is_skipped_witness :
  (forall d, In d (data_list unread_marker) -> d = ""%string)
  /\ detect sample_config horizontal_norm unread_marker = None.
Proof.
  assert (H : forall d, In d (data_list unread_marker) -> d = ""%string).
  { intros d [<-|[]]. reflexivity. }
  split; [exact H|].
  apply (empty_payload_is_skipped sample_config horizontal_norm).
  exact H.
Defined.

(** The marker of [unread_marker] has a sound geometry, 80 px wide and
    at 18.75 cm, and would be the target if it had a payload; without
    one the frame is reported lost. *)
Lemma unread_marker_is_not_a_candidate :
  20 <= pixel_size horizontal_norm (square 100 60 80)
  /\ _estimate_distance sample_config horizontal_norm (square 100 60 80)
     <> None
  /\ detect sample_config horizontal_norm
       {| retval := true; data_list := ["00001"%string];
          pts_list := Some [square 100 60 80] |} <> None
  /\ detect sample_config horizontal_norm unread_marker = None.
Proof.
  repeat split; vm_compute; discriminate || reflexivity.
Qed.

End QRPayloadFacts.

(** ** Baseline motion controller: avoidance overrides tracking *)

Module BaseMotionFacts.

Import BaseMotion MotionSpec.

(** C10: in the baseline controller, when [avoid_mode] is true the
    command (both speeds and the mode) and the state left behind are the
    same whatever the marker observation, and depend on the obstacle
    report through its [action] only. *)
Theorem avoidance_ignores_qr_state
    (cfg : Config) (st : State) (obst : ObstacleState) :
  avoid_mode obst = Some true ->
  (forall qr1 qr2 : QrState,
     compute cfg st qr1 obst = compute cfg st qr2 obst)
  /\ (forall (qr1 qr2 : QrState) (obst' : ObstacleState),
        avoid_mode obst' = Some true -> action obst' = action obst ->
        compute cfg st qr1 obst' = compute cfg st qr2 obst).
Proof.
  intro Ham. split.
  - intros qr1 qr2. unfold compute. rewrite Ham. reflexivity.
  - intros qr1 qr2 obst' Ham' Hact.
    unfold compute, _avoid_motion. rewrite Ham, Ham', Hact. reflexivity.
Qed.

Lemma avoidance_ignores_qr_state_witness :
  avoid_mode turning_right = Some true
  /\ compute default_config init lost_qr turning_right
     = compute default_config init seen_qr turning_right.
Proof.
  split; [reflexivity|].
  exact (proj1 (avoidance_ignores_qr_state default_config init
                  turning_right eq_refl) lost_qr seen_qr).
Defined.

(** What the override produces for the four actions. *)
Lemma avoid_motion_table (cfg : Config) (obst : ObstacleState) :
  forall l r m, _avoid_motion cfg obst = Some (l, r, m) ->
    (m = "avoid_stop" \/ m = "avoid_right" \/ m = "avoid_left"
     \/ m = "avoid_forward" \/ m = "avoid_idle")%string.
Proof.
  intros l r m. unfold _avoid_motion.
  destruct (action obst) as [act|]; [|discriminate].
  repeat match goal with
         | |- context [if ?b then _ else _] => destruct b
         end; intro H; injection H as <- <- <-; tauto.
Qed.

End BaseMotionFacts.

(** ** Mode orchestrator: bounded search and avoidance *)

Module OrchestratorFacts.

Import Orchestrator OrchestratorSpec.

(** With [a] attempts used, [6 - a] tests of the loop condition are
    enough for the search loop to end, and it ends with at most five
    attempts. *)
Lemma search_loop_ends (env : nat -> SearchRound) :
  forall k a i g, (a + k = 5)%nat ->
    exists g' n, search_loop (S k) env i g a = Some (g', n) /\ (n <= 5)%nat.
Proof.
  induction k as [|k IH]; intros a i g Ha; cbn [search_loop].
  - assert (a = 5%nat) as -> by lia.
    rewrite andb_false_r. eauto.
  - destruct (mode_eqb _ search && (a <? max_search_attempts)%nat).
    + destruct (search_outcome (env i)).
      * eexists _, _. split; [reflexivity | lia].
      * apply IH. lia.
      * apply IH. lia.
    + eexists _, _. split; [reflexivity | lia].
Qed.

(** [search_control_loop] returns, whatever the camera and the operator
    do, after at most five attempts. *)
Lemma search_control_loop_returns (env : nat -> SearchRound) (g : Globals) :
  exists g' n, search_control_loop 6 env g = Some (g', n) /\ (n <= 5)%nat.
Proof. apply (search_loop_ends env 5 0 0 g). reflexivity. Qed.

Lemma search_loop_exhausted (env : nat -> SearchRound) (g : Globals) :
  control_mode g = search ->
  (forall i, search_operator (env i) = None) ->
  (forall i, search_outcome (env i) <> Reacquired) ->
  forall k a i, (a + k = 5)%nat ->
    search_loop (S k) env i g a = Some (g, 5%nat).
Proof.
  intros Hm Hop Hout.
  induction k as [|k IH]; intros a i Ha; cbn [search_loop];
    rewrite Hop; cbn [observe]; rewrite Hm; cbn [mode_eqb andb].
  - assert (a = 5%nat) as -> by lia. reflexivity.
  - assert (Hlt : (a <? max_search_attempts)%nat = true)
      by (apply Nat.ltb_lt; unfold max_search_attempts; lia).
    rewrite Hlt.
    specialize (Hout i).
    destruct (search_outcome (env i)); [contradiction| |]; apply IH; lia.
Qed.

(** C8, where the code departs from it: when the five attempts are used
    up without the marker and without a key press, [search_control_loop]
    does return, but it leaves [control_mode] at [search] and starts no
    auto thread: the globals are as they were on entry. *)
Theorem search_exhaustion_stays_in_search
    (env : nat -> SearchRound) (g : Globals) :
  control_mode g = search ->
  (forall i, search_operator (env i) = None) ->
  (forall i, search_outcome (env i) <> Reacquired) ->
  search_control_loop 6 env g = Some (g, 5%nat).
Proof.
  intros Hm Hop Hout.
  apply (search_loop_exhausted env g Hm Hop Hout 5 0 0). reflexivity.
Qed.

Lemma search_exhaustion_stays_in_search_witness :
  control_mode searching = search
  /\ search_control_loop 6 never_found searching = Some (searching, 5%nat).
Proof.
  split; [reflexivity|].
  apply (search_exhaustion_stays_in_search never_found searching).
  - reflexivity.
  - intro i. reflexivity.
  - intro i. discriminate.
Defined.

(** The sibling loop does fall back: when the five avoidance attempts
    are used up, [avoidance_control_loop] sets [control_mode] to [auto]
    and restarts the auto thread. *)
Lemma avoidance_loop_exhausted (env : nat -> AvoidRound) (g : Globals) :
  control_mode g = avoidance ->
  (forall i, avoid_operator (env i) = None) ->
  (forall i d, avoid_outcome (env i) = Measured d -> recovered d = false) ->
  forall k a i, (a + k = 5)%nat ->
    exists g', avoidance_loop (S k) env i g a = Some (g', 5%nat)
               /\ control_mode g' = auto
               /\ auto_threads_started g' = S (auto_threads_started g).
Proof.
  intros Hm Hop Hout.
  induction k as [|k IH]; intros a i Ha; cbn [avoidance_loop];
    rewrite Hop; cbn [observe]; rewrite Hm; cbn [mode_eqb andb].
  - assert (a = 5%nat) as -> by lia. cbn. eauto.
  - assert (Hlt : (a <? max_avoidance_attempts)%nat = true)
      by (apply Nat.ltb_lt; unfold max_avoidance_attempts; lia).
    rewrite Hlt.
    specialize (Hout i).
    destruct (avoid_outcome (env i)) as [d|].
    + rewrite (Hout d eq_refl). apply IH. lia.
    + apply IH. lia.
Qed.

Lemma avoidance_exhaustion_returns_auto :
  exists g', avoidance_control_loop 6 never_clear avoiding = Some (g', 5%nat)
             /\ control_mode g' = auto.
Proof. vm_compute. eauto. Qed.

End OrchestratorFacts.

(** ** Motion synthesizer with smart avoidance *)

Module SmartMotionFacts.

Import SmartMotion MotionSpec.

(** C1, where the code departs from it: with the speed limit set to
    0.25 and the other parameters at their defaults, a lost marker and
    an obstacle report asking for a right turn give a right wheel speed
    of 0.28, above [max_speed], and a left wheel speed of -0.28, below
    [min_speed]: the turn branch returns its speeds without [_clamp]. *)
Theorem turn_speed_exceeds_max_speed :
  exists cmd st',
    compute limited_config (init 0) 1 lost_qr turning_right None
    = Some (cmd, st')
    /\ mode cmd = "avoid_right"%string
    /\ right_speed cmd == 0.28 /\ left_speed cmd == -0.28
    /\ max_speed limited_config < right_speed cmd
    /\ left_speed cmd < min_speed limited_config.
Proof.
  eexists _, _. split; [vm_compute; reflexivity|].
  repeat split; vm_compute; reflexivity.
Qed.

(** The same report with a confirmed ground obstacle goes through
    [_clamp] and stays inside the limits. *)
Lemma ground_obstacle_turn_is_clamped :
  exists cmd st',
    compute limited_config (init 0) 1 lost_qr
      {| obstacle_near := Some true;
         need_stop := Some false;
         avoid_mode := Some true;
         action := Some (Some "right"%string);
         distance_cm := Some 25;
         obstacle_type := Some "ground_obstacle"%string;
         ground_obstacle_confirmed := Some true |} None
    = Some (cmd, st')
    /\ min_speed limited_config <= left_speed cmd
    /\ right_speed cmd <= max_speed limited_config.
Proof.
  eexists _, _. split; [vm_compute; reflexivity|].
  split; vm_compute; discriminate.
Qed.

(** [_clamp] does what its name says when the limits are ordered. *)
Lemma clamp_range (cfg : Config) (v : Q) :
  min_speed cfg <= max_speed cfg ->
  min_speed cfg <= _clamp cfg v /\ _clamp cfg v <= max_speed cfg.
Proof.
  intro H. unfold _clamp. split.
  - apply PyFacts.max_lub_l.
  - apply PyFacts.max_le; [exact H | apply PyFacts.min_glb_l].
Qed.

(** What a tick leaves in the state: the estimate it returned, the clock
    reading, the right speed as issued and the left speed times 0.7. *)
Lemma compute_saves (cfg : Config) (st : State) (now : Q)
    (qr : QrState) (obst : ObstacleState) (ei : option ExtraInfo)
    (cmd : MotionCommand) (st' : State) :
  compute cfg st now qr obst ei = Some (cmd, st') ->
  last_left_speed st' = left_speed cmd * 0.7
  /\ last_right_speed st' = right_speed cmd
  /\ last_update_time st' = now
  /\ cumulative_rotation st' = rotation_estimate cmd
  /\ rotation_estimate cmd
     = snd (_update_rotation_estimate st now
              (last_left_speed st) (last_right_speed st)).
Proof.
  unfold compute.
  destruct (_update_rotation_estimate st now _ _) as [st1 cum] eqn:Eu.
  match goal with
  | |- match ?o with _ => _ end = _ -> _ =>
      destruct o as [[[[[l r] m] hist] halt]|]; [|discriminate]
  end.
  intro H. injection H as <- <-. simpl.
  unfold _update_rotation_estimate in Eu. injection Eu as <- <-. simpl.
  repeat split; reflexivity.
Qed.

(** The estimate a tick returns, from the state it starts in. *)
Lemma update_rotation_value (st : State) (now l r : Q) :
  let dt := now - last_update_time st in
  snd (_update_rotation_estimate st now l r)
  = if Py.ltb 0 dt
    then wrap360 (cumulative_rotation st
                  + ((last_right_speed st - last_left_speed st) / 0.5)
                    * 180 * dt)
    else cumulative_rotation st.
Proof.
  unfold _update_rotation_estimate, _estimate_rotation, wrap360. simpl.
  unfold Py.ltb at 1 3, Py.leb.
  destruct (Qle_bool (now - last_update_time st) 0); reflexivity.
Qed.

(** The wrap keeps a value inside [[-360, 360]]. *)
Lemma wrap360_range (c : Q) : -360 <= wrap360 c /\ wrap360 c <= 360.
Proof.
  unfold wrap360. destruct (Py.ltb 360 (Qabs c)) eqn:E.
  - destruct (PyFacts.mod_range c 360) as [Hlo Hhi]; [reflexivity|].
    split; lra.
  - apply PyFacts.ltb_ge in E. apply Qabs_Qle_condition in E.
    destruct E; split; lra.
Qed.

(** C4, as the code has it: a tick that comes [dt > 0] after the
    previous one first moves the rotation estimate by
    [((right_prev - 0.7 * left_prev) / 0.5) * 180 * dt], where
    [right_prev] and [left_prev] are the speeds the previous tick
    returned (the left one enters scaled by 0.7), and replaces a result
    of magnitude above 360 by its remainder modulo 360; with [dt <= 0]
    the estimate is left as it is.  The estimate returned is the one
    kept in the state, and it lies within [[-360, 360]] (both ends
    included) whenever the previous one does. *)
Theorem rotation_update_uses_scaled_left
    (cfg : Config) (st st' st'' : State) (now now' : Q)
    (qr qr' : QrState) (obst obst' : ObstacleState)
    (ei ei' : option ExtraInfo) (cmd cmd' : MotionCommand) :
  compute cfg st now qr obst ei = Some (cmd, st') ->
  compute cfg st' now' qr' obst' ei' = Some (cmd', st'') ->
  let dt := now' - now in
  cumulative_rotation st'' = rotation_estimate cmd'
  /\ (0 < dt ->
      rotation_estimate cmd'
      = wrap360 (rotation_estimate cmd
                 + ((right_speed cmd - left_speed cmd * 0.7) / 0.5)
                   * 180 * dt))
  /\ (dt <= 0 -> rotation_estimate cmd' = rotation_estimate cmd)
  /\ (-360 <= rotation_estimate cmd /\ rotation_estimate cmd <= 360 ->
      -360 <= rotation_estimate cmd' /\ rotation_estimate cmd' <= 360).
Proof.
  intros H1 H2 dt.
  apply compute_saves in H1. destruct H1 as (Hl & Hr & Ht & Hc & _).
  apply compute_saves in H2. destruct H2 as (_ & _ & _ & Hc' & Hv).
  rewrite update_rotation_value in Hv.
  rewrite Hl, Hr, Ht, Hc in Hv. fold dt in Hv.
  split; [exact Hc'|].
  destruct (Py.ltb 0 dt) eqn:E.
  - apply PyFacts.ltb_lt in E. rewrite Hv.
    repeat split; try (intros; lra); try apply wrap360_range.
  - apply PyFacts.ltb_ge in E. rewrite Hv.
    repeat split; try (intros; lra); try tauto.
Qed.

Lemma rotation_update_uses_scaled_left_witness :
  exists cmd cmd' : MotionCommand,
    rotation_estimate cmd' = wrap360 (rotation_estimate cmd
                 + ((right_speed cmd - left_speed cmd * 0.7) / 0.5)
                   * 180 * (2 - 1))
    /\ rotation_estimate cmd' == 21.6.
Proof.
  destruct (compute default_config (init 0) 1 lost_qr clear_path None)
    as [[cmd st']|] eqn:H1; [|vm_compute in H1; discriminate].
  destruct (compute default_config st' 2 lost_qr clear_path None)
    as [[cmd' st'']|] eqn:H2.
  - exists cmd, cmd'.
    destruct (rotation_update_uses_scaled_left default_config
                (init 0) st' st'' 1 2 lost_qr lost_qr clear_path clear_path
                None None cmd cmd' H1 H2) as (_ & Hpos & _).
    split; [apply Hpos; reflexivity|].
    vm_compute in H1. injection H1 as <- <-.
    vm_compute in H2. injection H2 as <- _.
    reflexivity.
  - vm_compute in H1. injection H1 as _ <-.
    vm_compute in H2. discriminate.
Defined.

(** The update the specification describes is not the one the code
    performs: after a tick that issued 0.2 on both wheels, the next
    tick, one second later, moves the estimate by 21.6 degrees where the
    formula on the issued speeds gives none; and after a tick that
    issued 0 and 0.5 a tick two seconds later puts the estimate at 360,
    outside [[-360, 360)]. *)
Lemma rotation_update_differs_from_spec :
  exists cmd1 st1,
    compute default_config (init 0) 1 lost_qr clear_path None
    = Some (cmd1, st1)
    /\ left_speed cmd1 == 0.2 /\ right_speed cmd1 == 0.2
    /\ (exists cmd2 st2,
          compute default_config st1 2 lost_qr clear_path None
          = Some (cmd2, st2)
          /\ ~ rotation_estimate cmd2
               == spec_rotation_update (rotation_estimate cmd1)
                    (left_speed cmd1) (right_speed cmd1) (2 - 1))
    /\ (exists cmd3 st3 cmd4 st4,
          compute wide_search_config (init 0) 1 lost_qr clear_path
            (Some target_far_left) = Some (cmd3, st3)
          /\ left_speed cmd3 == 0 /\ right_speed cmd3 == 0.5
          /\ compute wide_search_config st3 3 lost_qr clear_path
               (Some target_far_left) = Some (cmd4, st4)
          /\ cumulative_rotation st4 == 360
          /\ ~ cumulative_rotation st4 < 360).
Proof.
  eexists _, _. split; [vm_compute; reflexivity|].
  split; [vm_compute; reflexivity|].
  split; [vm_compute; reflexivity|].
  split.
  - eexists _, _. split; [vm_compute; reflexivity|].
    vm_compute. discriminate.
  - eexists _, _, _, _. split; [vm_compute; reflexivity|].
    split; [vm_compute; reflexivity|].
    split; [vm_compute; reflexivity|].
    split; [vm_compute; reflexivity|].
    split; [vm_compute; reflexivity|].
    vm_compute. discriminate.
Qed.

End SmartMotionFacts.

(** ** Ultrasonic avoidance state machine *)

Module ObstacleSensorFacts.

Import ObstacleSensor SensorSpec.

Section Machine.
Variable cfg : Config.
Variable clock : nat -> Q.

Lemma read_distance_frame raw w d w1 :
  read_distance cfg raw w = (d, w1) ->
  avoid_mode (sensor w1) = avoid_mode (sensor w)
  /\ phase (sensor w1) = phase (sensor w)
  /\ assigned w1 = assigned w.
Proof.
  destruct w as [[am ph pst ld cr dsd] rd asg].
  unfold read_distance, _median_filter, _dynamic_threshold_adjust.
  cbv [bind ret gets modify set_last_distance set_consecutive_readings
       set_dynamic_safe_distance sensor reads assigned consecutive_readings].
  destruct raw as [x|].
  - destruct (Py.leb x 0); [intro H; injection H as <- <-; auto|].
    destruct (Py.leb 9999 x); [intro H; injection H as <- <-; auto|].
    repeat match goal with
    | |- context [if ?b then _ else _] => destruct b
    | |- context [match ?l with [] => _ | _ :: _ => _ end] => destruct l
    end; intro H; injection H as <- <-; auto.
  - intro H; injection H as <- <-; auto.
Qed.



Ltac step_m :=
  repeat first
    [ progress cbv [update bind ret gets modify or_else phase_block
         forward_2_block _start_phase _phase_elapsed _create_state
         assign_phase time_time set_avoid_mode set_phase_start sensor reads
         assigned avoid_mode phase phase_start dynamic_safe_distance
         last_distance consecutive_readings
         phase_eqb negb andb fst snd]
    | rewrite andb_false_r
    | rewrite andb_true_r
    | match goal with
      | |- context [if ?b then _ else _] => destruct b eqn:?
      end ].



Lemma update_report raw w r w' :
  update cfg clock raw w = (r, w') ->
  (r_distance_cm r <= stop_distance_cm cfg ->
     r_need_stop r = true /\ r_action r = Some "stop"%string
     /\ r_phase r = Some STOP_CLOSE /\ r_obstacle_near r = true
     /\ phase (sensor w') = Some STOP_CLOSE
     /\ avoid_mode (sensor w') = true)
  /\ (stop_distance_cm cfg < r_distance_cm r ->
      r_need_stop r = false /\ r_action r <> Some "stop"%string)
  /\ (avoid_mode (sensor w) = true -> avoid_mode (sensor w') = false ->
      r_safe_distance r * 1.8 < r_distance_cm r
      /\ phase (sensor w) = None /\ phase (sensor w') = None)
  /\ r_safe_distance r = dynamic_safe_distance (sensor w')
  /\ r_avoid_mode r = avoid_mode (sensor w').
Proof.
  unfold update. unfold bind at 1.
  destruct (read_distance cfg raw w) as [d w1] eqn:Er.
  apply read_distance_frame in Er. destruct Er as (Ham & Hph & _).
  rewrite <- Ham, <- Hph. clear Ham Hph w.
  destruct w1 as [[am ph pst ld cr dsd] rd asg].
  destruct am; destruct ph as [[]|].
  all: step_m.
  all: intro H; injection H as <- <-.
  all: cbn.
  all: conds; q_facts.
  all: repeat split; intros; try reflexivity; try discriminate; try lra.
Qed.

Lemma stop_close_is_sticky raw w r w' :
  phase (sensor w) = Some STOP_CLOSE -> avoid_mode (sensor w) = true ->
  update cfg clock raw w = (r, w') ->
  phase (sensor w') = Some STOP_CLOSE /\ avoid_mode (sensor w') = true
  /\ r_phase r = Some STOP_CLOSE /\ r_avoid_mode r = true.
Proof.
  intros Hp Ha.
  unfold update. unfold bind at 1.
  destruct (read_distance cfg raw w) as [d w1] eqn:Er.
  apply read_distance_frame in Er. destruct Er as (Ham & Hph & _).
  rewrite <- Ham in Ha. rewrite <- Hph in Hp. clear Ham Hph w.
  destruct w1 as [[am ph pst ld cr dsd] rd asg].
  cbn in Hp, Ha. subst am ph.
  step_m.
  all: intro H; injection H as <- <-.
  all: try absurd_cond; cbn; auto.
Qed.





End Machine.




(** C3, where the code departs from it: once [STOP_CLOSE] is entered the
    phase stays [STOP_CLOSE] and [avoid_mode] stays true at every later
    poll, whatever the distance, so the condition outlasts the rise of
    the distance above the stop threshold. *)
Theorem stop_close_persists
    (cfg : Config) (clock : nat -> Q) (raws : list (option Q)) :
  forall w rs w',
    phase (sensor w) = Some STOP_CLOSE -> avoid_mode (sensor w) = true ->
    polls cfg clock raws w = (rs, w') ->
    phase (sensor w') = Some STOP_CLOSE /\ avoid_mode (sensor w') = true
    /\ Forall (fun r => r_phase r = Some STOP_CLOSE
                        /\ r_avoid_mode r = true) rs.
Proof.
  induction raws as [|raw raws IH]; intros w rs w' Hp Ha; simpl.
  - unfold ret. intro H. injection H as <- <-. auto.
  - unfold bind at 1.
    destruct (update cfg clock raw w) as [r w1] eqn:Eu.
    unfold bind at 1.
    destruct (polls cfg clock raws w1) as [rs1 w2] eqn:Ep.
    unfold ret. intro H. injection H as <- <-.
    destruct (stop_close_is_sticky cfg clock raw w r w1 Hp Ha Eu)
      as (Hp1 & Ha1 & Hr).
    destruct (IH w1 rs1 w2 Hp1 Ha1 Ep) as (Hp2 & Ha2 & Hrs).
    repeat split; try assumption. constructor; assumption.
Qed.

Lemma stop_close_persists_witness :
  exists r w1 rs w',
    update default_config frozen_clock (Some 8) (start default_config)
    = (r, w1)
    /\ polls default_config frozen_clock
         [Some 50; Some 200; Some 200; Some 200; Some 200] w1 = (rs, w')
    /\ phase (sensor w') = Some STOP_CLOSE
    /\ avoid_mode (sensor w') = true.
Proof.
  destruct (update default_config frozen_clock (Some 8)
              (start default_config)) as [r w1] eqn:Hu.
  destruct (polls default_config frozen_clock
              [Some 50; Some 200; Some 200; Some 200; Some 200] w1)
    as [rs w'] eqn:Hp.
  exists r, w1, rs, w'.
  assert (Hph : phase (sensor w1) = Some STOP_CLOSE)
    by (vm_compute in Hu; injection Hu as _ <-; reflexivity).
  assert (Ham : avoid_mode (sensor w1) = true)
    by (vm_compute in Hu; injection Hu as _ <-; reflexivity).
  destruct (stop_close_persists default_config frozen_clock _ w1 rs w'
              Hph Ham Hp) as (H1 & H2 & _).
  repeat split; assumption.
Defined.

(** The run of the witness, evaluated: after one reading of 8 cm the
    obstacle is gone, and the fifth poll from there sees 200 cm, well
    above the stop threshold of 12 cm and above 1.8 times the safe
    distance; it gives no stop order, but reports the phase
    [STOP_CLOSE] in avoid mode. *)
Lemma stop_close_outlasts_rise :
  exists rs w',
    polls default_config frozen_clock
      [Some 8; Some 50; Some 200; Some 200; Some 200; Some 200]
      (start default_config) = (rs, w')
    /\ (exists r, nth_error rs 5 = Some r
          /\ r_distance_cm r == 200
          /\ r_safe_distance r * 1.8 < r_distance_cm r
          /\ r_need_stop r = false /\ r_action r = None
          /\ r_phase r = Some STOP_CLOSE /\ r_avoid_mode r = true).
Proof.
  eexists _, _. split; [vm_compute; reflexivity|].
  eexists. split; [reflexivity|].
  repeat split; vm_compute; reflexivity.
Qed.

(** What holds of C3 on the code: the stop order is given exactly while
    the distance is at or below the stop threshold, from any phase, and
    [avoid_mode] is cleared only by a poll that sees more than 1.8 times
    the safe distance in phase [None]. *)
Lemma stop_order_and_exit
    (cfg : Config) (clock : nat -> Q) (raw : option Q)
    (w w' : World) (r : Report) :
  update cfg clock raw w = (r, w') ->
  (r_distance_cm r <= stop_distance_cm cfg ->
     r_need_stop r = true /\ r_action r = Some "stop"%string)
  /\ (stop_distance_cm cfg < r_distance_cm r ->
      r_need_stop r = false /\ r_action r <> Some "stop"%string)
  /\ (avoid_mode (sensor w) = true -> avoid_mode (sensor w') = false ->
      r_safe_distance r * 1.8 < r_distance_cm r
      /\ phase (sensor w) = None).
Proof.
  intro Hu. apply update_report in Hu.
  destruct Hu as (H1 & H2 & H3 & _).
  repeat split; try (apply H1; assumption); try (apply H2; assumption);
    apply H3; assumption.
Qed.

End ObstacleSensorFacts.

(** ** The speed bounds under the default parameters *)

Module SmartMotionBounds.

Import SmartMotion MotionSpec.

Lemma pymax0_range (x : Q) : x <= 1 -> 0 <= Py.max 0 x /\ Py.max 0 x <= 1.
Proof.
  intro H. split; [apply PyFacts.max_lub_l|].
  apply PyFacts.max_le; lra.
Qed.

Lemma clamp_default (v : Q) :
  -1 <= _clamp default_config v /\ _clamp default_config v <= 1.
Proof. apply (SmartMotionFacts.clamp_range default_config v). discriminate. Qed.

Lemma search_range (halt td cum : Q) :
  halt = 0 \/ halt = 1 ->
  forall l r m,
    _search_toward_target default_config halt td cum = (l, r, m) ->
    (0 <= l /\ l <= 1) /\ (0 <= r /\ r <= 1).
Proof.
  intros Hh l r m. unfold _search_toward_target.
  cbv [default_config max_rotation_deviation search_base_speed
       search_turn_gain].
  set (df := Py.max (-100) (Py.min 100 td) / 100).
  pose proof (Qabs_nonneg df) as Hdf.
  set (a := Qabs df) in *. clearbody a.
  split_ifs; intro H; injection H as <- <- <-;
    split; apply pymax0_range; destruct Hh as [-> | ->]; lra.
Qed.

Lemma smart_range (obst : ObstacleState) (td cum : Q) :
  forall halt l r m,
    _smart_avoidance default_config obst td cum = (halt, (l, r, m)) ->
    (halt = 0 \/ halt = 1) /\ (-1 <= l /\ l <= 1) /\ (-1 <= r /\ r <= 1).
Proof.
  intros halt l r m. unfold _smart_avoidance.
  set (h := match need_stop obst with Some true => 0 | _ => 1 end).
  assert (Hh : h = 0 \/ h = 1).
  { subst h. destruct (need_stop obst) as [[]|]; auto. }
  clearbody h.
  destruct (Py.leb _ _).
  { destruct (Py.ltb 0 td); intro H; injection H as <- <- <- <-;
      (split; [exact Hh|]); split; apply clamp_default. }
  repeat match goal with
         | |- context [if is_action ?a ?s then _ else _] =>
             destruct (is_action a s)
         end.
  5:{ destruct (_search_toward_target default_config h td cum)
        as [[l0 r0] m0] eqn:Es.
      intro H; injection H as <- <- <- <-.
      apply search_range in Es; [|exact Hh]. split; [exact Hh|].
      destruct Es as [[? ?] [? ?]]. split; split; lra. }
  all: cbv [default_config base_turn base_forward search_base_speed
            max_rotation_deviation].
  all: split_ifs; intro H; injection H as <- <- <- <-.
  all: split; [exact Hh|].
  all: try (split; apply clamp_default).
  all: destruct Hh as [-> | ->]; split; split; lra.
Qed.

Lemma scaled_le_1 (f k : Q) : f <= 1 -> 0 <= k -> k <= 1 -> f * k <= 1.
Proof. intros Hf Hk0 Hk1. nra. Qed.

Lemma tracking_range (qr : QrState) (obst : ObstacleState) :
  forall l r m,
    _normal_tracking default_config qr obst = Some (l, r, m) ->
    (-1 <= l /\ l <= 1) /\ (-1 <= r /\ r <= 1).
Proof.
  intros l r m. unfold _normal_tracking.
  destruct (qr_distance_cm qr) as [dist|]; [|discriminate].
  destruct (qr_offsets qr) as [off|]; [|discriminate].
  cbv [default_config base_forward obstacle_safe_distance stop_near
       track_far max_speed dead_zone_px turn_comp].
  destruct (String.eqb _ _ && _ && _).
  { split_ifs; intro H; injection H as <- <- <-; split; split; lra. }
  destruct (Py.leb dist 22).
  { intro H; injection H as <- <- <-. split; split; lra. }
  unfold Py.div. change (Qeq_bool (120 - 22) 0) with false. cbv iota.
  match goal with
  | |- context [Py.min ?f 1] =>
      match f with
      | context [pitch_trend] => set (fw := Py.min f 1)
      end
  end.
  assert (Hfw : fw <= 1) by apply PyFacts.min_glb_r.
  clearbody fw.
  set (ts := Py.min (Qabs (cx_off off) / 100) 1).
  assert (Hts : 0 <= ts /\ ts <= 1).
  { split; [|apply PyFacts.min_glb_r].
    apply PyFacts.min_ge; [|lra].
    pose proof (Qabs_nonneg (cx_off off)).
    apply Qle_shift_div_l; lra. }
  clearbody ts. destruct Hts as [Hts0 Hts1].
  assert (Hk : fw * (1 - ts * 0.45) <= 1)
    by (apply scaled_le_1; lra).
  split_ifs; intro H; injection H as <- <- <-.
  all: split.
  all: match goal with
       | |- _ <= Py.max 0 ?x /\ _ =>
           destruct (pymax0_range x); [assumption|split; lra]
       end.
Qed.

(** X10: under the default parameters every command [compute] returns
    keeps both speeds inside [[min_speed, max_speed] = [-1, 1]], from
    any state in which [Halt] is 0 or 1, and [Halt] stays 0 or 1. *)
Lemma default_speeds_in_range
    (st : State) (now : Q) (qr : QrState) (obst : ObstacleState)
    (ei : option ExtraInfo) (cmd : MotionCommand) (st' : State) :
  halt_ok st ->
  compute default_config st now qr obst ei = Some (cmd, st') ->
  (min_speed default_config <= left_speed cmd
   /\ left_speed cmd <= max_speed default_config)
  /\ (min_speed default_config <= right_speed cmd
      /\ right_speed cmd <= max_speed default_config)
  /\ halt_ok st'.
Proof.
  intros Hh. unfold compute.
  destruct (_update_rotation_estimate st now _ _) as [st1 cum] eqn:Eu.
  assert (Hh1 : Halt st1 = 0 \/ Halt st1 = 1).
  { unfold _update_rotation_estimate in Eu. injection Eu as <- _. exact Hh. }
  set (td := match ei with
             | Some e => get (target_direction e) 0 | None => 0 end).
  clearbody td.
  change (min_speed default_config) with (-1).
  change (max_speed default_config) with 1.
  destruct (negb (get (qr_lost qr) true)).
  - destruct (_normal_tracking default_config qr obst)
      as [[[l r] m]|] eqn:Et; [|discriminate].
    intro H. injection H as <- <-. unfold halt_ok. cbn.
    apply tracking_range in Et. tauto.
  - destruct (get (obstacle_near obst) false).
    + destruct (distance_cm obst); [|discriminate].
      destruct (_smart_avoidance default_config obst td cum)
        as [halt [[l r] m]] eqn:Es.
      intro H. injection H as <- <-. cbn.
      apply smart_range in Es. unfold halt_ok. cbn. tauto.
    + destruct (_search_toward_target default_config (Halt st1) td cum)
        as [[l r] m] eqn:Es.
      intro H. injection H as <- <-. cbn.
      apply search_range in Es; [|exact Hh1].
      unfold halt_ok. cbn.
      destruct Es as [[? ?] [? ?]]. repeat split; try lra. exact Hh1.
Qed.

Lemma default_speeds_in_range_witness :
  exists cmd st',
    compute default_config (init 0) 1 seen_qr clear_path None
    = Some (cmd, st')
    /\ min_speed default_config <= right_speed cmd
    /\ right_speed cmd <= max_speed default_config.
Proof.
  destruct (compute default_config (init 0) 1 seen_qr clear_path None)
    as [[cmd st']|] eqn:Hc; [|vm_compute in Hc; discriminate].
  exists cmd, st'. split; [reflexivity|].
  apply (default_speeds_in_range (init 0) 1 seen_qr clear_path None
           cmd st'); [right; reflexivity | exact Hc].
Defined.

End SmartMotionBounds.

(** ** Baseline avoidance state machine *)

Module BaseObstacleSensorFacts.

Import ObstacleSensor.

(** X17: in the baseline variant too nothing leaves [STOP_CLOSE], and
    there the report keeps [need_stop] true with it, whatever the
    distance. *)
Lemma baseline_stop_close_is_sticky
    (cfg : Config) (clock : nat -> Q) (raw : option Q)
    (w w' : World) (r : BaseObstacleSensor.Report) :
  phase (sensor w) = Some STOP_CLOSE -> avoid_mode (sensor w) = true ->
  BaseObstacleSensor.update cfg clock raw w = (r, w') ->
  phase (sensor w') = Some STOP_CLOSE /\ avoid_mode (sensor w') = true
  /\ BaseObstacleSensor.b_phase r = Some STOP_CLOSE
  /\ BaseObstacleSensor.b_need_stop r = true.
Proof.
  intros Hp Ha.
  destruct w as [[am ph pst ld cr dsd] rd asg].
  cbn in Hp, Ha. subst am ph.
  cbv [BaseObstacleSensor.update BaseObstacleSensor.read_distance
       BaseObstacleSensor.phase_block BaseObstacleSensor.forward_2_block
       BaseObstacleSensor._state bind ret gets modify or_else
       _start_phase _phase_elapsed assign_phase time_time set_avoid_mode
       set_phase_start sensor reads assigned avoid_mode phase phase_start
       phase_eqb negb andb].
  split_ifs; intro H; injection H as <- <-; try absurd_cond; cbn; auto.
Qed.

(** X18: in the baseline variant a sensor in avoid mode with the
    maneuver over (phase [None]) leaves avoid mode exactly when the
    reading exceeds 1.5 times the safe distance. *)
Lemma baseline_exit_threshold
    (cfg : Config) (clock : nat -> Q) (raw : option Q)
    (w w' : World) (r : BaseObstacleSensor.Report) :
  avoid_mode (sensor w) = true -> phase (sensor w) = None ->
  BaseObstacleSensor.update cfg clock raw w = (r, w') ->
  stop_distance_cm cfg < BaseObstacleSensor.b_distance_cm r ->
  (avoid_mode (sensor w') = false
   <-> safe_distance_cm cfg * 1.5 < BaseObstacleSensor.b_distance_cm r).
Proof.
  intros Ha Hp.
  destruct w as [[am ph pst ld cr dsd] rd asg].
  cbn in Hp, Ha. subst am ph.
  cbv [BaseObstacleSensor.update BaseObstacleSensor.read_distance
       BaseObstacleSensor.phase_block BaseObstacleSensor.forward_2_block
       BaseObstacleSensor._state bind ret gets modify or_else
       _start_phase _phase_elapsed assign_phase time_time set_avoid_mode
       set_phase_start sensor reads assigned avoid_mode phase phase_start
       phase_eqb negb andb].
  split_ifs; intro H; injection H as <- <-; try absurd_cond; cbn;
    conds; q_facts;
    intro Hd; split; intro; try discriminate; try reflexivity; lra.
Qed.

Lemma baseline_stop_close_is_sticky_witness :
  exists r w',
    BaseObstacleSensor.update default_config SensorSpec.frozen_clock
      (Some 200) ExtraSpec.stopped_world = (r, w')
    /\ BaseObstacleSensor.b_need_stop r = true.
Proof.
  destruct (BaseObstacleSensor.update default_config
              SensorSpec.frozen_clock (Some 200) ExtraSpec.stopped_world)
    as [r w'] eqn:Hu.
  exists r, w'. split; [reflexivity|].
  apply (baseline_stop_close_is_sticky default_config
           SensorSpec.frozen_clock (Some 200) ExtraSpec.stopped_world
           w' r eq_refl eq_refl Hu).
Defined.

Lemma baseline_exit_threshold_witness :
  exists r w',
    BaseObstacleSensor.update default_config SensorSpec.frozen_clock
      (Some 50) ExtraSpec.maneuver_over_world = (r, w')
    /\ avoid_mode (sensor w') = false.
Proof.
  destruct (BaseObstacleSensor.update default_config
              SensorSpec.frozen_clock (Some 50)
              ExtraSpec.maneuver_over_world) as [r w'] eqn:Hu.
  exists r, w'. split; [reflexivity|].
  assert (Hd : stop_distance_cm default_config
               < BaseObstacleSensor.b_distance_cm r)
    by (vm_compute in Hu; injection Hu as <- _; reflexivity).
  apply (baseline_exit_threshold default_config SensorSpec.frozen_clock
           (Some 50) ExtraSpec.maneuver_over_world w' r
           eq_refl eq_refl Hu Hd).
  vm_compute in Hu. injection Hu as <- _. reflexivity.
Defined.

End BaseObstacleSensorFacts.

(** ** Further properties of the motion synthesizer *)

Module SmartMotionExtras.

Import SmartMotion MotionSpec.

(** The ground-obstacle test of [_normal_tracking]. *)
Lemma ground_test_false (cfg : Config) (obst : ObstacleState) (dist : Q) :
  obstacle_type obst <> Some "ground_obstacle"%string ->
  String.eqb (get (obstacle_type obst) "unknown"%string)
             "ground_obstacle"%string
  && Py.ltb (get (distance_cm obst) 9999) (obstacle_safe_distance cfg)
  && Py.ltb (get (distance_cm obst) 9999) (dist * 0.8) = false.
Proof.
  intro H. destruct (obstacle_type obst) as [t|]; [|reflexivity].
  simpl. destruct (String.eqb_spec t "ground_obstacle"%string);
    [|reflexivity].
  subst t. contradiction.
Qed.

Lemma div_defined (a b : Q) : ~ b == 0 -> Py.div a b = Some (a / b).
Proof.
  intro H. unfold Py.div. destruct (Qeq_bool b 0) eqn:E; [|reflexivity].
  apply Qeq_bool_iff in E. contradiction.
Qed.

(** X1: with the marker lost and no obstacle flagged, [compute] always
    returns a command, its mode is one of the five search modes and
    neither wheel runs backward, whatever the parameters, the state and
    the target direction. *)
Theorem search_never_reverses
    (cfg : Config) (st : State) (now : Q) (qr : QrState)
    (obst : ObstacleState) (ei : option ExtraInfo) :
  get (qr_lost qr) true = true ->
  get (obstacle_near obst) false = false ->
  exists cmd st',
    compute cfg st now qr obst ei = Some (cmd, st')
    /\ 0 <= left_speed cmd /\ 0 <= right_speed cmd
    /\ (mode cmd = "search_correct_left" \/ mode cmd = "search_correct_right"
        \/ mode cmd = "search_forward" \/ mode cmd = "search_right"
        \/ mode cmd = "search_left")%string.
Proof.
  intros Hl Hn. unfold compute. rewrite Hl, Hn.
  cbv [negb _update_rotation_estimate].
  match goal with
  | |- context [_search_toward_target cfg ?h ?t ?c] =>
      generalize h t c
  end.
  intros h t c. unfold _search_toward_target.
  split_ifs; eexists _, _; (split; [reflexivity|]); cbn;
    (split; [apply PyFacts.max_lub_l|]);
    (split; [apply PyFacts.max_lub_l|]); tauto.
Qed.

Lemma search_never_reverses_witness :
  exists cmd st',
    compute default_config (init 0) 1 lost_qr clear_path None
    = Some (cmd, st')
    /\ 0 <= left_speed cmd /\ 0 <= right_speed cmd.
Proof.
  destruct (search_never_reverses default_config (init 0) 1 lost_qr
              clear_path None eq_refl eq_refl)
    as (cmd & st' & H & Hl & Hr & _).
  exists cmd, st'. auto.
Defined.

(** With the marker in view the command is the one [_normal_tracking]
    computes. *)
Lemma compute_visible (cfg : Config) (st : State) (now : Q)
    (qr : QrState) (obst : ObstacleState) (ei : option ExtraInfo)
    (l r : Q) (m : string) :
  qr_lost qr = Some false ->
  _normal_tracking cfg qr obst = Some (l, r, m) ->
  exists cmd st',
    compute cfg st now qr obst ei = Some (cmd, st')
    /\ left_speed cmd = l /\ right_speed cmd = r /\ mode cmd = m.
Proof.
  intros Hv Ht. unfold compute. rewrite Hv, Ht.
  cbv [get negb _update_rotation_estimate].
  eexists _, _. split; [reflexivity|]. cbn. auto.
Qed.

Lemma compute_visible_inv (cfg : Config) (st st' : State) (now : Q)
    (qr : QrState) (obst : ObstacleState) (ei : option ExtraInfo)
    (cmd : MotionCommand) :
  qr_lost qr = Some false ->
  compute cfg st now qr obst ei = Some (cmd, st') ->
  _normal_tracking cfg qr obst
  = Some (left_speed cmd, right_speed cmd, mode cmd).
Proof.
  intros Hv. unfold compute. rewrite Hv.
  cbv [get negb _update_rotation_estimate].
  destruct (_normal_tracking cfg qr obst) as [[[l r] m]|]; [|discriminate].
  intro H. injection H as <- _. reflexivity.
Qed.

Lemma pymax0_mono (x y : Q) : x <= y -> Py.max 0 x <= Py.max 0 y.
Proof.
  intro H. apply PyFacts.max_le; [apply PyFacts.max_lub_l|].
  pose proof (PyFacts.max_lub_r 0 y). lra.
Qed.

Lemma scaled_below (f k : Q) :
  0 <= k -> k <= 1 -> Py.max 0 (f * k) <= Py.max 0 f.
Proof.
  intros Hk0 Hk1. apply PyFacts.max_le; [apply PyFacts.max_lub_l|].
  pose proof (PyFacts.max_lub_l 0 f). pose proof (PyFacts.max_lub_r 0 f).
  destruct (Qlt_le_dec f 0); nra.
Qed.

(** X2: a marker in view inside the dead zone, beyond the stop
    distance and with no ground obstacle reported, gives a straight
    command: the same non-negative speed on both wheels and the mode
    [forward]. *)
Theorem dead_zone_drives_straight
    (cfg : Config) (st : State) (now : Q) (qr : QrState)
    (obst : ObstacleState) (ei : option ExtraInfo) (dist : Q)
    (off : Offsets) :
  qr_lost qr = Some false ->
  qr_distance_cm qr = Some dist -> qr_offsets qr = Some off ->
  obstacle_type obst <> Some "ground_obstacle"%string ->
  stop_near cfg < dist ->
  ~ track_far cfg - stop_near cfg == 0 ->
  Qabs (cx_off off) < dead_zone_px cfg ->
  exists cmd st',
    compute cfg st now qr obst ei = Some (cmd, st')
    /\ left_speed cmd = right_speed cmd
    /\ 0 <= left_speed cmd
    /\ mode cmd = "forward"%string.
Proof.
  intros Hv Hd Ho Hg Hs Hz Hc.
  assert (Ht : exists v, _normal_tracking cfg qr obst
                         = Some (Py.max 0 v, Py.max 0 v, "forward"%string)).
  { unfold _normal_tracking. rewrite Hd, Ho.
    rewrite (ground_test_false cfg obst dist Hg).
    apply PyFacts.leb_gt in Hs. rewrite Hs.
    rewrite (div_defined _ _ Hz).
    apply PyFacts.ltb_lt in Hc. rewrite Hc.
    eexists. reflexivity. }
  destruct Ht as [v Ht].
  destruct (compute_visible cfg st now qr obst ei _ _ _ Hv Ht)
    as (cmd & st' & Hcmp & Hl & Hr & Hm).
  exists cmd, st'. rewrite Hl, Hr, Hm.
  repeat split; try assumption. apply PyFacts.max_lub_l.
Qed.

Lemma dead_zone_drives_straight_witness :
  exists cmd st',
    compute default_config (init 0) 1
      {| qr_lost := Some false; qr_distance_cm := Some 50;
         qr_offsets := Some {| cx_off := 0; cy_off := 0;
                               yaw_trend := 0; pitch_trend := 0 |} |}
      clear_path None = Some (cmd, st')
    /\ left_speed cmd = right_speed cmd
    /\ 0 <= left_speed cmd
    /\ mode cmd = "forward"%string.
Proof.
  apply (dead_zone_drives_straight default_config (init 0) 1 _ clear_path
           None 50 {| cx_off := 0; cy_off := 0;
                      yaw_trend := 0; pitch_trend := 0 |});
    try reflexivity; discriminate.
Defined.

(** X3: outside the dead zone the wheel on the side of the marker is
    the slower one: for a turn gain between 0 and 1, a marker to the
    right gives the mode [turn_right] with the right speed at most the
    left one, a marker to the left the mode [turn_left] with the left
    speed at most the right one, and no wheel runs backward. *)
Theorem steering_slows_inner_wheel
    (cfg : Config) (st : State) (now : Q) (qr : QrState)
    (obst : ObstacleState) (ei : option ExtraInfo) (dist : Q)
    (off : Offsets) :
  qr_lost qr = Some false ->
  qr_distance_cm qr = Some dist -> qr_offsets qr = Some off ->
  obstacle_type obst <> Some "ground_obstacle"%string ->
  stop_near cfg < dist ->
  ~ track_far cfg - stop_near cfg == 0 ->
  dead_zone_px cfg <= Qabs (cx_off off) ->
  0 <= turn_comp cfg -> turn_comp cfg <= 1 ->
  exists cmd st',
    compute cfg st now qr obst ei = Some (cmd, st')
    /\ 0 <= left_speed cmd /\ 0 <= right_speed cmd
    /\ (0 < cx_off off ->
        mode cmd = "turn_right"%string
        /\ right_speed cmd <= left_speed cmd)
    /\ (cx_off off <= 0 ->
        mode cmd = "turn_left"%string
        /\ left_speed cmd <= right_speed cmd).
Proof.
  intros Hv Hd Ho Hg Hs Hz Hc Ht0 Ht1.
  set (ts := Py.min (Qabs (cx_off off) / 100) 1).
  assert (Hts : 0 <= ts /\ ts <= 1).
  { split; [|apply PyFacts.min_glb_r].
    apply PyFacts.min_ge; [|lra].
    pose proof (Qabs_nonneg (cx_off off)).
    apply Qle_shift_div_l; lra. }
  assert (Hk : 0 <= 1 - ts * turn_comp cfg /\ 1 - ts * turn_comp cfg <= 1).
  { destruct Hts. split; nra. }
  assert (Ht : exists v,
             _normal_tracking cfg qr obst
             = if Py.ltb 0 (cx_off off)
               then Some (Py.max 0 v,
                          Py.max 0 (v * (1 - ts * turn_comp cfg)),
                          "turn_right"%string)
               else Some (Py.max 0 (v * (1 - ts * turn_comp cfg)),
                          Py.max 0 v, "turn_left"%string)).
  { unfold _normal_tracking. rewrite Hd, Ho.
    rewrite (ground_test_false cfg obst dist Hg).
    apply PyFacts.leb_gt in Hs. rewrite Hs.
    rewrite (div_defined _ _ Hz).
    apply PyFacts.ltb_ge in Hc. rewrite Hc.
    eexists. fold ts. destruct (Py.ltb 0 (cx_off off)); reflexivity. }
  destruct Ht as [v Ht].
  destruct (Py.ltb 0 (cx_off off)) eqn:Ecx.
  - destruct (compute_visible cfg st now qr obst ei _ _ _ Hv Ht)
      as (cmd & st' & Hcmp & Hl & Hr & Hm).
    exists cmd, st'. rewrite Hl, Hr, Hm.
    apply PyFacts.ltb_lt in Ecx.
    repeat split; intros; try assumption; try apply PyFacts.max_lub_l;
      try (apply scaled_below; tauto); exfalso; lra.
  - destruct (compute_visible cfg st now qr obst ei _ _ _ Hv Ht)
      as (cmd & st' & Hcmp & Hl & Hr & Hm).
    exists cmd, st'. rewrite Hl, Hr, Hm.
    apply PyFacts.ltb_ge in Ecx.
    repeat split; intros; try assumption; try apply PyFacts.max_lub_l;
      try (apply scaled_below; tauto); exfalso; lra.
Qed.

Lemma steering_slows_inner_wheel_witness :
  exists cmd st',
    compute default_config (init 0) 1 seen_qr clear_path None
    = Some (cmd, st')
    /\ mode cmd = "turn_right"%string
    /\ right_speed cmd <= left_speed cmd.
Proof.
  destruct (steering_slows_inner_wheel default_config (init 0) 1 seen_qr
              clear_path None 50
              {| cx_off := 40; cy_off := 0; yaw_trend := 0;
                 pitch_trend := 0 |})
    as (cmd & st' & H & _ & _ & Hr & _);
    try reflexivity; try discriminate.
  exists cmd, st'. destruct Hr; [reflexivity|]. auto.
Defined.

(** X4: with the marker in view, the lateral avoidance modes
    [track_avoid_left] and [track_avoid_right] are produced exactly when
    the obstacle report is typed [ground_obstacle] and the ultrasonic
    distance is below both the safe distance and 0.8 times the marker
    distance; any other type, as the wall-mounted marker, leaves the
    tracking command alone. *)
Theorem avoidance_bias_needs_ground_obstacle
    (cfg : Config) (st st' : State) (now : Q) (qr : QrState)
    (obst : ObstacleState) (ei : option ExtraInfo) (dist : Q)
    (cmd : MotionCommand) :
  qr_lost qr = Some false ->
  qr_distance_cm qr = Some dist ->
  compute cfg st now qr obst ei = Some (cmd, st') ->
  ((mode cmd = "track_avoid_left" \/ mode cmd = "track_avoid_right")%string
   <-> (obstacle_type obst = Some "ground_obstacle"%string
        /\ get (distance_cm obst) 9999 < obstacle_safe_distance cfg
        /\ get (distance_cm obst) 9999 < dist * 0.8)).
Proof.
  intros Hv Hd Hc. apply (compute_visible_inv _ _ _ _ _ _ _ _ Hv) in Hc.
  revert Hc. unfold _normal_tracking. rewrite Hd.
  destruct (qr_offsets qr) as [off|]; [|discriminate].
  destruct (String.eqb _ _ && _ && _) eqn:Eg.
  - apply andb_prop in Eg. destruct Eg as [Eg E3].
    apply andb_prop in Eg. destruct Eg as [E1 E2].
    apply PyFacts.ltb_lt in E2, E3.
    assert (Ht : obstacle_type obst = Some "ground_obstacle"%string).
    { destruct (obstacle_type obst) as [t|]; [|discriminate].
      simpl in E1. apply String.eqb_eq in E1. now subst. }
    split_ifs; intro H; injection H as _ _ <-; tauto.
  - assert (Hn : ~ (obstacle_type obst = Some "ground_obstacle"%string
                    /\ get (distance_cm obst) 9999
                       < obstacle_safe_distance cfg
                    /\ get (distance_cm obst) 9999 < dist * 0.8)).
    { intros (H1 & H2 & H3). rewrite H1 in Eg. simpl in Eg.
      apply PyFacts.ltb_lt in H2, H3. rewrite H2, H3 in Eg.
      discriminate. }
    destruct (Py.leb dist (stop_near cfg)).
    { intro H; injection H as _ _ <-.
      split; [intros [?|?]; discriminate | tauto]. }
    destruct (Py.div _ _); [|discriminate].
    split_ifs; intro H; injection H as _ _ <-;
      (split; [intros [?|?]; discriminate | tauto]).
Qed.

Lemma avoidance_bias_needs_ground_obstacle_witness :
  exists cmd st',
    compute default_config (init 0) 1 seen_qr
      {| obstacle_near := Some true; need_stop := Some false;
         avoid_mode := Some true; action := Some (Some "right"%string);
         distance_cm := Some 20;
         obstacle_type := Some "ground_obstacle"%string;
         ground_obstacle_confirmed := Some true |} None = Some (cmd, st')
    /\ mode cmd = "track_avoid_left"%string.
Proof.
  destruct (compute default_config (init 0) 1 seen_qr _ None)
    as [[cmd st']|] eqn:Hc; [|vm_compute in Hc; discriminate].
  exists cmd, st'. split; [reflexivity|].
  destruct (proj2 (avoidance_bias_needs_ground_obstacle default_config
                     (init 0) st' 1 seen_qr _ None 50 cmd
                     eq_refl eq_refl Hc)) as [H|H].
  - repeat split; reflexivity.
  - exact H.
  - vm_compute in Hc. injection Hc as <- _. discriminate.
Defined.

(** X5: a marker in view at or inside the stop distance, with no ground
    obstacle reported, stops the robot: both speeds are 0, the mode is
    [near_stop], and the speeds kept for the next rotation update are 0
    too. *)
Theorem near_marker_stops
    (cfg : Config) (st : State) (now : Q) (qr : QrState)
    (obst : ObstacleState) (ei : option ExtraInfo) (dist : Q)
    (off : Offsets) :
  qr_lost qr = Some false ->
  qr_distance_cm qr = Some dist -> qr_offsets qr = Some off ->
  obstacle_type obst <> Some "ground_obstacle"%string ->
  dist <= stop_near cfg ->
  exists cmd st',
    compute cfg st now qr obst ei = Some (cmd, st')
    /\ left_speed cmd = 0 /\ right_speed cmd = 0
    /\ mode cmd = "near_stop"%string
    /\ last_left_speed st' == 0 /\ last_right_speed st' == 0.
Proof.
  intros Hv Hd Ho Hg Hs.
  assert (Ht : _normal_tracking cfg qr obst
               = Some (0, 0, "near_stop"%string)).
  { unfold _normal_tracking. rewrite Hd, Ho.
    rewrite (ground_test_false cfg obst dist Hg).
    apply PyFacts.leb_le in Hs. rewrite Hs. reflexivity. }
  destruct (compute_visible cfg st now qr obst ei _ _ _ Hv Ht)
    as (cmd & st' & Hcmp & Hl & Hr & Hm).
  exists cmd, st'.
  destruct (SmartMotionFacts.compute_saves _ _ _ _ _ _ _ _ Hcmp)
    as (Hsl & Hsr & _).
  rewrite Hsl, Hsr, Hl, Hr.
  repeat split; try assumption; reflexivity.
Qed.

Lemma near_marker_stops_witness :
  exists cmd st',
    compute default_config (init 0) 1
      {| qr_lost := Some false; qr_distance_cm := Some 10;
         qr_offsets := Some {| cx_off := 60; cy_off := 0;
                               yaw_trend := 0; pitch_trend := 0 |} |}
      clear_path None = Some (cmd, st')
    /\ left_speed cmd = 0 /\ right_speed cmd = 0.
Proof.
  destruct (near_marker_stops default_config (init 0) 1
              {| qr_lost := Some false; qr_distance_cm := Some 10;
                 qr_offsets := Some {| cx_off := 60; cy_off := 0;
                                       yaw_trend := 0; pitch_trend := 0 |} |}
              clear_path None 10
              {| cx_off := 60; cy_off := 0; yaw_trend := 0;
                 pitch_trend := 0 |})
    as (cmd & st' & H & Hl & Hr & _);
    try reflexivity; try discriminate.
  exists cmd, st'. auto.
Defined.

(** [_clamp] of a value that is zero is zero when the limits enclose
    zero. *)
Lemma clamp_zero (cfg : Config) (v : Q) :
  min_speed cfg <= 0 -> 0 <= max_speed cfg -> v == 0 ->
  _clamp cfg v == 0.
Proof.
  intros Hlo Hhi Hv. unfold _clamp, Py.max, Py.min.
  destruct (Py.ltb v (max_speed cfg)) eqn:E1;
    destruct (Py.ltb (min_speed cfg) _) eqn:E2; q_facts; lra.
Qed.

Lemma pymax0_zero (x : Q) : x == 0 -> Py.max 0 x == 0.
Proof.
  intro H. unfold Py.max. destruct (Py.ltb 0 x); lra.
Qed.

(** X6: with the marker lost and an obstacle flagged, a stop request
    ([need_stop] true) without a confirmed ground obstacle brings both
    wheels to zero in every branch of the smart avoidance, provided the
    speed limits enclose zero. *)
Theorem stop_request_halts
    (cfg : Config) (st : State) (now : Q) (qr : QrState)
    (obst : ObstacleState) (ei : option ExtraInfo) (d : Q) :
  get (qr_lost qr) true = true ->
  obstacle_near obst = Some true ->
  distance_cm obst = Some d ->
  need_stop obst = Some true ->
  get (ground_obstacle_confirmed obst) false = false ->
  min_speed cfg <= 0 -> 0 <= max_speed cfg ->
  exists cmd st',
    compute cfg st now qr obst ei = Some (cmd, st')
    /\ left_speed cmd == 0 /\ right_speed cmd == 0
    /\ Halt st' = 0.
Proof.
  intros Hl Hn Hd Hs Hg Hlo Hhi.
  unfold compute. rewrite Hl, Hn, Hd.
  cbv [get negb _update_rotation_estimate].
  unfold _smart_avoidance. rewrite Hs, Hg, Hd.
  cbv [get]. unfold _search_toward_target.
  split_ifs; eexists _, _; (split; [reflexivity|]); cbn;
    repeat split;
    try (apply clamp_zero; [assumption | assumption | ring]);
    try (apply pymax0_zero; ring);
    try ring; reflexivity.
Qed.

Lemma stop_request_halts_witness :
  exists cmd st',
    compute default_config (init 0) 1 lost_qr
      {| obstacle_near := Some true; need_stop := Some true;
         avoid_mode := Some true; action := Some (Some "forward"%string);
         distance_cm := Some 25; obstacle_type := Some "unknown"%string;
         ground_obstacle_confirmed := Some false |} None
    = Some (cmd, st')
    /\ left_speed cmd == 0 /\ right_speed cmd == 0.
Proof.
  destruct (stop_request_halts default_config (init 0) 1 lost_qr
              {| obstacle_near := Some true; need_stop := Some true;
                 avoid_mode := Some true;
                 action := Some (Some "forward"%string);
                 distance_cm := Some 25;
                 obstacle_type := Some "unknown"%string;
                 ground_obstacle_confirmed := Some false |} None 25)
    as (cmd & st' & H & Hl & Hr & _);
    try reflexivity; try discriminate.
  exists cmd, st'. auto.
Defined.

(** X7: the history of target directions never grows beyond
    [max_history] entries: a tick that starts with at most twenty
    leaves at most twenty, and it appends only while the marker is in
    view. *)
Theorem history_stays_bounded
    (cfg : Config) (st st' : State) (now : Q) (qr : QrState)
    (obst : ObstacleState) (ei : option ExtraInfo) (cmd : MotionCommand) :
  (List.length (target_direction_history st) <= max_history)%nat ->
  compute cfg st now qr obst ei = Some (cmd, st') ->
  (List.length (target_direction_history st') <= max_history)%nat
  /\ (get (qr_lost qr) true = true ->
      target_direction_history st' = target_direction_history st).
Proof.
  intros Hb. unfold compute.
  cbv [_update_rotation_estimate].
  destruct (negb (get (qr_lost qr) true)) eqn:El.
  - destruct (_normal_tracking cfg qr obst) as [[[l r] m]|];
      [|discriminate].
    intro H. injection H as _ <-. cbn. split.
    + unfold push_history. rewrite length_app. cbn [List.length].
      destruct (Nat.ltb_spec max_history
                  (List.length (target_direction_history st) + 1)).
      * destruct (target_direction_history st) as [|x h]; cbn in *;
          [unfold max_history in *; lia|].
        rewrite length_app. cbn. lia.
      * rewrite length_app. cbn. lia.
    + intro Hl. rewrite Hl in El. discriminate.
  - destruct (get (obstacle_near obst) false).
    + destruct (distance_cm obst); [|discriminate].
      destruct (_smart_avoidance cfg obst _ _) as [halt [[l r] m]].
      intro H. injection H as _ <-. cbn. auto.
    + destruct (_search_toward_target cfg _ _ _) as [[l r] m].
      intro H. injection H as _ <-. cbn. auto.
Qed.

Lemma history_stays_bounded_witness :
  exists cmd st',
    compute default_config (init 0) 1 seen_qr clear_path None
    = Some (cmd, st')
    /\ (List.length (target_direction_history st') <= max_history)%nat.
Proof.
  destruct (compute default_config (init 0) 1 seen_qr clear_path None)
    as [[cmd st']|] eqn:Hc; [|vm_compute in Hc; discriminate].
  exists cmd, st'. split; [reflexivity|].
  apply (history_stays_bounded default_config (init 0) st' 1 seen_qr
           clear_path None cmd); [|exact Hc].
  cbn. unfold max_history. lia.
Defined.

(** X8: for ordered limits [_clamp] returns a value inside
    [[min_speed, max_speed]], leaves a value inside the limits as it is,
    and clamping twice is clamping once. *)
Theorem clamp_spec (cfg : Config) (v : Q) :
  min_speed cfg <= max_speed cfg ->
  (min_speed cfg <= _clamp cfg v /\ _clamp cfg v <= max_speed cfg)
  /\ (min_speed cfg <= v /\ v <= max_speed cfg -> _clamp cfg v == v)
  /\ _clamp cfg (_clamp cfg v) == _clamp cfg v.
Proof.
  intro H.
  assert (Hin : forall x, min_speed cfg <= x /\ x <= max_speed cfg ->
                          _clamp cfg x == x).
  { intros x [Hlo Hhi]. unfold _clamp, Py.max, Py.min.
    destruct (Py.ltb x (max_speed cfg)) eqn:E1;
      destruct (Py.ltb (min_speed cfg) _) eqn:E2; q_facts; lra. }
  assert (Hr : forall x, min_speed cfg <= _clamp cfg x
                         /\ _clamp cfg x <= max_speed cfg).
  { intro x. unfold _clamp. split.
    - apply PyFacts.max_lub_l.
    - apply PyFacts.max_le; [exact H | apply PyFacts.min_glb_l]. }
  split; [apply Hr|]. split; [apply Hin | apply Hin, Hr].
Qed.

Lemma clamp_spec_witness :
  min_speed default_config <= max_speed default_config
  /\ _clamp default_config (_clamp default_config 3)
     == _clamp default_config 3.
Proof.
  split; [discriminate|].
  apply (clamp_spec default_config 3). discriminate.
Defined.

(** X9: [compute] raises in three situations only: the marker is
    reported in view but [distance_cm] or [offsets] is missing from the
    marker state (KeyError); the marker is in view beyond the stop
    distance, no ground obstacle is ahead and [track_far] equals
    [stop_near] (ZeroDivisionError); the marker is lost, an obstacle is
    flagged and the obstacle state has no [distance_cm] (KeyError). *)
Theorem compute_raises_exactly
    (cfg : Config) (st : State) (now : Q) (qr : QrState)
    (obst : ObstacleState) (ei : option ExtraInfo) :
  compute cfg st now qr obst ei = None
  <-> (get (qr_lost qr) true = false
       /\ (qr_distance_cm qr = None \/ qr_offsets qr = None
           \/ exists dist,
                qr_distance_cm qr = Some dist
                /\ ExtraSpec.ground_obstacle_ahead cfg obst dist = false
                /\ stop_near cfg < dist
                /\ track_far cfg - stop_near cfg == 0))
      \/ (get (qr_lost qr) true = true
          /\ get (obstacle_near obst) false = true
          /\ distance_cm obst = None).
Proof.
  unfold compute. cbv [_update_rotation_estimate].
  destruct (get (qr_lost qr) true) eqn:El; cbn [negb].
  - destruct (get (obstacle_near obst) false) eqn:En.
    + destruct (distance_cm obst) as [d|].
      * destruct (_smart_avoidance cfg obst _ _) as [halt [[l r] m]].
        split; [discriminate|].
        intros [[H _]|(_ & _ & H)]; discriminate.
      * split; [right; auto | reflexivity].
    + destruct (_search_toward_target cfg _ _ _) as [[l r] m].
      split; [discriminate|].
      intros [[H _]|(_ & H & _)]; discriminate.
  - unfold _normal_tracking, ExtraSpec.ground_obstacle_ahead.
    destruct (qr_distance_cm qr) as [dist|];
      [|split; [left; auto | reflexivity]].
    destruct (qr_offsets qr) as [off|];
      [|split; [left; auto | reflexivity]].
    destruct (String.eqb _ _ && _ && _) eqn:Eg.
    { split.
      - split_ifs; discriminate.
      - intros [(_ & [H|[H|(d' & Hd & Hg & _)]])|(H & _)];
          try discriminate.
        injection Hd as <-. congruence. }
    destruct (Py.leb dist (stop_near cfg)) eqn:Es.
    { split; [discriminate|].
      intros [(_ & [H|[H|(d' & Hd & _ & Hs & _)]])|(H & _)];
        try discriminate.
      injection Hd as <-. q_facts. lra. }
    unfold Py.div.
    destruct (Qeq_bool (track_far cfg - stop_near cfg) 0) eqn:Ez.
    { split; [|reflexivity]. intros _. left. split; [reflexivity|].
      right. right. exists dist. q_facts.
      apply Qeq_bool_iff in Ez. auto. }
    split.
    + split_ifs; discriminate.
    + intros [(_ & [H|[H|(d' & Hd & _ & _ & Hz)]])|(H & _)];
        try discriminate.
      apply Qeq_bool_iff in Hz. congruence.
Qed.

End SmartMotionExtras.

(** ** Further properties of the avoidance state machine *)

Module ObstacleSensorExtras.

Import ObstacleSensor SensorSpec ExtraSpec.

Ltac run_update :=
  repeat first
    [ progress cbv [update bind ret gets modify or_else phase_block
         forward_2_block _start_phase _phase_elapsed _create_state
         assign_phase time_time set_avoid_mode set_phase_start sensor reads
         assigned avoid_mode phase phase_start dynamic_safe_distance
         last_distance consecutive_readings
         phase_eqb negb andb fst snd]
    | rewrite andb_false_r
    | rewrite andb_true_r
    | match goal with
      | |- context [if ?b then _ else _] => destruct b eqn:?
      end ].

(** [sorted] keeps the elements of the list. *)
Lemma in_insert_sorted (x y : Q) (l : list Q) :
  In y (insert_sorted x l) <-> y = x \/ In y l.
Proof.
  induction l as [|z l IH]; simpl.
  - intuition.
  - destruct (Py.leb x z); simpl; [intuition|].
    rewrite IH. intuition.
Qed.

Lemma in_sorted (y : Q) (l : list Q) : In y (sorted l) <-> In y l.
Proof.
  induction l as [|x l IH]; simpl; [tauto|].
  rewrite in_insert_sorted, IH. intuition.
Qed.

Lemma length_insert_sorted (x : Q) (l : list Q) :
  List.length (insert_sorted x l) = S (List.length l).
Proof.
  induction l as [|z l IH]; simpl; [reflexivity|].
  destruct (Py.leb x z); simpl; [reflexivity|]. now rewrite IH.
Qed.

Lemma length_sorted (l : list Q) :
  List.length (sorted l) = List.length l.
Proof.
  induction l as [|x l IH]; simpl; [reflexivity|].
  now rewrite length_insert_sorted, IH.
Qed.

(** What [read_distance] does not touch. *)
Lemma read_distance_keeps (cfg : Config) (raw : option Q)
    (w w1 : World) (d : Q) :
  read_distance cfg raw w = (d, w1) ->
  avoid_mode (sensor w1) = avoid_mode (sensor w)
  /\ phase (sensor w1) = phase (sensor w)
  /\ phase_start (sensor w1) = phase_start (sensor w)
  /\ reads w1 = reads w
  /\ assigned w1 = assigned w.
Proof.
  destruct w as [[am ph pst ld cr dsd] rd asg].
  unfold read_distance, _median_filter, _dynamic_threshold_adjust.
  cbv [bind ret gets modify set_last_distance set_consecutive_readings
       set_dynamic_safe_distance sensor reads assigned consecutive_readings].
  destruct raw as [x|].
  - destruct (Py.leb x 0); [intro H; injection H as <- <-; auto 6|].
    destruct (Py.leb 9999 x); [intro H; injection H as <- <-; auto 6|].
    repeat match goal with
    | |- context [if ?b then _ else _] => destruct b
    | |- context [match ?l with [] => _ | _ :: _ => _ end] => destruct l
    end; intro H; injection H as <- <-; auto 6.
  - intro H; injection H as <- <-; auto 6.
Qed.

(** X11: a valid reading (above 0 and below 9999) enters the window of
    the median filter, the window never holds more than five readings,
    all of them the new one or readings it held before, and the filtered
    distance returned, which is also kept as [last_distance], is one of
    the readings in the window. *)
Theorem filtered_reading_is_recent
    (cfg : Config) (raw d : Q) (w w' : World) :
  0 < raw -> raw < 9999 ->
  (List.length (consecutive_readings (sensor w)) <= filter_size)%nat ->
  read_distance cfg (Some raw) w = (d, w') ->
  In d (consecutive_readings (sensor w'))
  /\ In raw (consecutive_readings (sensor w'))
  /\ (List.length (consecutive_readings (sensor w')) <= filter_size)%nat
  /\ (forall x, In x (consecutive_readings (sensor w')) ->
                x = raw \/ In x (consecutive_readings (sensor w)))
  /\ last_distance (sensor w') = d.
Proof.
  intros H0 H9 Hlen.
  destruct w as [[am ph pst ld cr dsd] rd asg]. cbn in Hlen.
  unfold read_distance.
  assert (E0 : Py.leb raw 0 = false) by (apply PyFacts.leb_gt; exact H0).
  assert (E9 : Py.leb 9999 raw = false) by (apply PyFacts.leb_gt; exact H9).
  rewrite E0, E9.
  unfold _median_filter, _dynamic_threshold_adjust.
  cbv [bind ret gets modify set_last_distance set_consecutive_readings
       set_dynamic_safe_distance sensor reads assigned consecutive_readings].
  set (win := if Nat.ltb filter_size (List.length (cr ++ [raw]))
              then List.tl (cr ++ [raw]) else cr ++ [raw]).
  assert (Hwin : In raw win
                 /\ (List.length win <= filter_size)%nat
                 /\ (forall x, In x win -> x = raw \/ In x cr)
                 /\ win <> []).
  { subst win. rewrite length_app. cbn [List.length].
    destruct (Nat.ltb_spec filter_size (List.length cr + 1)).
    - destruct cr as [|c cr]; cbn in *; [unfold filter_size in *; lia|].
      repeat split.
      + apply in_or_app. right. now left.
      + rewrite length_app. cbn. lia.
      + intros x Hx. apply in_app_or in Hx.
        destruct Hx as [Hx|[<-|[]]]; auto.
      + destruct cr; discriminate.
    - repeat split.
      + apply in_or_app. right. now left.
      + rewrite length_app. cbn. lia.
      + intros x Hx. apply in_app_or in Hx.
        destruct Hx as [Hx|[<-|[]]]; auto.
      + destruct cr; discriminate. }
  clearbody win. destruct Hwin as (Hin & Hl & Hold & Hne).
  assert (Hmed : In (nth (List.length (sorted win) / 2) (sorted win) 0) win).
  { apply in_sorted. apply nth_In. rewrite length_sorted.
    destruct win as [|x win]; [contradiction|]. cbn [List.length].
    apply Nat.div_lt; lia. }
  destruct (Nat.leb filter_size (List.length win));
    [destruct win as [|x win']; [contradiction|];
     destruct (Py.ltb _ 5)|];
    intro H; injection H as <- <-; cbn; auto.
Qed.

Lemma filtered_reading_is_recent_witness :
  exists d w',
    read_distance default_config (Some 25) (start default_config) = (d, w')
    /\ In d (consecutive_readings (sensor w'))
    /\ last_distance (sensor w') = d.
Proof.
  destruct (read_distance default_config (Some 25) (start default_config))
    as [d w'] eqn:Hr.
  exists d, w'. split; [reflexivity|].
  destruct (filtered_reading_is_recent default_config 25 d
              (start default_config) w')
    as (H1 & _ & _ & _ & H5); try reflexivity; try exact Hr.
  - cbn. unfold filter_size. lia.
  - auto.
Defined.

(** X12: a reading that is not usable leaves the sensor as it is: when
    the reader raises or returns a value at or below 0 the distance is
    the last filtered one, and a value of 9999 or more gives 9999; the
    window of the filter, the threshold and the avoidance state are
    untouched. *)
Theorem unusable_reading_is_ignored
    (cfg : Config) (w : World) :
  read_distance cfg None w = (last_distance (sensor w), w)
  /\ (forall raw, raw <= 0 ->
        read_distance cfg (Some raw) w = (last_distance (sensor w), w))
  /\ (forall raw, 9999 <= raw ->
        read_distance cfg (Some raw) w = (9999, w)).
Proof.
  split; [reflexivity|]. split.
  - intros raw H. unfold read_distance.
    apply PyFacts.leb_le in H. rewrite H. reflexivity.
  - intros raw H. unfold read_distance.
    assert (E0 : Py.leb raw 0 = false) by (apply PyFacts.leb_gt; lra).
    apply PyFacts.leb_le in H. rewrite E0, H. reflexivity.
Qed.

Lemma unusable_reading_is_ignored_witness :
  read_distance default_config (Some (-3)) (start default_config)
  = (9999, start default_config).
Proof.
  apply (proj1 (proj2 (unusable_reading_is_ignored default_config
                         (start default_config)))).
  lra.
Defined.

(** [read_distance] sets the threshold to one of the two values or
    leaves it. *)
Lemma read_distance_threshold (cfg : Config) (raw : option Q)
    (w w1 : World) (d : Q) :
  read_distance cfg raw w = (d, w1) ->
  threshold_ok cfg (dynamic_safe_distance (sensor w1))
  \/ dynamic_safe_distance (sensor w1) = dynamic_safe_distance (sensor w).
Proof.
  destruct w as [[am ph pst ld cr dsd] rd asg].
  unfold read_distance, _median_filter, _dynamic_threshold_adjust,
    threshold_ok.
  cbv [bind ret gets modify set_last_distance set_consecutive_readings
       set_dynamic_safe_distance sensor reads assigned consecutive_readings].
  destruct raw as [x|].
  - destruct (Py.leb x 0); [intro H; injection H as <- <-; auto|].
    destruct (Py.leb 9999 x); [intro H; injection H as <- <-; auto|].
    repeat match goal with
    | |- context [if ?b then _ else _] => destruct b
    | |- context [match ?l with [] => _ | _ :: _ => _ end] => destruct l
    end; intro H; injection H as <- <-; cbn; auto.
  - intro H; injection H as <- <-; auto.
Qed.

(** After [read_distance], [update] leaves the threshold alone. *)
Lemma update_threshold (cfg : Config) (clock : nat -> Q)
    (raw : option Q) (w w' : World) (r : Report) :
  update cfg clock raw w = (r, w') ->
  (threshold_ok cfg (dynamic_safe_distance (sensor w'))
   \/ dynamic_safe_distance (sensor w')
      = dynamic_safe_distance (sensor w))
  /\ r_safe_distance r = dynamic_safe_distance (sensor w').
Proof.
  unfold update. unfold bind at 1.
  destruct (read_distance cfg raw w) as [d w1] eqn:Er.
  apply read_distance_threshold in Er.
  destruct w1 as [[am ph pst ld cr dsd] rd asg].
  cbn [sensor dynamic_safe_distance] in Er.
  destruct am; destruct ph as [[]|].
  all: run_update.
  all: intro H; injection H as <- <-.
  all: cbn; auto.
Qed.

(** X13: over every sequence of polls from the initial state, the safe
    distance a report carries is the configured one or the widened one,
    1.1 times as large; nothing else is ever used as threshold. *)
Theorem reported_threshold_is_one_of_two
    (cfg : Config) (clock : nat -> Q) (raws : list (option Q)) :
  forall rs w',
    polls cfg clock raws (start cfg) = (rs, w') ->
    Forall (fun r => threshold_ok cfg (r_safe_distance r)) rs
    /\ threshold_ok cfg (dynamic_safe_distance (sensor w')).
Proof.
  assert (Hgen : forall w rs w',
             threshold_ok cfg (dynamic_safe_distance (sensor w)) ->
             polls cfg clock raws w = (rs, w') ->
             Forall (fun r => threshold_ok cfg (r_safe_distance r)) rs
             /\ threshold_ok cfg (dynamic_safe_distance (sensor w'))).
  { induction raws as [|raw raws IH]; intros w rs w' Hok; simpl.
    - unfold ret. intro H. injection H as <- <-. auto.
    - unfold bind at 1.
      destruct (update cfg clock raw w) as [r w1] eqn:Eu.
      unfold bind at 1.
      destruct (polls cfg clock raws w1) as [rs1 w2] eqn:Ep.
      unfold ret. intro H. injection H as <- <-.
      apply update_threshold in Eu. destruct Eu as [Hd Hr].
      assert (Hok1 : threshold_ok cfg (dynamic_safe_distance (sensor w1))).
      { destruct Hd as [Hd|Hd]; [exact Hd | rewrite Hd; exact Hok]. }
      destruct (IH w1 rs1 w2 Hok1 Ep) as [Hrs Hw].
      split; [|exact Hw]. constructor; [rewrite Hr; exact Hok1 | exact Hrs]. }
  intros rs w'. apply Hgen. left. reflexivity.
Qed.

Lemma reported_threshold_is_one_of_two_witness :
  exists rs w',
    polls default_config frozen_clock
      [Some 50; Some 50; Some 50; Some 50; Some 50]
      (start default_config) = (rs, w')
    /\ threshold_ok default_config (dynamic_safe_distance (sensor w')).
Proof.
  destruct (polls default_config frozen_clock
              [Some 50; Some 50; Some 50; Some 50; Some 50]
              (start default_config)) as [rs w'] eqn:Hp.
  exists rs, w'. split; [reflexivity|].
  apply (reported_threshold_is_one_of_two default_config frozen_clock
           _ rs w' Hp).
Defined.

(** [__init__] caps every dwell time at five seconds and leaves a
    shorter one as configured; it sets no lower bound. *)
Lemma dwell_times_are_capped (safe stop rt f1 lt f2 : Q) :
  let cfg := make_config safe stop rt f1 lt f2 in
  (right_turn_time cfg <= 5 /\ forward_time_1 cfg <= 5
   /\ left_turn_time cfg <= 5 /\ forward_time_2 cfg <= 5)
  /\ (rt <= 5 -> right_turn_time cfg = rt)
  /\ (f1 <= 5 -> forward_time_1 cfg = f1)
  /\ (lt <= 5 -> left_turn_time cfg = lt)
  /\ (f2 <= 5 -> forward_time_2 cfg = f2)
  /\ safe_distance_cm cfg = safe /\ stop_distance_cm cfg = stop.
Proof.
  cbn.
  assert (Hcap : forall x, Py.min x 5 <= 5)
    by (intro; apply PyFacts.min_glb_r).
  assert (Hid : forall x, x <= 5 -> Py.min x 5 = x).
  { intros x Hx. unfold Py.min.
    apply PyFacts.ltb_ge in Hx. rewrite Hx. reflexivity. }
  repeat split; auto.
Qed.

(** X14: in every report, from any state of the sensor, the action goes
    with the phase: [right] with [TURN_RIGHT], [left] with [TURN_LEFT],
    [forward] with [FORWARD_1] or [FORWARD_2], [stop] with a stop
    request, which comes with [STOP_CLOSE]; a report out of avoid mode
    is idle: no obstacle near, no phase, no action. *)
Theorem report_action_matches_phase
    (cfg : Config) (clock : nat -> Q) (raw : option Q)
    (w w' : World) (r : Report) :
  update cfg clock raw w = (r, w') ->
  (r_action r = Some "right"%string <-> r_phase r = Some TURN_RIGHT)
  /\ (r_action r = Some "left"%string <-> r_phase r = Some TURN_LEFT)
  /\ (r_action r = Some "forward"%string
      <-> r_phase r = Some FORWARD_1 \/ r_phase r = Some FORWARD_2)
  /\ (r_action r = Some "stop"%string <-> r_need_stop r = true)
  /\ (r_need_stop r = true -> r_phase r = Some STOP_CLOSE)
  /\ (r_avoid_mode r = false ->
      r_obstacle_near r = false /\ r_phase r = None /\ r_action r = None).
Proof.
  unfold update. unfold bind at 1.
  destruct (read_distance cfg raw w) as [d w1].
  destruct w1 as [[am ph pst ld cr dsd] rd asg].
  destruct am; destruct ph as [[]|].
  all: run_update.
  all: intro H; injection H as <- <-.
  all: try absurd_cond.
  all: cbn; repeat split; intros; try reflexivity; try discriminate;
    try tauto;
    try match goal with
        | H : _ \/ _ |- _ => destruct H; discriminate
        end.
Qed.

Lemma report_action_matches_phase_witness :
  exists r w',
    update default_config frozen_clock (Some 25) (start default_config)
    = (r, w')
    /\ (r_action r = Some "right"%string <-> r_phase r = Some TURN_RIGHT).
Proof.
  destruct (update default_config frozen_clock (Some 25)
              (start default_config)) as [r w'] eqn:Hu.
  exists r, w'. split; [reflexivity|].
  apply (report_action_matches_phase default_config frozen_clock
           (Some 25) (start default_config) w' r Hu).
Defined.

(** X15: a maneuver phase is boxed by its dwell time and by nothing
    else: above the stop distance, while the time since the phase
    started is below the dwell time the poll reports the phase with its
    action and the sensor stays in it; once the dwell time is reached
    the poll leaves the phase and assigns the next one of the cycle,
    whatever the distance. *)
Theorem dwell_time_boxes_phase
    (cfg : Config) (clock : nat -> Q) (raw : option Q)
    (w w' : World) (r : Report) (p : PhaseName) :
  p <> STOP_CLOSE ->
  phase (sensor w) = Some p -> avoid_mode (sensor w) = true ->
  update cfg clock raw w = (r, w') ->
  stop_distance_cm cfg < r_distance_cm r ->
  let elapsed := clock (reads w) - phase_start (sensor w) in
  (elapsed < dwell_of cfg p ->
     r_phase r = Some p /\ r_action r = action_of p
     /\ phase (sensor w') = Some p /\ assigned w' = assigned w)
  /\ (dwell_of cfg p <= elapsed ->
      phase (sensor w') <> Some p /\ r_phase r <> Some p
      /\ exists later q, assigned w' = later ++ q :: assigned w
                         /\ cycle_step (Some p) q).
Proof.
  intros Hp Hph Ham. unfold update. unfold bind at 1.
  destruct (read_distance cfg raw w) as [d w1] eqn:Er.
  apply read_distance_keeps in Er.
  destruct Er as (Ea & Ep & Es & Erd & Eas).
  rewrite <- Ea in Ham. rewrite <- Ep in Hph.
  rewrite <- Es, <- Erd, <- Eas. clear Ea Ep Es Erd Eas w.
  destruct w1 as [[am ph pst ld cr dsd] rd asg].
  cbn in Hph, Ham. subst am ph.
  destruct p; [contradiction| | | |].
  all: run_update.
  all: intro H; injection H as <- <-.
  all: try absurd_cond.
  all: cbn; intro Hd; conds; q_facts.
  all: split; intro He; try (exfalso; lra).
  all: repeat split; try reflexivity; try discriminate.
  all: try (exists [], (Some FORWARD_1); split; [reflexivity|constructor]).
  all: try (exists [], (Some TURN_LEFT); split; [reflexivity|constructor]).
  all: try (exists [], (Some FORWARD_2); split; [reflexivity|constructor]).
  all: try (exists [], None; split; [reflexivity|constructor]).
  all: try (eexists [_], _; split; [reflexivity|constructor]).
  all: try (eexists [_; _], _; split; [reflexivity|constructor]).
  all: try (eexists [_; _; _], _; split; [reflexivity|constructor]).
Qed.

Lemma dwell_time_boxes_phase_witness :
  exists r1 w1 r2 w2,
    update default_config frozen_clock (Some 25) (start default_config)
    = (r1, w1)
    /\ update default_config frozen_clock (Some 25) w1 = (r2, w2)
    /\ r_phase r2 = Some TURN_RIGHT
    /\ phase (sensor w2) = Some TURN_RIGHT.
Proof.
  destruct (update default_config frozen_clock (Some 25)
              (start default_config)) as [r1 w1] eqn:H1.
  destruct (update default_config frozen_clock (Some 25) w1)
    as [r2 w2] eqn:H2.
  exists r1, w1, r2, w2. split; [reflexivity|]. split; [exact H2|].
  assert (Hph : phase (sensor w1) = Some TURN_RIGHT)
    by (vm_compute in H1; injection H1 as _ <-; reflexivity).
  assert (Ham : avoid_mode (sensor w1) = true)
    by (vm_compute in H1; injection H1 as _ <-; reflexivity).
  assert (Hd : stop_distance_cm default_config < r_distance_cm r2).
  { vm_compute in H1. injection H1 as _ <-.
    vm_compute in H2. injection H2 as <- _. reflexivity. }
  destruct (dwell_time_boxes_phase default_config frozen_clock (Some 25)
              w1 w2 r2 TURN_RIGHT ltac:(discriminate) Hph Ham H2 Hd)
    as [Hstay _].
  assert (He : frozen_clock (reads w1) - phase_start (sensor w1)
               < dwell_of default_config TURN_RIGHT).
  { vm_compute in H1. injection H1 as _ <-. reflexivity. }
  destruct (Hstay He) as (Hr & _ & Hs & _). auto.
Defined.

(** X16: out of avoid mode and above the stop distance, a poll starts
    the maneuver exactly when the filtered distance is at or below the
    safe distance in force: then [TURN_RIGHT] is assigned and the sensor
    is in avoid mode; above that distance the sensor stays out of avoid
    mode, assigns no phase and reports no obstacle. *)
Theorem maneuver_starts_at_safe_distance
    (cfg : Config) (clock : nat -> Q) (raw : option Q)
    (w w' : World) (r : Report) :
  avoid_mode (sensor w) = false ->
  update cfg clock raw w = (r, w') ->
  stop_distance_cm cfg < r_distance_cm r ->
  (r_distance_cm r <= r_safe_distance r ->
     avoid_mode (sensor w') = true
     /\ exists later,
          assigned w' = later ++ Some TURN_RIGHT :: assigned w)
  /\ (r_safe_distance r < r_distance_cm r ->
      avoid_mode (sensor w') = false /\ assigned w' = assigned w
      /\ r_obstacle_near r = false /\ r_avoid_mode r = false
      /\ r_action r = None).
Proof.
  intros Ham. unfold update. unfold bind at 1.
  destruct (read_distance cfg raw w) as [d w1] eqn:Er.
  apply read_distance_keeps in Er.
  destruct Er as (Ea & _ & _ & _ & Eas).
  rewrite <- Ea in Ham. rewrite <- Eas. clear Ea Eas w.
  destruct w1 as [[am ph pst ld cr dsd] rd asg].
  cbn in Ham. subst am.
  destruct ph as [[]|].
  all: run_update.
  all: intro H; injection H as <- <-.
  all: try absurd_cond.
  all: cbn; intro Hd; conds; q_facts.
  all: split; intro He; try (exfalso; lra).
  all: repeat split; try reflexivity.
  all: try (exists []; reflexivity).
  all: try (eexists [_]; reflexivity).
  all: try (eexists [_; _]; reflexivity).
  all: try (eexists [_; _; _]; reflexivity).
  all: try (eexists [_; _; _; _]; reflexivity).
Qed.

Lemma maneuver_starts_at_safe_distance_witness :
  exists r w',
    update default_config frozen_clock (Some 25) (start default_config)
    = (r, w')
    /\ avoid_mode (sensor w') = true.
Proof.
  destruct (update default_config frozen_clock (Some 25)
              (start default_config)) as [r w'] eqn:Hu.
  exists r, w'. split; [reflexivity|].
  assert (Hd : stop_distance_cm default_config < r_distance_cm r)
    by (vm_compute in Hu; injection Hu as <- _; reflexivity).
  destruct (maneuver_starts_at_safe_distance default_config frozen_clock
              (Some 25) (start default_config) w' r eq_refl Hu Hd)
    as [Hin _].
  apply Hin. vm_compute in Hu. injection Hu as <- _. discriminate.
Defined.

End ObstacleSensorExtras.

(** ** Further properties of the marker localizer *)

Module QRDetectorExtras.

Import QRDetector QRSpec ExtraSpec QRDetectorFacts QRSelectionFacts.

(** X19: the offsets follow the marker across the image: moving the
    four corners by [(dx, dy)] adds [dx] to the horizontal and [dy] to
    the vertical centre offset and changes neither trend; for an
    upright rectangle the centre offsets are those of its middle, the
    yaw trend is zero and the pitch trend is its height. *)
Theorem offsets_follow_the_marker
    (cfg : Config) (pts : Corners) (dx dy x y a b : Q) :
  let o := _compute_offsets cfg pts in
  let o' := _compute_offsets cfg (translate (dx, dy) pts) in
  let u := _compute_offsets cfg (upright x y a b) in
  (cx_off o' == cx_off o + dx /\ cy_off o' == cy_off o + dy
   /\ yaw_trend o' == yaw_trend o /\ pitch_trend o' == pitch_trend o)
  /\ (cx_off u == x + a / 2 - cx cfg /\ cy_off u == y + b / 2 - cy cfg
      /\ yaw_trend u == 0 /\ pitch_trend u == b).
Proof.
  destruct pts as [[[[x0 y0] [x1 y1]] [x2 y2]] [x3 y3]].
  cbn. repeat split; field.
Qed.

Section FirstWins.

Variable cfg : Config.
Variable norm : Point -> Q.

Lemma best_first_step seen best c :
  best_ok cfg norm seen best -> best_first cfg norm seen best ->
  best_first cfg norm (seen ++ [c]) (consider cfg norm best c).
Proof.
  intros Hok Hf.
  assert (Hkeep : best_first cfg norm (seen ++ [c]) best).
  { unfold best_first in *.
    destruct (fst best) as [[[d pts] z]|]; [|exact I].
    destruct Hf as (l1 & l2 & -> & Hl).
    exists l1, (l2 ++ [c]). split; [|exact Hl].
    rewrite <- app_assoc. reflexivity. }
  destruct c as [d pts]. unfold consider.
  destruct (is_empty d); [exact Hkeep|].
  destruct (Py.ltb (pixel_size norm pts) 20); [exact Hkeep|].
  destruct (_estimate_distance cfg norm pts) as [z|] eqn:Ez; [|exact Hkeep].
  destruct (Py.ltb z (snd best)) eqn:El; [|exact Hkeep].
  apply PyFacts.ltb_lt in El.
  unfold best_first. cbn.
  exists seen, []. split; [reflexivity|].
  intros c' Hc' Hk'.
  unfold best_ok in Hok.
  destruct (fst best) as [[[d0 pts0] z0]|].
  - destruct Hok as (_ & _ & _ & Hs & _ & Hmin).
    specialize (Hmin c' Hc' Hk'). rewrite Hs in El. lra.
  - destruct Hok as [Hs Hmin].
    specialize (Hmin c' Hc' Hk'). rewrite Hs in El. lra.
Qed.

Lemma best_first_fold l : forall seen best,
  best_ok cfg norm seen best -> best_first cfg norm seen best ->
  best_first cfg norm (seen ++ l) (fold_left (consider cfg norm) l best).
Proof.
  induction l as [|c l IH]; intros seen best Hok Hf; simpl.
  - now rewrite app_nil_r.
  - replace (seen ++ c :: l) with ((seen ++ [c]) ++ l)
      by (rewrite <- app_assoc; reflexivity).
    apply IH; [apply best_ok_step, Hok | apply best_first_step; assumption].
Qed.

(** X21: among equally close markers the first one the decoder lists
    wins: every candidate with a payload and an edge of at least 20 px
    that comes before the target of [detect] in the frame is strictly
    farther than the target. *)
Theorem first_closest_marker_wins (frame : Decoded) (t : Target) :
  detect cfg norm frame = Some t ->
  exists pl l1 l2,
    pts_list frame = Some pl
    /\ zip (data_list frame) pl = l1 ++ (data t, points t) :: l2
    /\ forall d pts, In (d, pts) l1 -> d <> ""%string ->
         20 <= pixel_size norm pts ->
         target_distance_cm t < dist_of cfg norm pts.
Proof.
  unfold detect, conclude.
  destruct (pts_list frame) as [pl|]; [|discriminate].
  destruct (negb (retval frame) || _); [discriminate|].
  pose proof (best_first_fold (zip (data_list frame) pl) [] no_best
                (best_ok_start cfg norm) I) as Hf.
  cbn [app] in Hf. unfold best_first in Hf.
  destruct (fst (fold_left _ _ no_best)) as [[[d pts] z]|]; [|discriminate].
  intro H. injection H as <-. cbn.
  destruct Hf as (l1 & l2 & Hz & Hl).
  exists pl, l1, l2. repeat split; try assumption.
  intros d' pts' Hin Hne Hsz.
  apply (Hl (d', pts') Hin). split; cbn; [|exact Hsz].
  destruct (is_empty d') eqn:E; [|reflexivity].
  apply empty_string_iff in E. contradiction.
Qed.

End FirstWins.

Lemma first_closest_marker_wins_witness :
  exists t,
    detect sample_config horizontal_norm
      {| retval := true;
         data_list := ["00001"; "00002"]%string;
         pts_list := Some [square 10 10 40; square 100 10 40] |} = Some t
    /\ data t = "00001"%string.
Proof.
  destruct (detect sample_config horizontal_norm _) as [t|] eqn:Ht;
    [|vm_compute in Ht; discriminate].
  exists t. split; [reflexivity|].
  destruct (first_closest_marker_wins sample_config horizontal_norm _ t Ht)
    as (pl & l1 & l2 & _ & _ & _).
  vm_compute in Ht. injection Ht as <-. reflexivity.
Defined.

End QRDetectorExtras.

(** ** Further properties of the mode orchestrator *)

Module OrchestratorExtras.

Import Orchestrator OrchestratorSpec.

Lemma avoidance_loop_hands_back (env : nat -> AvoidRound) (g : Globals) :
  control_mode g = avoidance ->
  (forall i, avoid_operator (env i) = None) ->
  forall k fuel a i, (a + k = 5)%nat -> (S k <= fuel)%nat ->
    exists g' n,
      avoidance_loop fuel env i g a = Some (g', n)
      /\ ((a <= n <= 5)%nat /\ ((a < 5)%nat -> (a < n)%nat))
      /\ control_mode g' = auto
      /\ auto_threads_started g' = S (auto_threads_started g)
      /\ target_qr_detected g' = target_qr_detected g.
Proof.
  intros Hm Hop.
  induction k as [|k IH]; intros fuel a i Ha Hf;
    (destruct fuel as [|fuel]; [lia|]); cbn [avoidance_loop];
    rewrite Hop; cbn [observe]; rewrite Hm; cbn [mode_eqb andb].
  - assert (a = 5%nat) as -> by lia. cbn.
    eexists _, _. split; [reflexivity|]. split; [lia|].
    cbn. repeat split.
  - assert (Hlt : (a <? max_avoidance_attempts)%nat = true)
      by (apply Nat.ltb_lt; unfold max_avoidance_attempts; lia).
    rewrite Hlt.
    assert (Hrec : exists g' n,
               avoidance_loop fuel env (S i) g (S a) = Some (g', n)
               /\ ((a <= n <= 5)%nat /\ ((a < 5)%nat -> (a < n)%nat))
               /\ control_mode g' = auto
               /\ auto_threads_started g' = S (auto_threads_started g)
               /\ target_qr_detected g' = target_qr_detected g).
    { destruct (IH fuel (S a) (S i)) as (g' & n & E & Hn & R); [lia|lia|].
      exists g', n. split; [exact E|]. split; [lia|exact R]. }
    destruct (avoid_outcome (env i)) as [d|]; [|exact Hrec].
    destruct (recovered d); [|exact Hrec].
    eexists _, _. split; [reflexivity|]. split; [lia|].
    cbn. repeat split.
Qed.

(** X22: the avoidance loop always hands the car back: entered in the
    avoidance mode, and with no key pressed meanwhile,
    [avoidance_control_loop] returns after one to five attempts,
    whatever the sensor measures and whatever [avoidance_behavior]
    raises, with [control_mode] set to [auto], exactly one new auto
    thread started and [target_qr_detected] untouched. *)
Theorem avoidance_hands_back_to_auto
    (env : nat -> AvoidRound) (g : Globals) (fuel : nat) :
  control_mode g = avoidance ->
  (forall i, avoid_operator (env i) = None) ->
  (6 <= fuel)%nat ->
  exists g' n,
    avoidance_control_loop fuel env g = Some (g', n)
    /\ (1 <= n <= 5)%nat
    /\ control_mode g' = auto
    /\ auto_threads_started g' = S (auto_threads_started g)
    /\ target_qr_detected g' = target_qr_detected g.
Proof.
  intros Hm Hop Hf.
  destruct (avoidance_loop_hands_back env g Hm Hop 5 fuel 0 0)
    as (g' & n & E & Hn & R); [reflexivity|lia|].
  exists g', n. split; [exact E|]. split; [lia|exact R].
Qed.

Lemma avoidance_hands_back_to_auto_witness :
  exists g' n,
    avoidance_control_loop 6 never_clear avoiding = Some (g', n)
    /\ control_mode g' = auto
    /\ auto_threads_started g' = 2%nat.
Proof.
  destruct (avoidance_hands_back_to_auto never_clear avoiding 6)
    as (g' & n & E & _ & Hm & Ht & _);
    [reflexivity | intro; reflexivity | lia |].
  exists g', n. repeat split; assumption.
Defined.

Lemma search_loop_outcome (env : nat -> SearchRound) :
  forall k fuel a g, (a + k = 5)%nat -> (S k <= fuel)%nat ->
    exists g' n,
      search_loop fuel env a g a = Some (g', n)
      /\ (a <= n <= 5)%nat
      /\ ((a < n)%nat
          /\ search_outcome (env (pred n)) = Reacquired
          /\ target_qr_detected g' = true
          /\ control_mode g' = auto
          /\ auto_threads_started g' = S (auto_threads_started g)
          \/ auto_threads_started g' = auto_threads_started g
             /\ target_qr_detected g' = target_qr_detected g
             /\ (control_mode g' = search -> n = 5%nat)).
Proof.
  induction k as [|k IH]; intros fuel a g Ha Hf;
    (destruct fuel as [|fuel]; [lia|]); cbn [search_loop].
  - assert (a = 5%nat) as -> by lia.
    rewrite andb_false_r.
    eexists _, _. split; [reflexivity|]. split; [lia|]. right.
    destruct (search_operator (env 5%nat)); cbn; auto.
  - destruct (mode_eqb (control_mode (observe _ g)) search) eqn:Em;
      cbn [andb].
    + assert (Hlt : (a <? max_search_attempts)%nat = true)
        by (apply Nat.ltb_lt; unfold max_search_attempts; lia).
      rewrite Hlt.
      assert (Hrec : exists g' n,
                 search_loop fuel env (S a)
                   (observe (search_operator (env a)) g) (S a)
                 = Some (g', n)
                 /\ (a <= n <= 5)%nat
                 /\ ((a < n)%nat
                     /\ search_outcome (env (pred n)) = Reacquired
                     /\ target_qr_detected g' = true
                     /\ control_mode g' = auto
                     /\ auto_threads_started g'
                        = S (auto_threads_started g)
                     \/ auto_threads_started g' = auto_threads_started g
                        /\ target_qr_detected g' = target_qr_detected g
                        /\ (control_mode g' = search -> n = 5%nat))).
      { destruct (IH fuel (S a) (observe (search_operator (env a)) g))
          as (g' & n & E & Hn & R); [lia|lia|].
        exists g', n. split; [exact E|]. split; [lia|].
        assert (Hobs : auto_threads_started
                         (observe (search_operator (env a)) g)
                       = auto_threads_started g
                       /\ target_qr_detected
                            (observe (search_operator (env a)) g)
                          = target_qr_detected g)
          by (destruct (search_operator (env a)); cbn; auto).
        destruct Hobs as [Ht Hq]. rewrite Ht, Hq in R.
        destruct R as [(L & R)|R]; [left; split; [lia|exact R]|right; exact R]. }
      destruct (search_outcome (env a)) eqn:Eo;
        [|exact Hrec|exact Hrec].
      eexists _, _. split; [reflexivity|]. split; [lia|]. left.
      cbn. repeat split; try lia; try assumption.
      destruct (search_operator (env a)); reflexivity.
    + eexists _, _. split; [reflexivity|]. split; [lia|]. right.
      repeat split.
      * destruct (search_operator (env a)); reflexivity.
      * destruct (search_operator (env a)); reflexivity.
      * intro Hs. rewrite Hs in Em. discriminate.
Qed.

(** X23: the search loop starts the auto mode again only on sight of
    the marker.  With six tests of its condition or more,
    [search_control_loop] returns after at most five attempts, whatever
    the camera and the operator do, and either its last attempt found
    the marker, and then [target_qr_detected] is set, [control_mode] is
    [auto] and one auto thread was started, or it started no thread and
    left [target_qr_detected] alone; in this second case it leaves
    [control_mode] at [search] only when all five attempts were used. *)
Theorem search_restarts_auto_only_on_sight
    (env : nat -> SearchRound) (g : Globals) (fuel : nat) :
  (6 <= fuel)%nat ->
  exists g' n,
    search_control_loop fuel env g = Some (g', n)
    /\ (n <= 5)%nat
    /\ ((1 <= n)%nat
        /\ search_outcome (env (pred n)) = Reacquired
        /\ target_qr_detected g' = true
        /\ control_mode g' = auto
        /\ auto_threads_started g' = S (auto_threads_started g)
        \/ auto_threads_started g' = auto_threads_started g
           /\ target_qr_detected g' = target_qr_detected g
           /\ (control_mode g' = search -> n = 5%nat)).
Proof.
  intro Hf.
  destruct (search_loop_outcome env 5 fuel 0 g) as (g' & n & E & Hn & R);
    [reflexivity|lia|].
  exists g', n. split; [exact E|]. split; [lia|].
  destruct R as [(L & R)|R]; [left; split; [lia|exact R]|right; exact R].
Qed.

Lemma search_restarts_auto_only_on_sight_witness :
  exists g' n,
    search_control_loop 6 never_found searching = Some (g', n)
    /\ (n <= 5)%nat.
Proof.
  destruct (search_restarts_auto_only_on_sight never_found searching 6)
    as (g' & n & E & Hn & _); [lia|].
  exists g', n. split; assumption.
Defined.

End OrchestratorExtras.

(** ** Motor output of the tracking program *)

Module TrackMotorFacts.

Import TrackMotor ExtraSpec.

(** X24: [drive_motor] never writes a duty cycle outside 0..100 and
    never drives both pins of a motor; the signed duty cycle of a motor
    (forward pin minus reverse pin) is 100 times the speed for a speed
    between -1 and 1 and stays at 100 or -100 beyond. *)
Theorem drive_motor_duty_is_safe (left_ right_ : Q) :
  let p := drive_motor left_ right_ in
  duties_within 100 p /\ one_pin_each p
  /\ (-1 <= left_ <= 1 -> left_pwm1 p - left_pwm2 p == 100 * left_)
  /\ (-1 <= right_ <= 1 -> right_pwm1 p - right_pwm2 p == 100 * right_)
  /\ (1 <= left_ -> left_pwm1 p - left_pwm2 p == 100)
  /\ (left_ <= -1 -> left_pwm1 p - left_pwm2 p == -100)
  /\ (1 <= right_ -> right_pwm1 p - right_pwm2 p == 100)
  /\ (right_ <= -1 -> right_pwm1 p - right_pwm2 p == -100).
Proof.
  unfold drive_motor, duties_within, one_pin_each, Py.min.
  destruct (Py.leb 0 left_) eqn:El; destruct (Py.leb 0 right_) eqn:Er;
    split_ifs; q_facts; cbn;
    repeat split; intros; try lra; auto with qarith.
Qed.

End TrackMotorFacts.

(** ** Motor commands and the tracking loop of the car *)

Module CarFacts.

Import Car ExtraSpec.

(** Follow the branches of the goal, the innermost test first. *)
Ltac split_inner :=
  repeat match goal with
         | |- context [if ?b then _ else _] =>
             lazymatch b with
             | context [if _ then _ else _] => fail
             | _ => destruct b eqn:?
             end
         end.

Lemma np_clip_range (x lo hi : Q) :
  lo <= hi -> lo <= np_clip x lo hi /\ np_clip x lo hi <= hi.
Proof.
  intro H. unfold np_clip, Py.min, Py.max.
  destruct (Py.ltb x lo) eqn:Ex; split_ifs; q_facts; lra.
Qed.

Lemma np_clip_mono (x y lo hi : Q) :
  x <= y -> np_clip x lo hi <= np_clip y lo hi.
Proof.
  intro H. unfold np_clip, Py.min, Py.max.
  destruct (Py.ltb x lo) eqn:Ex; destruct (Py.ltb y lo) eqn:Ey;
    split_ifs; q_facts; lra.
Qed.

Lemma np_clip_inside (x lo hi : Q) :
  lo <= x -> x <= hi -> np_clip x lo hi == x.
Proof.
  intros H1 H2. unfold np_clip, Py.min, Py.max.
  destruct (Py.ltb x lo) eqn:Ex; split_ifs; q_facts; lra.
Qed.

Lemma np_clip_below (x lo hi : Q) :
  lo <= hi -> x <= lo -> np_clip x lo hi == lo.
Proof.
  intros H1 H2. unfold np_clip, Py.min, Py.max.
  destruct (Py.ltb x lo) eqn:Ex; split_ifs; q_facts; lra.
Qed.

(** The duty cycles [set_motor_vector] writes for speeds within
    [-m, m], [m] being at most 100. *)
Lemma set_motor_vector_duties (m left_ right_ : Q) (g : Globals) :
  - m <= left_ -> left_ <= m -> - m <= right_ -> right_ <= m ->
  duties_within m (pwm (set_motor_vector left_ right_ g))
  /\ one_pin_each (pwm (set_motor_vector left_ right_ g)).
Proof.
  intros H1 H2 H3 H4.
  unfold set_motor_vector, duties_within, one_pin_each, Py.min.
  destruct (Py.leb 0 left_) eqn:El; destruct (Py.leb 0 right_) eqn:Er;
    split_ifs; q_facts; cbn;
    repeat split; try lra; auto with qarith.
Qed.

Lemma set_motor_vector_vector (left_ right_ : Q) (g : Globals) :
  motor_vector (set_motor_vector left_ right_ g) = (left_, right_).
Proof.
  unfold set_motor_vector.
  destruct (Py.leb 0 left_); destruct (Py.leb 0 right_); reflexivity.
Qed.

(** X25: the tracking command respects the speed limit.  For a speed
    setting that is not negative, [qr_tracking_behavior] commands wheel
    speeds within [min(SPEED_LIMIT, current_speed)] in both directions,
    so no pin gets more than 70 percent duty and no motor has both pins
    driven; it remembers the clipped speeds as the last valid command;
    and a marker left of column 320 never makes the left wheel slower
    than the right one, a marker right of it never faster. *)
Theorem tracking_respects_speed_limit
    (qr_size qr_center_x qr_center_y : Q) (g : Globals) :
  0 <= current_speed g ->
  let g' := qr_tracking_behavior qr_size qr_center_x qr_center_y g in
  let m := Py.min SPEED_LIMIT (current_speed g) in
  (- m <= fst (motor_vector g') /\ fst (motor_vector g') <= m)
  /\ (- m <= snd (motor_vector g') /\ snd (motor_vector g') <= m)
  /\ m <= 70
  /\ duties_within m (pwm g') /\ one_pin_each (pwm g')
  /\ (last_valid_qr_left g', last_valid_qr_right g') = motor_vector g'
  /\ last_qr_center_x g' = qr_center_x
  /\ (qr_center_x <= 320 -> snd (motor_vector g') <= fst (motor_vector g'))
  /\ (320 <= qr_center_x ->
      fst (motor_vector g') <= snd (motor_vector g')).
Proof.
  intros Hs g' m.
  assert (Hm : 0 <= m /\ m <= 70).
  { subst m. unfold Py.min, SPEED_LIMIT. split_ifs; q_facts; lra. }
  assert (Hlo : - m <= m) by lra.
  subst g'. unfold qr_tracking_behavior.
  rewrite set_motor_vector_vector. cbn [fst snd].
  fold m.
  set (base := 0.5 * (qr_size - QR_SIZE_THRESHOLD)
               + 0.2 * (240 - qr_center_y)).
  set (steer := 0.3 * (qr_center_x - 320)).
  pose proof (np_clip_range (base - steer) (- m) m Hlo) as [L1 L2].
  pose proof (np_clip_range (base + steer) (- m) m Hlo) as [R1 R2].
  split; [split; assumption|].
  split; [split; assumption|].
  split; [apply Hm|].
  destruct (set_motor_vector_duties m
              (np_clip (base - steer) (- m) m)
              (np_clip (base + steer) (- m) m)
              (set_last_valid (np_clip (base - steer) (- m) m)
                 (np_clip (base + steer) (- m) m) qr_center_x g)
              L1 L2 R1 R2) as [D1 D2].
  split; [exact D1|]. split; [exact D2|].
  split.
  { unfold set_motor_vector.
    destruct (Py.leb 0 _); destruct (Py.leb 0 _); reflexivity. }
  split.
  { unfold set_motor_vector.
    destruct (Py.leb 0 _); destruct (Py.leb 0 _); reflexivity. }
  split; intro Hx; apply np_clip_mono; subst steer; lra.
Qed.

Lemma tracking_respects_speed_limit_witness :
  0 <= current_speed (tracking_car 0 0)
  /\ duties_within 70
       (pwm (qr_tracking_behavior 100 320 140 (tracking_car 0 0))).
Proof.
  split; [vm_compute; discriminate|].
  destruct (tracking_respects_speed_limit 100 320 140 (tracking_car 0 0))
    as (_ & _ & _ & D & _); [vm_compute; discriminate|].
  exact D.
Defined.

Lemma coasting_passes (env : nat -> AutoRound) :
  (forall i, auto_operator (env i) = None) ->
  (forall i, closer_than (auto_distance (env i)) (SAFE_DISTANCE / 2)
             = false) ->
  (forall i, auto_detection (env i) = None) ->
  forall k fuel i g,
    control_mode g = Orchestrator.auto ->
    (qr_lost_count g + k = 10)%nat ->
    (S k <= fuel)%nat ->
    negb (Qeq_bool (last_valid_qr_left g) 0)
    || negb (Qeq_bool (last_valid_qr_right g) 0) = true ->
    exists g',
      tracking_loop fuel env i g = Some (g', S (i + k))
      /\ control_mode g' = Orchestrator.search
      /\ qr_lost_count g' = 11%nat
      /\ target_qr_detected g' = target_qr_detected g
      /\ last_valid_qr_left g' = last_valid_qr_left g
      /\ last_valid_qr_right g' = last_valid_qr_right g
      /\ ((0 < k)%nat ->
          motor_vector g' = (last_valid_qr_left g, last_valid_qr_right g))
      /\ (k = 0%nat -> motor_vector g' = motor_vector g).
Proof.
  intros Hop Hfar Hnone.
  induction k as [|k IH]; intros fuel i g Hm Hc Hf Hnz;
    (destruct fuel as [|fuel]; [lia|]); cbn [tracking_loop];
    rewrite Hop; cbn [observe]; rewrite Hm; cbn [Orchestrator.mode_eqb];
    rewrite Hfar, Hnone; cbn [set_counters qr_lost_count
                                 last_valid_qr_left last_valid_qr_right
                                 search_step].
  - assert (qr_lost_count g = 10%nat) as -> by lia.
    cbn [Nat.leb MAX_QR_LOST_COUNT andb].
    eexists. split; [rewrite Nat.add_0_r; reflexivity|].
    cbn. repeat split. intro; lia.
  - assert (Hle : Nat.leb (S (qr_lost_count g)) MAX_QR_LOST_COUNT = true)
      by (apply Nat.leb_le; unfold MAX_QR_LOST_COUNT; lia).
    rewrite Hle, Hnz. cbn [andb].
    set (g1 := set_motor_vector _ _ _).
    assert (H1 : control_mode g1 = Orchestrator.auto
                 /\ qr_lost_count g1 = S (qr_lost_count g)
                 /\ target_qr_detected g1 = target_qr_detected g
                 /\ last_valid_qr_left g1 = last_valid_qr_left g
                 /\ last_valid_qr_right g1 = last_valid_qr_right g
                 /\ motor_vector g1
                    = (last_valid_qr_left g, last_valid_qr_right g)).
    { subst g1. unfold set_motor_vector.
      destruct (Py.leb 0 _); destruct (Py.leb 0 _); cbn;
        repeat split; exact Hm. }
    destruct H1 as (M1 & C1 & T1 & L1 & R1 & V1).
    destruct (IH fuel (S i) g1) as (g' & E & Hs & Hl & Ht & Hll & Hrr & Hv & Hv0);
      [exact M1 | lia | lia | rewrite L1, R1; exact Hnz |].
    exists g'. split; [rewrite E; f_equal; f_equal; lia|].
    rewrite Ht, Hll, Hrr, T1, L1, R1.
    repeat split; try assumption; [|intro; lia].
    intros _. destruct k as [|k].
    + rewrite (Hv0 eq_refl). exact V1.
    + rewrite Hv by lia. rewrite L1, R1. reflexivity.
Qed.

(** X26: blind driving is bounded.  Right after a sighting (lost count
    0), with the marker out of sight from then on, no obstacle nearer
    than 15 cm and no key pressed, the tracking loop repeats the last
    valid command for ten passes and leaves at the eleventh with
    [control_mode] set to [search], the motors still running that
    command; when the last valid command is zero on both wheels it
    leaves at the first pass without touching the motors. *)
Theorem blind_coasting_is_bounded
    (env : nat -> AutoRound) (g : Globals) (fuel : nat) :
  control_mode g = Orchestrator.auto ->
  qr_lost_count g = 0%nat ->
  (forall i, auto_operator (env i) = None) ->
  (forall i, closer_than (auto_distance (env i)) (SAFE_DISTANCE / 2)
             = false) ->
  (forall i, auto_detection (env i) = None) ->
  (11 <= fuel)%nat ->
  exists g' n,
    tracking_loop fuel env 0 g = Some (g', n)
    /\ control_mode g' = Orchestrator.search
    /\ target_qr_detected g' = target_qr_detected g
    /\ (~ last_valid_qr_left g == 0 \/ ~ last_valid_qr_right g == 0 ->
        n = 11%nat /\ qr_lost_count g' = 11%nat
        /\ motor_vector g'
           = (last_valid_qr_left g, last_valid_qr_right g))
    /\ (last_valid_qr_left g == 0 -> last_valid_qr_right g == 0 ->
        n = 1%nat /\ motor_vector g' = motor_vector g /\ pwm g' = pwm g).
Proof.
  intros Hm Hc Hop Hfar Hnone Hf.
  destruct (negb (Qeq_bool (last_valid_qr_left g) 0)
            || negb (Qeq_bool (last_valid_qr_right g) 0)) eqn:Hnz.
  - destruct (coasting_passes env Hop Hfar Hnone 10 fuel 0 g)
      as (g' & E & Hs & Hl & Ht & _ & _ & Hv & _);
      [exact Hm | lia | lia | exact Hnz |].
    exists g', 11%nat. split; [exact E|].
    split; [exact Hs|]. split; [exact Ht|]. split.
    + intros _. split; [reflexivity|]. split; [exact Hl|].
      apply Hv. lia.
    + intros Zl Zr. exfalso.
      apply Qeq_bool_iff in Zl. apply Qeq_bool_iff in Zr.
      rewrite Zl, Zr in Hnz. discriminate.
  - destruct fuel as [|fuel]; [lia|]. cbn [tracking_loop].
    rewrite Hop; cbn [observe]; rewrite Hm; cbn [Orchestrator.mode_eqb].
    rewrite Hfar, Hnone.
    cbn [set_counters qr_lost_count last_valid_qr_left
           last_valid_qr_right search_step].
    rewrite Hnz, andb_false_r.
    eexists _, _. split; [reflexivity|]. cbn.
    split; [reflexivity|]. split; [reflexivity|]. split.
    + apply orb_false_iff in Hnz. destruct Hnz as [Hl Hr].
      apply negb_false_iff in Hl. apply negb_false_iff in Hr.
      apply Qeq_bool_iff in Hl. apply Qeq_bool_iff in Hr.
      intros [H|H]; contradiction.
    + intros _ _. repeat split.
Qed.

Lemma blind_coasting_is_bounded_witness :
  exists g',
    tracking_loop 11 marker_gone 0 (tracking_car 40 25) = Some (g', 11%nat)
    /\ control_mode g' = Orchestrator.search
    /\ motor_vector g' = (40, 25).
Proof.
  destruct (blind_coasting_is_bounded marker_gone (tracking_car 40 25) 11)
    as (g' & n & E & Hs & _ & Hnz & _);
    [reflexivity | reflexivity | intro; reflexivity | intro; reflexivity
    | intro; reflexivity | lia |].
  destruct Hnz as (-> & _ & Hv); [left; intro H; vm_compute in H; discriminate|].
  exists g'. repeat split; assumption.
Defined.

(** X27: in front of an obstacle nearer than [SAFE_DISTANCE] the car
    backs away, and never faster than the speed setting.  For a speed
    setting in (0, 100] and a turn bias of at most half of it (what
    [turn_left] and [turn_right] set), [avoidance_behavior] commands
    both wheels backwards, within [current_speed]; driving straight,
    both wheels get [-current_speed] from 15 cm on and
    [-min(80, current_speed)] below 15 cm, so the emergency retreat is
    never the faster one. *)
Theorem near_obstacle_backs_away (coin d : Q) (g : Globals) :
  0 < current_speed g -> current_speed g <= 100 ->
  Qabs (manual_turn_bias g) <= current_speed g / 2 ->
  d < SAFE_DISTANCE ->
  let g' := avoidance_behavior coin (Some d) g in
  (- current_speed g <= fst (motor_vector g')
   /\ fst (motor_vector g') < 0)
  /\ (- current_speed g <= snd (motor_vector g')
      /\ snd (motor_vector g') < 0)
  /\ (manual_turn_bias g == 0 ->
      (SAFE_DISTANCE / 2 <= d ->
         fst (motor_vector g') == - current_speed g
         /\ snd (motor_vector g') == - current_speed g)
      /\ (d < SAFE_DISTANCE / 2 ->
         fst (motor_vector g') == - Py.min 80 (current_speed g)
         /\ snd (motor_vector g') == - Py.min 80 (current_speed g))).
Proof.
  intros Hs Hs' Hb Hd g'. subst g'.
  apply Qabs_Qle_condition in Hb. destruct Hb as [Hb1 Hb2].
  unfold SAFE_DISTANCE in *.
  unfold avoidance_behavior, closer_than, SAFE_DISTANCE.
  destruct (Py.ltb d (30 / 2)) eqn:Ee.
  - unfold move_backward, speed_or_current, apply_manual_control.
    rewrite set_motor_vector_vector.
    cbn [set_manual manual_base_speed manual_turn_bias current_speed
           fst snd].
    unfold np_clip, Py.min, Py.max.
    split_inner; q_facts; unfold Qdiv in *;
      change (/ 2) with (1 # 2) in *; repeat split; intros; lra.
  - assert (Hn : Py.ltb d 30 = true) by (apply PyFacts.ltb_lt; exact Hd).
    rewrite Hn.
    unfold move_backward, speed_or_current, apply_manual_control.
    rewrite set_motor_vector_vector.
    cbn [set_manual manual_base_speed manual_turn_bias current_speed
           fst snd].
    unfold np_clip, Py.min, Py.max.
    split_inner; q_facts; unfold Qdiv in *;
      change (/ 2) with (1 # 2) in *; repeat split; intros; lra.
Qed.

Lemma near_obstacle_backs_away_witness :
  fst (motor_vector (avoidance_behavior 0 (Some 10) (tracking_car 0 0))) < 0
  /\ snd (motor_vector (avoidance_behavior 0 (Some 10) (tracking_car 0 0)))
     < 0.
Proof.
  destruct (near_obstacle_backs_away 0 10 (tracking_car 0 0))
    as ((_ & L) & (_ & R) & _);
    try (vm_compute; first [reflexivity | discriminate]).
  split; assumption.
Defined.

Lemma set_motor_vector_step (left_ right_ : Q) (g : Globals) :
  search_step (set_motor_vector left_ right_ g) = search_step g.
Proof.
  unfold set_motor_vector.
  destruct (Py.leb 0 left_); destruct (Py.leb 0 right_); reflexivity.
Qed.

(** The commands a search step holds while it sleeps. *)
Lemma search_log (front_distance left_distance right_distance : Distance)
    (g : Globals) :
  snd (qr_search_behavior front_distance left_distance right_distance
         (g, []))
  = [(-30, 30, 0.3); (0, 0, 0.2); (30, -30, 0.3); (0, 0, 0.2)]
    ++ (if farther left_distance right_distance
           && farther left_distance (Some SAFE_DISTANCE)
        then [(-40, 40, 0.5); (40, 40, 0.8); (40, -40, 0.5)]
        else if farther right_distance (Some SAFE_DISTANCE)
        then [(40, -40, 0.5); (40, 40, 0.8); (-40, 40, 0.5)]
        else [(-40, -40, 1.0)])
    ++ [(0, 0, 0.5)].
Proof.
  unfold qr_search_behavior.
  destruct (farther left_distance right_distance
            && farther left_distance (Some SAFE_DISTANCE));
    [|destruct (farther right_distance (Some SAFE_DISTANCE))];
    reflexivity.
Qed.

(** What a search step leaves in the globals. *)
Lemma search_end (front_distance left_distance right_distance : Distance)
    (g : Globals) :
  let s := qr_search_behavior front_distance left_distance right_distance
             (g, []) in
  motor_vector (fst s) = (0, 0)
  /\ pwm (fst s) = {| left_pwm1 := Py.min 0 100; left_pwm2 := 0;
                      right_pwm1 := Py.min 0 100; right_pwm2 := 0 |}
  /\ search_step (fst s)
     = if Nat.leb (SEARCH_STEPS * 2) (S (search_step g)) then 0%nat
       else S (search_step g).
Proof.
  unfold qr_search_behavior.
  destruct (farther left_distance right_distance
            && farther left_distance (Some SAFE_DISTANCE));
    [|destruct (farther right_distance (Some SAFE_DISTANCE))];
    cbn; repeat split.
Qed.

(** X29: a search step leaves the car stopped and facing the way it
    came.  Whatever the three distances, [qr_search_behavior] ends with
    both motors at zero, never commands more than 40 on a wheel, and the
    turns it holds during its own calls of [time.sleep] cancel out; it
    advances only when the side it chose is farther than
    [SAFE_DISTANCE] and backs up otherwise; and [search_step] stays
    below 6. *)
Theorem search_step_restores_heading
    (front_distance left_distance right_distance : Distance)
    (g : Globals) :
  let s := qr_search_behavior front_distance left_distance right_distance
             (g, []) in
  motor_vector (fst s) = (0, 0)
  /\ duties_within 0 (pwm (fst s))
  /\ speeds_within 40 (snd s)
  /\ heading_change (snd s) == 0
  /\ (farther left_distance (Some SAFE_DISTANCE) = true
      \/ farther right_distance (Some SAFE_DISTANCE) = true
      -> advance (snd s) == 64)
  /\ (farther left_distance (Some SAFE_DISTANCE) = false ->
      farther right_distance (Some SAFE_DISTANCE) = false ->
      advance (snd s) == -80)
  /\ ((search_step g < 6)%nat ->
      (search_step (fst s) < 6)%nat
      /\ search_step (fst s) = (S (search_step g) mod 6)%nat).
Proof.
  assert (Hleft : farther left_distance right_distance = true ->
                  farther right_distance (Some SAFE_DISTANCE) = true ->
                  farther left_distance (Some SAFE_DISTANCE) = true).
  { destruct left_distance as [x|], right_distance as [y|]; cbn;
      try discriminate; try reflexivity.
    intros H1 H2. q_facts. apply PyFacts.ltb_lt. lra. }
  assert (Hright : farther left_distance (Some SAFE_DISTANCE) = true ->
                   farther right_distance (Some SAFE_DISTANCE) = false ->
                   farther left_distance right_distance = true).
  { destruct left_distance as [x|], right_distance as [y|]; cbn;
      try discriminate; try reflexivity.
    intros H1 H2. q_facts. apply PyFacts.ltb_lt. lra. }
  intro s.
  pose proof (search_log front_distance left_distance right_distance g)
    as Hlog.
  pose proof (search_end front_distance left_distance right_distance g)
    as (Hv & Hp & Hstep).
  fold s in Hlog, Hv, Hp, Hstep.
  split; [exact Hv|].
  split; [rewrite Hp; unfold duties_within; cbn; repeat split; lra|].
  rewrite Hlog. clear Hlog Hv Hp.
  destruct (farther left_distance right_distance) eqn:E1;
    destruct (farther left_distance (Some SAFE_DISTANCE)) eqn:E2;
    destruct (farther right_distance (Some SAFE_DISTANCE)) eqn:E3;
    try (specialize (Hleft eq_refl eq_refl); discriminate);
    try (specialize (Hright eq_refl eq_refl); discriminate);
    cbn [andb].
  all: split;
    [unfold speeds_within;
     repeat (apply Forall_cons; [cbn; repeat split; lra|]);
     apply Forall_nil|].
  all: split; [vm_compute; reflexivity|].
  all: split; [intros [H|H]; try discriminate H; vm_compute; reflexivity|].
  all: split;
    [intros H H'; try discriminate H; try discriminate H';
     vm_compute; reflexivity|].
  all: intro Hs; rewrite Hstep; cbn [SEARCH_STEPS Nat.mul Nat.add].
  all: destruct (Nat.leb 6 (S (search_step g))) eqn:El;
    [apply Nat.leb_le in El;
     assert (Hfive : search_step g = 5%nat) by lia;
     rewrite Hfive; split; [lia|reflexivity]
    |apply Nat.leb_gt in El;
     split; [lia|symmetry; apply Nat.mod_small; lia]].
Qed.

End CarFacts.

(** ** Further properties of the baseline motion controller *)

Module BaseMotionExtras.

Import BaseMotion MotionSpec ExtraSpec.

Lemma clamp_compat (cfg : Config) (x y : Q) :
  x == y -> _clamp cfg x == _clamp cfg y.
Proof.
  intro H. unfold _clamp, Py.max, Py.min.
  destruct (Py.ltb x (max_speed cfg)) eqn:Ex;
    destruct (Py.ltb y (max_speed cfg)) eqn:Ey;
    split_ifs; q_facts; lra.
Qed.

(** X28: the wheels of the baseline tracking command.  With no
    avoidance under way and the marker in view beyond the stop distance,
    [compute] answers [track_follow]; inside the dead zone the left
    wheel gets the clamped [base_turn], whatever the distance, and the
    right wheel the clamped [forward_comp] times the forward speed;
    outside the dead zone the left wheel gets that forward term and the
    right wheel the clamped [base_turn * (1 + turn_comp)] for a marker
    right of the centre, [base_turn * (1 - turn_comp)] left of it. *)
Theorem baseline_tracking_wheels
    (cfg : Config) (st : State) (qr : QrState) (obst : ObstacleState)
    (dist : Q) (off : Offsets) :
  avoid_mode obst = Some false ->
  qr_lost qr = Some false ->
  qr_distance_cm qr = Some dist -> qr_offsets qr = Some off ->
  stop_near cfg < dist ->
  let forward :=
    _clamp cfg (base_forward cfg + kp_dist cfg * (dist - stop_near cfg)
                + kp_pitch cfg
                  * snd (_slope_adjust st (pitch_trend off) dist)) in
  exists cmd st',
    compute cfg st qr obst = Some (cmd, st')
    /\ mode cmd = "track_follow"%string
    /\ (Qabs (cx_off off) < dead_zone_px cfg ->
        left_speed cmd == _clamp cfg (base_turn cfg)
        /\ right_speed cmd == _clamp cfg (forward_comp cfg * forward))
    /\ (dead_zone_px cfg <= Qabs (cx_off off) ->
        left_speed cmd == _clamp cfg (forward_comp cfg * forward)
        /\ (0 <= cx_off off ->
            right_speed cmd
            == _clamp cfg (base_turn cfg * (1 + turn_comp cfg)))
        /\ (cx_off off < 0 ->
            right_speed cmd
            == _clamp cfg (base_turn cfg * (1 - turn_comp cfg)))).
Proof.
  intros Ham Hl Hd Ho Hs forward.
  unfold compute. rewrite Ham, Hl, Hd, Ho. cbn [get].
  apply PyFacts.leb_gt in Hs. rewrite Hs.
  destruct (_slope_adjust st (pitch_trend off) dist) as [st1 slope]
    eqn:Esl.
  cbn [snd] in forward.
  destruct (Py.ltb (Qabs (cx_off off)) (dead_zone_px cfg)) eqn:Ez.
  - eexists _, _. split; [reflexivity|]. cbn [mode left_speed right_speed].
    split; [reflexivity|]. split.
    + intros _. split; apply clamp_compat; unfold _vector_formula;
        fold forward; ring.
    + intro Hge. apply PyFacts.ltb_lt in Ez. lra.
  - eexists _, _. split; [reflexivity|]. cbn [mode left_speed right_speed].
    split; [reflexivity|]. split.
    + intro Hlt. apply PyFacts.ltb_ge in Ez. lra.
    + intros _. split; [|split].
      * apply clamp_compat. unfold _vector_formula. fold forward. ring.
      * intro Hc. apply clamp_compat. unfold _vector_formula, copysign1.
        assert (E : Py.ltb (cx_off off) 0 = false)
          by (apply PyFacts.ltb_ge; assumption).
        rewrite E. ring.
      * intro Hc. apply clamp_compat. unfold _vector_formula, copysign1.
        assert (E : Py.ltb (cx_off off) 0 = true)
          by (apply PyFacts.ltb_lt; assumption).
        rewrite E. ring.
Qed.

Lemma baseline_tracking_wheels_witness :
  exists cmd st',
    compute default_config init (marker_at 0 50) clear_path
    = Some (cmd, st')
    /\ left_speed cmd == 0.28
    /\ right_speed cmd == 0.616.
Proof.
  destruct (baseline_tracking_wheels default_config init (marker_at 0 50)
              clear_path 50
              {| cx_off := 0; cy_off := 0; yaw_trend := 0;
                 pitch_trend := 0 |})
    as (cmd & st' & E & _ & Hin & _);
    try reflexivity.
  exists cmd, st'. split; [exact E|].
  destruct Hin as [L R]; [reflexivity|].
  split; [rewrite L | rewrite R]; vm_compute; reflexivity.
Defined.

End BaseMotionExtras.
